(** * tapas/run_task_main_edited.py: prediction driver of the TAPAS fork

    A shallow embedding of the script's own logic: Python values and
    exceptions, numpy indexing, the probability table and the embedding table
    built from a sequence-prediction result, the files the script touches,
    and the control flow of [main], [_check_options], [_train_and_predict]
    and [_predict].  What the script takes from outside this file (the task
    utilities, the estimator and its input pipeline, the device queries) is
    a parameter, gathered in [Env]; what it does to the outside is a file
    map and a log of events. *)

From Stdlib Require Import ZArith QArith Lia Ascii String.
From stdpp Require Import gmap strings list fin_maps pretty.

Local Open Scope string_scope.
Local Open Scope list_scope.
Local Open Scope Z_scope.

(** ** Python exceptions and the error monad *)

Inductive exn : Type :=
| IndexError
| ValueError (msg : string)
| KeyError (key : string)
| FileNotFoundError (path : string)
| ZeroDivisionError
| NameError (name : string)
| TypeError
| UsageError (msg : string)
| OpError (msg : string).      (* tf.errors.OpError and its subclasses *)

Inductive res (A : Type) : Type :=
| Ok (a : A)
| Raise (e : exn).
Arguments Ok {A} a.
Arguments Raise {A} e.

#[global] Instance res_ret : MRet res := fun _ a => Ok a.
#[global] Instance res_bind : MBind res := fun _ _ f m =>
  match m with
  | Ok a => f a
  | Raise e => Raise e
  end.

Definition is_Ok {A} (m : res A) : Prop := exists a, m = Ok a.

(** A [for] loop whose body may raise: the first exception leaves the loop. *)
Fixpoint for_each {S I} (body : S -> I -> res S) (s : S) (l : list I) : res S :=
  match l with
  | [] => Ok s
  | i :: l' => s' ← body s i; for_each body s' l'
  end.

(** ** Python and numpy indexing *)

(** [py_norm n k]: the position a Python index [k] denotes in a sequence of
    length [n]; a negative index counts from the end, anything outside
    [-n, n) is an IndexError. *)
Definition py_norm (n : nat) (k : Z) : option nat :=
  let k' := if k <? 0 then k + Z.of_nat n else k in
  if (0 <=? k') && (k' <? Z.of_nat n) then Some (Z.to_nat k') else None.

Definition py_getitem {A} (l : list A) (k : Z) : res A :=
  match py_norm (length l) k with
  | Some j => match l !! j with Some x => Ok x | None => Raise IndexError end
  | None => Raise IndexError
  end.

Definition py_setitem {A} (l : list A) (k : Z) (x : A) : res (list A) :=
  match py_norm (length l) k with
  | Some j => Ok (<[j:=x]> l)
  | None => Raise IndexError
  end.

(** [range(a, b)] *)
Definition py_range (a b : Z) : list Z :=
  (fun k => a + Z.of_nat k) <$> seq 0 (Z.to_nat (b - a)).

(** The positions [a, a+1, ..., a+m-1]. *)
Definition upto (a : Z) (m : nat) : list Z :=
  (fun k => a + Z.of_nat k) <$> seq 0 m.

(** [max(xs)] of a sequence of ints; empty sequences raise. *)
Definition py_max (xs : list Z) : res Z :=
  match xs with
  | [] => Raise (ValueError "max() arg is an empty sequence")
  | x :: xs' => Ok (foldl Z.max x xs')
  end.

(** [len(xs)] *)
Definition py_len {A} (xs : list A) : Z := Z.of_nat (length xs).

(** [np.zeros((rows, cols))] and [np.zeros((rows, cols, d))], for any cell
    content [z]. *)
Definition np_zeros2 {A} (z : A) (rows cols : Z) : res (list (list A)) :=
  if (rows <? 0) || (cols <? 0)
  then Raise (ValueError "negative dimensions are not allowed")
  else Ok (replicate (Z.to_nat rows) (replicate (Z.to_nat cols) z)).

Definition np_zeros1 (d : Z) : res (list Q) :=
  if d <? 0 then Raise (ValueError "negative dimensions are not allowed")
  else Ok (replicate (Z.to_nat d) 0%Q).

(** [arr[r][c] = f(arr[r][c])]: the row view is taken first, then the item. *)
Definition np_update2 {A} (arr : list (list A)) (r c : Z) (f : A -> res A)
  : res (list (list A)) :=
  row ← py_getitem arr r;
  old ← py_getitem row c;
  new ← f old;
  row' ← py_setitem row c new;
  py_setitem arr r row'.

(** [a += b] on one-dimensional arrays of the same shape. *)
Definition np_iadd (a b : list Q) : res (list Q) :=
  if decide (length a = length b) then Ok (zip_with Qplus a b)
  else Raise (ValueError "operands could not be broadcast together").

(** The values a float division can produce from a finite sum and a count:
    rounding is not modelled, the special values are. *)
Inductive npfloat : Type :=
| Fin (q : Q)
| Inf (negative : bool)
| NaN.

Definition np_true_divide (s : Q) (n : Z) : npfloat :=
  if n =? 0 then
    if Qeq_bool s 0 then NaN else Inf (Qle_bool s 0)
  else Fin (s / inject_Z n)%Q.

Definition np_vdiv (v : list Q) (n : Z) : list npfloat :=
  (fun s => np_true_divide s n) <$> v.

(** ** Flags and prediction results *)

Record Flags : Type := {
  num_columns : Z;
  column_order : list Z;        (* entries as [int(...)] reads them *)
  write_prob_table : bool;
  write_embed_table : bool;
  output_dir : string;
  model_dir : option string;
  task : string;
  tapas_verbosity : option string;
  use_tpu : bool;
  test_batch_size : Z;
  train_batch_size : option Z;
  gradient_accumulation_steps : Z;
  test_mode : bool;
  max_seq_length : Z;
  mode : string;
  loop_predict : bool;
  compression_type : string
}.

(** One element of the sequence-prediction result. *)
Record Query : Type := {
  segment_ids : list Z;
  row_ids : list Z;
  column_ids : list Z;
  probabilities : list Q;
  embeddings : list (list Q)
}.

(** ** The probability table of one query (lines 498-505) *)

Definition prob_table_body (FLAGS : Flags) (query : Query)
    (result_array : list (list Q)) (i : Z) : res (list (list Q)) :=
  seg ← py_getitem (segment_ids query) i;
  cond ← (if seg =? 1 then
            rp ← py_getitem (row_ids query) (i - 1);
            r ← py_getitem (row_ids query) i;
            if negb (rp =? r) then Ok true
            else
              cp ← py_getitem (column_ids query) (i - 1);
              c ← py_getitem (column_ids query) i;
              Ok (negb (cp =? c))
          else Ok false);
  if (cond : bool) then
    row ← py_getitem (row_ids query) i;
    cid ← py_getitem (column_ids query) i;
    column ← py_getitem (column_order FLAGS) (cid - 1);
    prob ← py_getitem (probabilities query) i;
    cid' ← py_getitem (column_ids query) i;
    np_update2 result_array (row - 1) (cid' - 1) (fun _ => Ok prob)
  else Ok result_array.

Definition prob_table (FLAGS : Flags) (query : Query) : res (list (list Q)) :=
  num_rows ← py_max (row_ids query);
  result_array ← np_zeros2 0%Q num_rows (num_columns FLAGS);
  for_each (prob_table_body FLAGS query) result_array
           (py_range 1 (max_seq_length FLAGS)).

(** ** The embedding table of one query (lines 511-539) *)

Record EmbedState : Type := {
  embed_array : list (list (list Q));
  num_array : list (list Z);
  row : Z;
  column : Z;
  query_array : list Q;
  query_array_num : Z;
  at_beginning : bool
}.

(** First statement of the loop body (lines 522-525): the query tokens. *)
Definition embed_query_part (query : Query) (st : EmbedState) (i : Z)
  : res EmbedState :=
  seg ← py_getitem (segment_ids query) i;
  if (seg =? 0) && at_beginning st then
    counted ← (if negb (i =? 0) then
                 nxt ← py_getitem (segment_ids query) (i + 1);
                 Ok (negb (nxt =? 1))
               else Ok false);
    if (counted : bool) then
      e ← py_getitem (embeddings query) i;
      qa ← np_iadd (query_array st) e;
      Ok {| embed_array := embed_array st; num_array := num_array st;
            row := row st; column := column st;
            query_array := qa;
            query_array_num := query_array_num st + 1;
            at_beginning := at_beginning st |}
    else Ok st
  else Ok st.

(** Second statement of the loop body (lines 526-535): the table tokens. *)
Definition embed_cell_part (FLAGS : Flags) (query : Query) (st1 : EmbedState)
    (i : Z) : res EmbedState :=
  seg' ← py_getitem (segment_ids query) i;
  moved ← (if seg' =? 1 then
             r ← py_getitem (row_ids query) i;
             if row st1 =? r - 1 then
               cid ← py_getitem (column_ids query) i;
               co ← py_getitem (column_order FLAGS) (cid - 1);
               Ok (negb (column st1 =? co - 1))
             else Ok true
           else Ok false);
  if (moved : bool) then
    r ← py_getitem (row_ids query) i;
    cid ← py_getitem (column_ids query) i;
    co ← py_getitem (column_order FLAGS) (cid - 1);
    e ← py_getitem (embeddings query) i;
    ea ← np_update2 (embed_array st1) (r - 1) (co - 1) (fun old => np_iadd old e);
    na ← np_update2 (num_array st1) (r - 1) (co - 1) (fun n => Ok (n + 1));
    Ok {| embed_array := ea; num_array := na;
          row := r - 1; column := co - 1;
          query_array := query_array st1;
          query_array_num := query_array_num st1;
          at_beginning := false |}
  else
    seg'' ← py_getitem (segment_ids query) i;
    if seg'' =? 1 then
      e ← py_getitem (embeddings query) i;
      ea ← np_update2 (embed_array st1) (row st1) (column st1)
                      (fun old => np_iadd old e);
      na ← np_update2 (num_array st1) (row st1) (column st1)
                      (fun n => Ok (n + 1));
      Ok {| embed_array := ea; num_array := na;
            row := row st1; column := column st1;
            query_array := query_array st1;
            query_array_num := query_array_num st1;
            at_beginning := false |}
    else Ok st1.

Definition embed_table_body (FLAGS : Flags) (query : Query)
    (st : EmbedState) (i : Z) : res EmbedState :=
  st1 ← embed_query_part query st i;
  embed_cell_part FLAGS query st1 i.

(** The accumulators as they stand after the loop over the positions. *)
Definition embed_accumulate (FLAGS : Flags) (query : Query) : res EmbedState :=
  e0 ← py_getitem (embeddings query) 0;
  let len_embedding := py_len e0 in
  num_rows ← py_max (row_ids query);
  ea ← np_zeros2 (replicate (Z.to_nat len_embedding) 0%Q) num_rows (num_columns FLAGS);
  na ← np_zeros2 0 num_rows (num_columns FLAGS);
  qa ← np_zeros1 len_embedding;
  for_each (embed_table_body FLAGS query)
           {| embed_array := ea; num_array := na; row := 0; column := 0;
              query_array := qa; query_array_num := 0; at_beginning := true |}
           (py_range 1 (max_seq_length FLAGS)).

(** [[embed/num for (embed_row, num_row) in zip(embed_array, num_array)
      for (embed, num) in zip(embed_row, num_row)]] *)
Definition normalize_cells (ea : list (list (list Q))) (na : list (list Z))
  : list (list npfloat) :=
  concat (zip_with (fun embed_row num_row => zip_with np_vdiv embed_row num_row) ea na).

(** The pair saved to query.npy and embeds.npy. *)
Definition embed_table (FLAGS : Flags) (query : Query)
  : res (list npfloat * list (list npfloat)) :=
  st ← embed_accumulate FLAGS query;
  let query_array' := np_vdiv (query_array st) (query_array_num st) in
  let result_array := normalize_cells (embed_array st) (num_array st) in
  Ok (query_array', result_array).

(** *** What the tables are compared with *)

(** The grid cell a position is accumulated into: only segment-1 positions
    have one, and it is the entry that the indices [row_ids[i]-1] and
    [column_order[column_ids[i]-1]-1] denote in a grid of [nrows] by [ncols]
    (numpy resolves a negative index from the end). *)
Definition token_cell (FLAGS : Flags) (query : Query) (nrows ncols : nat) (i : Z)
  : option (nat * nat) :=
  match py_getitem (segment_ids query) i with
  | Ok seg =>
      if seg =? 1 then
        match py_getitem (row_ids query) i, py_getitem (column_ids query) i with
        | Ok r, Ok cid =>
            match py_getitem (column_order FLAGS) (cid - 1) with
            | Ok co =>
                match py_norm nrows (r - 1), py_norm ncols (co - 1) with
                | Some r', Some c' => Some (r', c')
                | _, _ => None
                end
            | Raise _ => None
            end
        | _, _ => None
        end
      else None
  | Raise _ => None
  end.

Definition in_cell FLAGS query nrows ncols (rc : nat * nat) (i : Z) : bool :=
  bool_decide (token_cell FLAGS query nrows ncols i = Some rc).

Definition seg_at (query : Query) (i : Z) : Z :=
  match py_getitem (segment_ids query) i with Ok s => s | Raise _ => -1 end.

Definition emb_at (query : Query) (i : Z) : list Q :=
  match py_getitem (embeddings query) i with Ok e => e | Raise _ => [] end.

(** A counted query token: a segment-0 position [i >= 1] with no segment-1
    position among [1..i-1] and whose successor is not in segment 1. *)
Definition counted_query_token (query : Query) (i : Z) : bool :=
  (seg_at query i =? 0)
  && forallb (fun j => negb (seg_at query j =? 1)) (py_range 1 i)
  && negb (seg_at query (i + 1) =? 1).

(** The sum of vectors of length [d], accumulated left to right from zeros. *)
Definition vsum (d : nat) (vs : list (list Q)) : list Q :=
  foldl (zip_with Qplus) (replicate d 0%Q) vs.

Definition cell_tokens FLAGS query nrows ncols (rc : nat * nat) (L : Z) : list Z :=
  filter (fun i => in_cell FLAGS query nrows ncols rc i = true) (py_range 1 L).

Definition query_tokens (query : Query) (L : Z) : list Z :=
  filter (fun i => counted_query_token query i = true) (py_range 1 L).

Definition grid_get {A} (arr : list (list A)) (r c : nat) : option A :=
  arr !! r ≫= (fun rw => rw !! c).

(** A grid of [nrows] rows of [ncols] entries each. *)
Definition grid_shape {A} (nrows ncols : nat) (arr : list (list A)) : Prop :=
  length arr = nrows /\ Forall (fun rw => length rw = ncols) arr.

(** What the accumulators hold once the positions [done] are processed. *)
Record embed_inv (FLAGS : Flags) (query : Query) (nrows ncols d : nat)
    (done : list Z) (st : EmbedState) : Prop := {
  inv_shape_e : grid_shape nrows ncols (embed_array st);
  inv_shape_n : grid_shape nrows ncols (num_array st);
  inv_cells : forall r c, (r < nrows)%nat -> (c < ncols)%nat ->
    grid_get (embed_array st) r c =
      Some (vsum d (emb_at query <$>
              filter (fun i => in_cell FLAGS query nrows ncols (r, c) i = true) done)) /\
    grid_get (num_array st) r c =
      Some (Z.of_nat (length
              (filter (fun i => in_cell FLAGS query nrows ncols (r, c) i = true) done)));
  inv_query : query_array st =
    vsum d (emb_at query <$> filter (fun i => counted_query_token query i = true) done);
  inv_query_num : query_array_num st =
    Z.of_nat (length (filter (fun i => counted_query_token query i = true) done));
  inv_beginning : at_beginning st =
    forallb (fun j => negb (seg_at query j =? 1)) done
}.

(** The dimensions the script gives its tables. *)
Definition grid_rows (query : Query) : nat :=
  match py_max (row_ids query) with Ok n => Z.to_nat n | Raise _ => 0%nat end.

Definition grid_cols (FLAGS : Flags) : nat := Z.to_nat (num_columns FLAGS).

Definition len_embedding (query : Query) : nat := length (emb_at query 0).

(** The arithmetic mean of [vs]: their accumulated sum divided by their
    number. *)
Definition vmean (d : nat) (vs : list (list Q)) : list npfloat :=
  (fun s => Fin (s / inject_Z (Z.of_nat (length vs)))%Q) <$> vsum d vs.

Definition np_isfinite (x : npfloat) : bool :=
  match x with Fin _ => true | _ => false end.

(** *** What the probability table is compared with *)

Definition row_at (query : Query) (i : Z) : Z :=
  match py_getitem (row_ids query) i with Ok r => r | Raise _ => 0 end.

Definition col_at (query : Query) (i : Z) : Z :=
  match py_getitem (column_ids query) i with Ok c => c | Raise _ => 0 end.

Definition prob_at (query : Query) (i : Z) : Q :=
  match py_getitem (probabilities query) i with Ok p => p | Raise _ => 0%Q end.

(** Position [i] starts a cell: it is in segment 1 and its row id or its
    column id differs from that of position [i-1]. *)
Definition cell_start (query : Query) (i : Z) : bool :=
  (seg_at query i =? 1)
  && (negb (row_at query (i - 1) =? row_at query i)
      || negb (col_at query (i - 1) =? col_at query i)).

(** The entry a cell start is stored at: row [row_ids[i]-1], column
    [column_ids[i]-1], as numpy resolves them in a grid of [nrows] by
    [ncols]. *)
Definition prob_cell (query : Query) (nrows ncols : nat) (i : Z) : option (nat * nat) :=
  if cell_start query i then
    match py_norm nrows (row_at query i - 1), py_norm ncols (col_at query i - 1) with
    | Some r, Some c => Some (r, c)
    | _, _ => None
    end
  else None.

(** The probability of the last of the [positions] stored at entry [rc],
    zero when there is none. *)
Definition prob_entry (query : Query) (nrows ncols : nat) (rc : nat * nat)
    (positions : list Z) : Q :=
  match last (filter (fun i => bool_decide (prob_cell query nrows ncols i = Some rc) = true)
                     positions) with
  | Some i => prob_at query i
  | None => 0%Q
  end.

(** ** The probability table as the claim words it *)

(** The table in which the probability of a cell start goes to row
    [row_ids[i]-1] and to the column that the [column_order] remapping of
    [column_ids[i]] gives, as the embedding table does. *)
Definition prob_table_remapped_body (FLAGS : Flags) (query : Query)
    (result_array : list (list Q)) (i : Z) : res (list (list Q)) :=
  seg ← py_getitem (segment_ids query) i;
  cond ← (if seg =? 1 then
            rp ← py_getitem (row_ids query) (i - 1);
            r ← py_getitem (row_ids query) i;
            if negb (rp =? r) then Ok true
            else
              cp ← py_getitem (column_ids query) (i - 1);
              c ← py_getitem (column_ids query) i;
              Ok (negb (cp =? c))
          else Ok false);
  if (cond : bool) then
    row ← py_getitem (row_ids query) i;
    cid ← py_getitem (column_ids query) i;
    column ← py_getitem (column_order FLAGS) (cid - 1);
    prob ← py_getitem (probabilities query) i;
    np_update2 result_array (row - 1) (column - 1) (fun _ => Ok prob)
  else Ok result_array.

Definition prob_table_remapped (FLAGS : Flags) (query : Query)
  : res (list (list Q)) :=
  num_rows ← py_max (row_ids query);
  result_array ← np_zeros2 0%Q num_rows (num_columns FLAGS);
  for_each (prob_table_remapped_body FLAGS query) result_array
           (py_range 1 (max_seq_length FLAGS)).

Definition set_column_order (FLAGS : Flags) (order : list Z) : Flags :=
  {| num_columns := num_columns FLAGS; column_order := order;
     write_prob_table := write_prob_table FLAGS;
     write_embed_table := write_embed_table FLAGS;
     output_dir := output_dir FLAGS; model_dir := model_dir FLAGS;
     task := task FLAGS; tapas_verbosity := tapas_verbosity FLAGS;
     use_tpu := use_tpu FLAGS; test_batch_size := test_batch_size FLAGS;
     train_batch_size := train_batch_size FLAGS;
     gradient_accumulation_steps := gradient_accumulation_steps FLAGS;
     test_mode := test_mode FLAGS; max_seq_length := max_seq_length FLAGS;
     mode := mode FLAGS; loop_predict := loop_predict FLAGS;
     compression_type := compression_type FLAGS |}.

(** ** Strings and paths *)

(** [os.path.join(a, b)] *)
Definition starts_with_sep (s : string) : bool :=
  match s with String "/"%char _ => true | _ => false end.

Fixpoint ends_with_sep (s : string) : bool :=
  match s with
  | EmptyString => false
  | String c EmptyString => Ascii.eqb c "/"%char
  | String _ s' => ends_with_sep s'
  end.

Definition os_path_join (a b : string) : string :=
  if starts_with_sep b then b
  else if String.eqb a "" || ends_with_sep a then a +:+ b
  else a +:+ "/" +:+ b.

(** [s.split(sep)] for a one-character separator. *)
Fixpoint split_go (sep : ascii) (cur : string) (s : string) : list string :=
  match s with
  | EmptyString => [String.rev cur]
  | String c s' =>
      if Ascii.eqb c sep then String.rev cur :: split_go sep "" s'
      else split_go sep (String c cur) s'
  end.

Definition py_split (sep : ascii) (s : string) : list string := split_go sep "" s.

(** [os.path.basename(p)]: what follows the last separator. *)
Definition os_path_basename (p : string) : string :=
  List.last (py_split "/"%char p) "".

(** [int(s)] on an optional sign followed by decimal digits (surrounding
    blanks and digit-group underscores, which Python also accepts, are not
    modelled). *)
Definition digit_of (c : ascii) : option Z :=
  let n := Z.of_nat (nat_of_ascii c) in
  if (48 <=? n) && (n <=? 57) then Some (n - 48) else None.

Fixpoint digits_go (acc : Z) (s : string) : option Z :=
  match s with
  | EmptyString => Some acc
  | String c s' =>
      match digit_of c with
      | Some d => digits_go (10 * acc + d) s'
      | None => None
      end
  end.

Definition py_int (s : string) : res Z :=
  let bad := Raise (ValueError ("invalid literal for int() with base 10: " +:+ s)) in
  let digits (t : string) :=
    match t with
    | EmptyString => None
    | _ => digits_go 0 t
    end in
  match s with
  | String "-"%char t => match digits t with Some n => Ok (- n) | None => bad end
  | String "+"%char t => match digits t with Some n => Ok n | None => bad end
  | _ => match digits s with Some n => Ok n | None => bad end
  end.

(** Case mapping of ASCII letters; a string is held as the bytes of its
    UTF-8 encoding, so a string of bytes below 128 is an ASCII string. *)
Definition upper_ascii (c : ascii) : ascii :=
  let n := nat_of_ascii c in
  if (97 <=? n)%nat && (n <=? 122)%nat then ascii_of_nat (n - 32) else c.

Definition lower_ascii (c : ascii) : ascii :=
  let n := nat_of_ascii c in
  if (65 <=? n)%nat && (n <=? 90)%nat then ascii_of_nat (n + 32) else c.

Fixpoint upper_ascii_string (s : string) : string :=
  match s with
  | EmptyString => EmptyString
  | String c s' => String (upper_ascii c) (upper_ascii_string s')
  end.

Fixpoint lower_ascii_string (s : string) : string :=
  match s with
  | EmptyString => EmptyString
  | String c s' => String (lower_ascii c) (lower_ascii_string s')
  end.

Fixpoint is_ascii (s : string) : bool :=
  match s with
  | EmptyString => true
  | String c s' => (nat_of_ascii c <? 128)%nat && is_ascii s'
  end.

(** The strings whose [repr] is the string between single quotes: printable
    ASCII without quote and backslash. *)
Fixpoint plain_repr (s : string) : bool :=
  match s with
  | EmptyString => true
  | String c s' =>
      let n := nat_of_ascii c in
      (32 <=? n)%nat && (n <=? 126)%nat
      && negb (n =? 39)%nat && negb (n =? 34)%nat && negb (n =? 92)%nat
      && plain_repr s'
  end.

(** ** Enumerations *)

Inductive Mode : Type :=
| CREATE_DATA
| TRAIN
| PREDICT_AND_EVALUATE
| EVALUATE
| PREDICT.

#[global] Instance Mode_eq_dec : EqDecision Mode.
Proof. solve_decision. Defined.

(** [Mode[name]] *)
Definition Mode_getitem (name : string) : res Mode :=
  if String.eqb name "CREATE_DATA" then Ok CREATE_DATA
  else if String.eqb name "TRAIN" then Ok TRAIN
  else if String.eqb name "PREDICT_AND_EVALUATE" then Ok PREDICT_AND_EVALUATE
  else if String.eqb name "EVALUATE" then Ok EVALUATE
  else if String.eqb name "PREDICT" then Ok PREDICT
  else Raise (KeyError name).

(** [f'{mode}'] *)
Definition Mode_str (m : Mode) : string :=
  match m with
  | CREATE_DATA => "Mode.CREATE_DATA"
  | TRAIN => "Mode.TRAIN"
  | PREDICT_AND_EVALUATE => "Mode.PREDICT_AND_EVALUATE"
  | EVALUATE => "Mode.EVALUATE"
  | PREDICT => "Mode.PREDICT"
  end.

Inductive TestSet : Type :=
| DEV
| TEST.

(** [tasks.Task]: the four members the script names, and any further member
    of the enumeration under its name. *)
Inductive Task : Type :=
| SQA
| WTQ
| WIKISQL
| WIKISQL_SUPERVISED
| OtherTask (name : string).

#[global] Instance Task_eq_dec : EqDecision Task.
Proof. solve_decision. Defined.

Definition Task_name (t : Task) : string :=
  match t with
  | SQA => "SQA"
  | WTQ => "WTQ"
  | WIKISQL => "WIKISQL"
  | WIKISQL_SUPERVISED => "WIKISQL_SUPERVISED"
  | OtherTask name => name
  end.

Inductive TFRecordCompressionType : Type :=
| NONE
| GZIP
| ZLIB.

(** ** What the script takes from the rest of the repository *)

Record Hparams : Type := {
  hp_train_batch_size : Z;
  hp_num_train_examples : Z
}.

Record Env : Type := {
  (* names of the members of tasks.Task besides the four above *)
  other_tasks : list string;
  (* task_utils.get_dev_filename, task_utils.get_test_filename *)
  get_dev_filename : Task -> string;
  get_test_filename : Task -> string;
  (* hparam_utils.get_hparams *)
  get_hparams : Task -> Hparams;
  (* exp_prediction_utils.compute_prediction_sequence on an example file *)
  compute_prediction_sequence : string -> list Query;
  (* the framework on an example file that exists, read with a compression
     type while predictions are computed: the exception it raises, if any *)
  read_error : string -> string -> option exn;
  (* lines 267-330, reading the BERT configuration and building the model
     function and the run configuration, and lines 331-337, the estimator's
     constructor: the exception raised, if any *)
  config_error : option exn;
  estimator_error : option exn;
  (* tf.test.is_built_with_cuda(), tf.test.is_gpu_available() and the text of
     tf.config.experimental.list_physical_devices("GPU") *)
  is_built_with_cuda : bool;
  is_gpu_available : bool;
  gpu_devices : string;
  (* str.upper and str.lower on strings that are not ASCII, repr on strings
     that are not plain *)
  str_upper : string -> string;
  str_lower : string -> string;
  str_repr : string -> string
}.

(** [s.upper()], [s.lower()] and [repr(s)] *)
Definition py_upper (env : Env) (s : string) : string :=
  if is_ascii s then upper_ascii_string s else str_upper env s.

Definition py_lower (env : Env) (s : string) : string :=
  if is_ascii s then lower_ascii_string s else str_lower env s.

Definition py_repr (env : Env) (s : string) : string :=
  if plain_repr s then "'" +:+ s +:+ "'" else str_repr env s.

(** [f'{b}'] of a bool *)
Definition py_str_bool (b : bool) : string := if b then "True" else "False".

(** [tasks.Task[name]] *)
Definition Task_getitem (env : Env) (name : string) : res Task :=
  if String.eqb name "SQA" then Ok SQA
  else if String.eqb name "WTQ" then Ok WTQ
  else if String.eqb name "WIKISQL" then Ok WIKISQL
  else if String.eqb name "WIKISQL_SUPERVISED" then Ok WIKISQL_SUPERVISED
  else if bool_decide (name ∈ other_tasks env) then Ok (OtherTask name)
  else Raise (KeyError name).

(** ** Lines 167-221: compression type and file names *)

Definition _to_tf_compression_type (compression_type : string)
  : res TFRecordCompressionType :=
  if String.eqb compression_type "" then Ok NONE
  else if String.eqb compression_type "GZIP" then Ok GZIP
  else if String.eqb compression_type "ZLIB" then Ok ZLIB
  else Raise (ValueError ("Unknown compression type: " +:+ compression_type)).

Definition _get_test_filename (env : Env) (task : Task) (test_set : TestSet)
  : string :=
  match test_set with
  | TEST => get_test_filename env task
  | DEV => get_dev_filename env task
  end.

Definition _get_test_examples_file (env : Env) (task : Task)
    (output_dir : string) (test_set : TestSet) : string :=
  let filename := _get_test_filename env task test_set in
  os_path_join (os_path_join output_dir "tf_examples") (filename +:+ ".tfrecord").

Definition _get_test_interactions_file (env : Env) (task : Task)
    (output_dir : string) (test_set : TestSet) : string :=
  let filename := _get_test_filename env task test_set in
  os_path_join (os_path_join output_dir "interactions") (filename +:+ ".tfrecord").

Definition _get_test_prediction_file (env : Env) (task : Task)
    (model_dir : string) (test_set : TestSet) (is_sequence : bool)
    (global_step : option Z) : string :=
  let suffix := match global_step with
                | None => ""
                | Some step => "_" +:+ pretty step
                end in
  let suffix := if is_sequence then "_sequence" +:+ suffix else suffix in
  let filename := _get_test_filename env task test_set in
  os_path_join model_dir (filename +:+ suffix +:+ ".tsv").

(** ** Files, events and the monad of the script *)

Inductive ndarray : Type :=
| Arr1 (v : list npfloat)
| Arr2 (ncols : nat) (rows : list (list npfloat)).

(** What a TSV of predictions was computed from. *)
Inductive TsvSource : Type :=
| FromExamples (example_file : string)
| FromSequence (result : list Query).

(** The [result] that [write_predictions] is given: the predictions that
    [estimator.predict] computes while they are consumed, reading an
    example file with a compression type, or a sequence result that is
    computed already. *)
Inductive Predictions : Type :=
| Pending (example_file compression_type : string)
| Computed (result : list Query).

Definition tsv_of (result : Predictions) : TsvSource :=
  match result with
  | Pending example_file _ => FromExamples example_file
  | Computed result => FromSequence result
  end.

Inductive File : Type :=
| Npy (a : ndarray)
| Tsv (src : TsvSource)
| Blob.

(** What a bare [print] is given. *)
Inductive Printed : Type :=
| PInt (n : Z)
| PQuery (query : Query).

Inductive Event : Type :=
| EvMakeDirs (path : string)
| EvPrint (msg : string)          (* _print: print and logging.info *)
| EvWarn (msg : string)           (* _warn: print and logging.warn *)
| EvStdout (x : Printed)          (* print(x) *)
| EvSetLevel (level : string)     (* tf.get_logger().setLevel(level) *)
| EvSleep (seconds : Z)
| EvWritePredictions (path : string)
| EvCopy (src dst : string).

Record World : Type := {
  files : gmap string File;
  log : list Event
}.

(** A computation of the script: it may raise, and what it did to the world
    before raising stays done. *)
Definition Script (A : Type) : Type := World -> res A * World.

#[global] Instance Script_ret : MRet Script := fun _ a w => (Ok a, w).
#[global] Instance Script_bind : MBind Script := fun _ _ f m w =>
  match m w with
  | (Ok a, w') => f a w'
  | (Raise e, w') => (Raise e, w')
  end.

Definition raise {A} (e : exn) : Script A := fun w => (Raise e, w).

Definition lift {A} (r : res A) : Script A := fun w => (r, w).

Definition emit (ev : Event) : Script unit :=
  fun w => (Ok tt, {| files := files w; log := log w ++ [ev] |}).

(** An external call that raises or has no effect the script can see. *)
Definition raise_if (e : option exn) : Script unit :=
  match e with
  | Some e => raise e
  | None => mret tt
  end.

Fixpoint for_eachM {I} (body : I -> Script unit) (l : list I) : Script unit :=
  match l with
  | [] => mret tt
  | i :: l' => _ ← body i; for_eachM body l'
  end.

(** [tf.io.gfile.exists(path)] *)
Definition gfile_exists (path : string) : Script bool :=
  fun w => (Ok (bool_decide (is_Some (files w !! path))), w).

(** [np.load(path)] *)
Definition np_load (path : string) : Script ndarray :=
  fun w => match files w !! path with
           | Some (Npy a) => (Ok a, w)
           | Some _ => (Raise (ValueError "Cannot load file containing pickled data"), w)
           | None => (Raise (FileNotFoundError path), w)
           end.

(** [np.save(path, arr)]: the path already ends in [.npy]. *)
Definition np_save (path : string) (arr : ndarray) : Script unit :=
  fun w => (Ok tt, {| files := <[path := Npy arr]> (files w); log := log w |}).

(** [np.concatenate((a, b))] along the first axis. *)
Definition np_concatenate (a b : ndarray) : res ndarray :=
  match a, b with
  | Arr2 ca ra, Arr2 cb rb =>
      if decide (ca = cb) then Ok (Arr2 ca (ra ++ rb))
      else Raise (ValueError "all the input array dimensions except for the concatenation axis must match exactly")
  | Arr1 va, Arr1 vb => Ok (Arr1 (va ++ vb))
  | _, _ => Raise (ValueError "all the input arrays must have same number of dimensions")
  end.

(** [np.array(rows)] of a list of equally long vectors. *)
Definition np_array (rows : list (list npfloat)) : ndarray :=
  match rows with
  | [] => Arr1 []
  | r :: _ => Arr2 (length r) rows
  end.

(** What the framework raises when the examples behind [result] are read:
    an example file that does not exist cannot be read, one that exists is
    read as the environment says; a result that is computed already is not
    read again. *)
Definition source_error (env : Env) (fs : gmap string File) (result : Predictions)
  : option exn :=
  match result with
  | Pending example_file compression_type =>
      match fs !! example_file with
      | None => Some (OpError example_file)
      | Some _ => read_error env compression_type example_file
      end
  | Computed _ => None
  end.

(** [exp_prediction_utils.read_classifier_dataset(predict_data=example_file,
    compression_type=..., ...)] *)
Definition read_classifier_dataset (env : Env) (compression_type example_file : string)
  : Script unit :=
  fun w => match source_error env (files w) (Pending example_file compression_type) with
           | Some e => (Raise e, w)
           | None => (Ok tt, w)
           end.

(** [exp_prediction_utils.write_predictions(result, prediction_file, ...)]:
    the predictions of [estimator.predict] are computed while they are
    written, so this is where the examples are read. *)
Definition write_predictions (env : Env) (result : Predictions) (prediction_file : string)
  : Script unit :=
  fun w => match source_error env (files w) result with
           | Some e => (Raise e, w)
           | None =>
               (Ok tt, {| files := <[prediction_file := Tsv (tsv_of result)]> (files w);
                          log := log w ++ [EvWritePredictions prediction_file] |})
           end.

(** [tf.io.gfile.copy(src, dst, overwrite=True)] *)
Definition gfile_copy (src dst : string) : Script unit :=
  fun w => match files w !! src with
           | Some f => (Ok tt, {| files := <[dst := f]> (files w);
                                  log := log w ++ [EvCopy src dst] |})
           | None => (Raise (FileNotFoundError src), w)
           end.

(** ** Lines 442-550: predictions for one test set *)

Definition _predict_for_set (env : Env) (FLAGS : Flags)
    (example_file prediction_file other_prediction_file : string) : Script unit :=
  let result := Pending example_file (compression_type FLAGS) in
  _ ← write_predictions env result prediction_file;
  gfile_copy prediction_file other_prediction_file.

Definition probs_path (FLAGS : Flags) : string := output_dir FLAGS +:+ "/probs.npy".
Definition query_path (FLAGS : Flags) : string := output_dir FLAGS +:+ "/query.npy".
Definition embeds_path (FLAGS : Flags) : string := output_dir FLAGS +:+ "/embeds.npy".

(** The table of one query as the two-dimensional array numpy holds. *)
Definition prob_ndarray (FLAGS : Flags) (result_array : list (list Q)) : ndarray :=
  Arr2 (Z.to_nat (num_columns FLAGS)) ((fun rw : list Q => Fin <$> rw) <$> result_array).

(** Body of the loop of lines 497-507. *)
Definition write_prob_table_query (FLAGS : Flags) (query : Query) : Script unit :=
  result_array ← lift (prob_table FLAGS query);
  loaded ← np_load (probs_path FLAGS);
  prob_array ← lift (np_concatenate loaded (prob_ndarray FLAGS result_array));
  np_save (probs_path FLAGS) prob_array.

(** Body of the loop of lines 510-541. *)
Definition write_embed_table_query (FLAGS : Flags) (query : Query) : Script unit :=
  st ← lift (embed_accumulate FLAGS query);
  _ ← emit (EvStdout (PInt (query_array_num st)));
  _ ← emit (EvStdout (PQuery query));
  let query_array' := np_vdiv (query_array st) (query_array_num st) in
  let result_array := normalize_cells (embed_array st) (num_array st) in
  _ ← np_save (query_path FLAGS) (Arr1 query_array');
  np_save (embeds_path FLAGS) (np_array result_array).

Definition _predict_sequence_for_set (env : Env) (FLAGS : Flags)
    (example_file prediction_file other_prediction_file : string) : Script unit :=
  _ ← read_classifier_dataset env (compression_type FLAGS) example_file;
  let result := compute_prediction_sequence env example_file in
  _ ← (if write_prob_table FLAGS
       then for_eachM (write_prob_table_query FLAGS) result
       else mret tt);
  _ ← (if write_embed_table FLAGS
       then for_eachM (write_embed_table_query FLAGS) result
       else mret tt);
  _ ← write_predictions env (Computed result) prediction_file;
  gfile_copy prediction_file other_prediction_file.

(** ** Lines 379-439: predictions for dev and test *)

Definition _predict (env : Env) (FLAGS : Flags) (task : Task)
    (output_dir model_dir : string) (use_tpu : bool) (global_step : Z) : Script unit :=
  _ ← for_eachM (fun test_set =>
         _predict_for_set env FLAGS
           (_get_test_examples_file env task output_dir test_set)
           (_get_test_prediction_file env task model_dir test_set false (Some global_step))
           (_get_test_prediction_file env task model_dir test_set false None))
       [DEV; TEST];
  if bool_decide (task = SQA) then
    if use_tpu then
      emit (EvWarn "Skipping SQA sequence evaluation because eval is running on TPU.")
    else
      for_eachM (fun test_set =>
         _predict_sequence_for_set env FLAGS
           (_get_test_examples_file env task output_dir test_set)
           (_get_test_prediction_file env task model_dir test_set true (Some global_step))
           (_get_test_prediction_file env task model_dir test_set true None))
        [DEV; TEST]
  else mret tt.

(** ** Lines 224-376: the checkpoint loop *)

(** How a run of the loop ends within the answers [latest_checkpoint] gave:
    it left the loop, or it is still polling. *)
Inductive Outcome : Type :=
| Returned
| Polling.

(** [int(os.path.basename(checkpoint).split('-')[1])] *)
Definition checkpoint_step (checkpoint : option string) : res Z :=
  match checkpoint with
  | None => Raise TypeError
  | Some path =>
      part ← py_getitem (py_split "-"%char (os_path_basename path)) 1;
      py_int part
  end.

(** [not checkpoint] *)
Definition py_not_str (checkpoint : option string) : bool :=
  match checkpoint with
  | None => true
  | Some s => String.eqb s ""
  end.

(** The [while True] loop of lines 343-373, one iteration per answer of
    [estimator.latest_checkpoint()]; [prev_checkpoint] is the local of line
    342, which no statement of the loop assigns. *)
Fixpoint predict_loop (env : Env) (FLAGS : Flags) (task : Task) (mode : Mode)
    (output_dir model_dir : string) (loop_predict use_tpu : bool)
    (num_train_steps : Z) (prev_checkpoint : option string)
    (latest_checkpoints : list (option string)) : Script Outcome :=
  match latest_checkpoints with
  | [] => mret Polling
  | checkpoint :: later =>
      if negb loop_predict && py_not_str checkpoint then
        raise (ValueError ("No checkpoint found at " +:+ model_dir +:+ "."))
      else if loop_predict && bool_decide (checkpoint = prev_checkpoint) then
        _ ← emit (EvPrint "Sleeping 5 mins before predicting");
        _ ← emit (EvSleep (5 * 60));
        predict_loop env FLAGS task mode output_dir model_dir loop_predict
                     use_tpu num_train_steps prev_checkpoint later
      else
        current_step ← lift (checkpoint_step checkpoint);
        _ ← _predict env FLAGS task output_dir model_dir use_tpu current_step;
        _ ← (if bool_decide (mode = PREDICT_AND_EVALUATE)
             then raise (NameError "_eval")
             else mret tt);
        if negb loop_predict || (current_step >=? num_train_steps) then
          _ ← emit (EvPrint ("Evaluation finished after training step "
                             +:+ pretty current_step +:+ "."));
          mret Returned
        else
          predict_loop env FLAGS task mode output_dir model_dir loop_predict
                       use_tpu num_train_steps prev_checkpoint later
  end.

(** Lines 238-337 prepare the loop: the model directory, the aggregation
    settings of the task, the number of training steps, and the estimator,
    whose construction is the framework's but for the division of its
    train_batch_size argument. *)
Definition _train_and_predict (env : Env) (FLAGS : Flags) (task : Task)
    (use_tpu : bool) (test_batch_size : Z) (train_batch_size : option Z)
    (gradient_accumulation_steps : Z) (test_mode : bool) (mode : Mode)
    (output_dir model_dir : string) (loop_predict : bool)
    (latest_checkpoints : list (option string)) : Script Outcome :=
  _ ← emit (EvMakeDirs model_dir);
  aggregation ← (match task with
                 | SQA => mret (0, false, None)
                 | WTQ | WIKISQL | WIKISQL_SUPERVISED =>
                     mret (4, true, Some (negb (bool_decide (task = WIKISQL_SUPERVISED))))
                 | OtherTask _ => raise (ValueError ("Unknown task: " +:+ Task_name task))
                 end : Script (Z * bool * option bool));
  let hparams := get_hparams env task in
  steps ← (if test_mode then
             mret (default 1 train_batch_size, 10)
           else
             let train_batch_size :=
               default (hp_train_batch_size hparams) train_batch_size in
             if train_batch_size =? 0 then raise ZeroDivisionError
             else mret (train_batch_size,
                        Z.quot (hp_num_train_examples hparams) train_batch_size)
           : Script (Z * Z));
  let train_batch_size := fst steps in
  let num_train_steps := snd steps in
  _ ← raise_if (config_error env);
  _ ← (if gradient_accumulation_steps =? 0 then raise ZeroDivisionError
       else mret tt);
  _ ← raise_if (estimator_error env);
  if bool_decide (mode = PREDICT_AND_EVALUATE) || bool_decide (mode = PREDICT) then
    let prev_checkpoint := None in
    predict_loop env FLAGS task mode output_dir model_dir loop_predict use_tpu
                 num_train_steps prev_checkpoint latest_checkpoints
  else raise (ValueError ("Unexpected mode: " +:+ Mode_str mode +:+ ".")).

(** ** Lines 553-620: option checks and [main] *)

Definition _check_options (env : Env) (output_dir : string) (task : Task)
    (mode : Mode) : Script unit :=
  if bool_decide (mode = CREATE_DATA) then mret tt
  else
    _ ← (if bool_decide (mode = PREDICT_AND_EVALUATE) || bool_decide (mode = EVALUATE)
         then
           let interactions := _get_test_interactions_file env task output_dir DEV in
           found ← gfile_exists interactions;
           if negb found
           then raise (ValueError ("No interactions found: " +:+ interactions))
           else mret tt
         else mret tt);
    let tf_examples := _get_test_examples_file env task output_dir DEV in
    found ← gfile_exists tf_examples;
    _ ← (if negb found
         then raise (ValueError ("No TF examples found: " +:+ tf_examples))
         else mret tt);
    _ ← emit (EvPrint ("is_built_with_cuda: " +:+ py_str_bool (is_built_with_cuda env)));
    _ ← emit (EvPrint ("is_gpu_available: " +:+ py_str_bool (is_gpu_available env)));
    emit (EvPrint ("GPUs: " +:+ gpu_devices env)).

(** The level names of the [logging] module. *)
Definition logging_levels : list string :=
  ["CRITICAL"; "FATAL"; "ERROR"; "WARN"; "WARNING"; "INFO"; "DEBUG"; "NOTSET"].

(** [tf.get_logger().setLevel(level)] for a level given by name *)
Definition logger_setLevel (env : Env) (level : string) : Script unit :=
  if bool_decide (level ∈ logging_levels) then emit (EvSetLevel level)
  else raise (ValueError ("Unknown level: " +:+ py_repr env level)).

(** [if FLAGS.tapas_verbosity:] *)
Definition py_truthy_str (s : option string) : bool :=
  match s with
  | None => false
  | Some s => negb (String.eqb s "")
  end.

Definition main (env : Env) (FLAGS : Flags) (argv : list string)
    (latest_checkpoints : list (option string)) : Script Outcome :=
  if (1 <? py_len argv) then raise (UsageError "Too many command-line arguments.")
  else
    _ ← (if py_truthy_str (tapas_verbosity FLAGS)
         then logger_setLevel env (default "" (tapas_verbosity FLAGS))
         else mret tt);
    task ← lift (Task_getitem env (task FLAGS));
    let output_dir := os_path_join (output_dir FLAGS) (py_lower env (Task_name task)) in
    let model_dir := match model_dir FLAGS with
                     | Some d => if String.eqb d "" then os_path_join output_dir "model" else d
                     | None => os_path_join output_dir "model"
                     end in
    mode ← lift (Mode_getitem (py_upper env (mode FLAGS)));
    _ ← _check_options env output_dir task mode;
    if bool_decide (mode = PREDICT_AND_EVALUATE) || bool_decide (mode = PREDICT) then
      _ ← emit (EvPrint "Training or predicting ...");
      _train_and_predict env FLAGS task (use_tpu FLAGS) (test_batch_size FLAGS)
        (train_batch_size FLAGS) (gradient_accumulation_steps FLAGS)
        (test_mode FLAGS) mode output_dir model_dir (loop_predict FLAGS)
        latest_checkpoints
    else raise (ValueError ("Not Predictive Mode: " +:+ Mode_str mode)).

(** The rows one query adds to probs.npy. *)
Definition prob_rows (FLAGS : Flags) (query : Query) : list (list npfloat) :=
  match prob_table FLAGS query with
  | Ok t => (fun rw : list Q => Fin <$> rw) <$> t
  | Raise _ => []
  end.

Definition rows_of_file (f : option File) : option (list (list npfloat)) :=
  match f with
  | Some (Npy (Arr2 _ rows)) => Some rows
  | _ => None
  end.

(** The suffix of a prediction file name. *)
Definition prediction_suffix (is_sequence : bool) (global_step : option Z) : string :=
  (if is_sequence then "_sequence" else "")
  +:+ (match global_step with None => "" | Some step => "_" +:+ pretty step end).

(** The file events of one pass over dev and test. *)
Definition prediction_events (env : Env) (task : Task) (model_dir : string)
    (is_sequence : bool) (global_step : Z) : list Event :=
  concat ((fun test_set =>
      [EvWritePredictions
         (_get_test_prediction_file env task model_dir test_set is_sequence (Some global_step));
       EvCopy
         (_get_test_prediction_file env task model_dir test_set is_sequence (Some global_step))
         (_get_test_prediction_file env task model_dir test_set is_sequence None)])
    <$> [DEV; TEST]).

(** The directories [main] derives from the flags. *)
Definition main_output_dir (env : Env) (FLAGS : Flags) (task : Task) : string :=
  os_path_join (output_dir FLAGS) (py_lower env (Task_name task)).

Definition main_model_dir (env : Env) (FLAGS : Flags) (task : Task) : string :=
  match model_dir FLAGS with
  | Some d => if String.eqb d "" then os_path_join (main_output_dir env FLAGS task) "model" else d
  | None => os_path_join (main_output_dir env FLAGS task) "model"
  end.

(** What [main] logs before it looks the task up, and the flags for which
    that step raises nothing. *)
Definition verbosity_events (FLAGS : Flags) : list Event :=
  if py_truthy_str (tapas_verbosity FLAGS)
  then [EvSetLevel (default "" (tapas_verbosity FLAGS))]
  else [].

Definition verbosity_ok (FLAGS : Flags) : Prop :=
  py_truthy_str (tapas_verbosity FLAGS) = true ->
  default "" (tapas_verbosity FLAGS) ∈ logging_levels.

(** The three lines [_check_options] prints once its checks have passed. *)
Definition device_report (env : Env) : list Event :=
  [EvPrint ("is_built_with_cuda: " +:+ py_str_bool (is_built_with_cuda env));
   EvPrint ("is_gpu_available: " +:+ py_str_bool (is_gpu_available env));
   EvPrint ("GPUs: " +:+ gpu_devices env)].

(** The world with further events logged. *)
Definition logged (w : World) (evs : list Event) : World :=
  {| files := files w; log := log w ++ evs |}.

(** What the embedding dump of one query prints. *)
Definition embed_prints (FLAGS : Flags) (query : Query) : list Event :=
  match embed_accumulate FLAGS query with
  | Ok st => [EvStdout (PInt (query_array_num st)); EvStdout (PQuery query)]
  | Raise _ => []
  end.

(** What the sequence predictions of one test set log. *)
Definition sequence_events (env : Env) (FLAGS : Flags) (task : Task)
    (output_dir model_dir : string) (global_step : Z) (test_set : TestSet) : list Event :=
  (if write_embed_table FLAGS
   then concat (embed_prints FLAGS <$>
                  compute_prediction_sequence env
                    (_get_test_examples_file env task output_dir test_set))
   else [])
  ++ [EvWritePredictions
        (_get_test_prediction_file env task model_dir test_set true (Some global_step));
      EvCopy
        (_get_test_prediction_file env task model_dir test_set true (Some global_step))
        (_get_test_prediction_file env task model_dir test_set true None)].

(** The example files of a pass exist and the framework reads them. *)
Definition readable (env : Env) (FLAGS : Flags) (fs : gmap string File)
    (example_file : string) : Prop :=
  is_Some (fs !! example_file) /\
  read_error env (compression_type FLAGS) example_file = None.

(** What [_check_options] answers on a given set of files. *)
Definition check_options_result (env : Env) (output_dir : string) (task : Task)
    (mode : Mode) (fs : gmap string File) : res unit :=
  if bool_decide (mode = CREATE_DATA) then Ok tt
  else if (bool_decide (mode = PREDICT_AND_EVALUATE) || bool_decide (mode = EVALUATE))
          && negb (bool_decide (is_Some (fs !! _get_test_interactions_file env task output_dir DEV)))
  then Raise (ValueError ("No interactions found: "
                          +:+ _get_test_interactions_file env task output_dir DEV))
  else if negb (bool_decide (is_Some (fs !! _get_test_examples_file env task output_dir DEV)))
  then Raise (ValueError ("No TF examples found: "
                          +:+ _get_test_examples_file env task output_dir DEV))
  else Ok tt.

Definition mode_names : list string :=
  ["CREATE_DATA"; "TRAIN"; "PREDICT_AND_EVALUATE"; "EVALUATE"; "PREDICT"].

Definition task_names (env : Env) : list string :=
  ["SQA"; "WTQ"; "WIKISQL"; "WIKISQL_SUPERVISED"] ++ other_tasks env.

(** A result the embedding loop runs through without an exception: the
    arrays cover the positions, the embeddings all have the length of the
    first one, the indices of every segment-1 position denote a grid entry,
    and a leading segment-0 position has a successor to look at. *)
Record embed_wf (FLAGS : Flags) (query : Query) : Prop := {
  wf_first : is_Ok (py_getitem (embeddings query) 0);
  wf_rows : exists n, py_max (row_ids query) = Ok n /\ 0 <= n;
  wf_cols : 0 <= num_columns FLAGS;
  wf_seg : forall i, i ∈ py_range 1 (max_seq_length FLAGS) ->
    is_Ok (py_getitem (segment_ids query) i);
  wf_emb : forall i, i ∈ py_range 1 (max_seq_length FLAGS) ->
    is_Ok (py_getitem (embeddings query) i) /\
    length (emb_at query i) = len_embedding query;
  wf_cell : forall i, i ∈ py_range 1 (max_seq_length FLAGS) ->
    seg_at query i = 1 ->
    is_Some (token_cell FLAGS query (grid_rows query) (grid_cols FLAGS) i);
  wf_next : forall i, i ∈ py_range 1 (max_seq_length FLAGS) ->
    seg_at query i = 0 ->
    forallb (fun j => negb (seg_at query j =? 1)) (py_range 1 i) = true ->
    is_Ok (py_getitem (segment_ids query) (i + 1))
}.

(** A path the prediction passes may write: a prediction file of the task
    under the model directory, or one of the three dumped arrays. *)
Definition output_path (env : Env) (FLAGS : Flags) (t : Task) (model_dir : string)
    (p : string) : Prop :=
  (exists ts seq gs, p = _get_test_prediction_file env t model_dir ts seq gs)
  \/ p = probs_path FLAGS \/ p = query_path FLAGS \/ p = embeds_path FLAGS.

(** A computation that leaves alone every file outside [touch], whether it
    returns or raises. *)
Definition frames {A} (touch : string -> Prop) (m : Script A) : Prop :=
  forall w r w', m w = (r, w') ->
    forall p, ~ touch p -> files w' !! p = files w !! p.

(** The string [s] does not hold the character [c]. *)
Fixpoint no_char (c : ascii) (s : string) : bool :=
  match s with
  | EmptyString => true
  | String x s' => negb (Ascii.eqb x c) && no_char c s'
  end.

(** What [k] polls without a checkpoint log. *)
Definition sleep_events (k : nat) : list Event :=
  concat (replicate k [EvPrint "Sleeping 5 mins before predicting"; EvSleep 300]).

(** The world after the closing message of the loop. *)
Definition finished (w : World) (step : Z) : World :=
  {| files := files w;
     log := log w ++ [EvPrint ("Evaluation finished after training step "
                               +:+ pretty step +:+ ".")] |}.

(** A small result: question tokens at 1..2, a separator at 3, then a
    header cell and two body cells. *)
Definition demo_flags_of (L : Z) (order : list Z) : Flags :=
  {| num_columns := 2; column_order := order;
     write_prob_table := true; write_embed_table := true;
     output_dir := "out"; model_dir := None; task := "SQA";
     tapas_verbosity := None; use_tpu := false; test_batch_size := 32;
     train_batch_size := None; gradient_accumulation_steps := 1;
     test_mode := false; max_seq_length := L; mode := "predict";
     loop_predict := true; compression_type := "GZIP" |}.

Definition demo_flags : Flags := demo_flags_of 7 [2; 1].

Definition demo_query : Query :=
  {| segment_ids := [0; 0; 0; 0; 1; 1; 1];
     row_ids := [0; 0; 0; 0; 1; 1; 1];
     column_ids := [0; 0; 0; 0; 1; 1; 2];
     probabilities := [0; 0; 0; 0; 9 # 10; 8 # 10; 4 # 10]%Q;
     embeddings := [[1]; [2]; [4]; [8]; [16]; [32]; [64]]%Q |}.

(** A result that leaves one of the two grid cells without a token and
    has no counted query token. *)
Definition sparse_query : Query :=
  {| segment_ids := [0; 1; 1]; row_ids := [0; 1; 1]; column_ids := [0; 1; 1];
     probabilities := [0; 0; 0]%Q; embeddings := [[1]; [2]; [4]]%Q |}.

(** A result of the same length as [demo_query] with a single table cell. *)
Definition sparse_query_7 : Query :=
  {| segment_ids := [0; 0; 0; 1; 1; 0; 0];
     row_ids := [0; 0; 0; 1; 1; 0; 0];
     column_ids := [0; 0; 0; 2; 2; 0; 0];
     probabilities := [0; 0; 0; 7 # 10; 6 # 10; 0; 0]%Q;
     embeddings := [[1]; [3]; [5]; [7]; [9]; [11]; [13]]%Q |}.

(** A result with a header token (row id 0) before the only body cell. *)
Definition header_query : Query :=
  {| segment_ids := [0; 0; 1; 1]; row_ids := [0; 0; 0; 1]; column_ids := [0; 0; 1; 1];
     probabilities := [0; 0; 5 # 10; 6 # 10]%Q;
     embeddings := [[1]; [2]; [4]; [8]]%Q |}.

Definition header_flags : Flags := demo_flags_of 4 [2; 1].

Definition set_mode (FLAGS : Flags) (m : string) : Flags :=
  {| num_columns := num_columns FLAGS; column_order := column_order FLAGS;
     write_prob_table := write_prob_table FLAGS;
     write_embed_table := write_embed_table FLAGS;
     output_dir := output_dir FLAGS; model_dir := model_dir FLAGS;
     task := task FLAGS; tapas_verbosity := tapas_verbosity FLAGS;
     use_tpu := use_tpu FLAGS; test_batch_size := test_batch_size FLAGS;
     train_batch_size := train_batch_size FLAGS;
     gradient_accumulation_steps := gradient_accumulation_steps FLAGS;
     test_mode := test_mode FLAGS; max_seq_length := max_seq_length FLAGS;
     mode := m; loop_predict := loop_predict FLAGS;
     compression_type := compression_type FLAGS |}.

Definition set_verbosity (FLAGS : Flags) (level : option string) : Flags :=
  {| num_columns := num_columns FLAGS; column_order := column_order FLAGS;
     write_prob_table := write_prob_table FLAGS;
     write_embed_table := write_embed_table FLAGS;
     output_dir := output_dir FLAGS; model_dir := model_dir FLAGS;
     task := task FLAGS; tapas_verbosity := level;
     use_tpu := use_tpu FLAGS; test_batch_size := test_batch_size FLAGS;
     train_batch_size := train_batch_size FLAGS;
     gradient_accumulation_steps := gradient_accumulation_steps FLAGS;
     test_mode := test_mode FLAGS; max_seq_length := max_seq_length FLAGS;
     mode := mode FLAGS; loop_predict := loop_predict FLAGS;
     compression_type := compression_type FLAGS |}.

Definition set_compression_type (FLAGS : Flags) (c : string) : Flags :=
  {| num_columns := num_columns FLAGS; column_order := column_order FLAGS;
     write_prob_table := write_prob_table FLAGS;
     write_embed_table := write_embed_table FLAGS;
     output_dir := output_dir FLAGS; model_dir := model_dir FLAGS;
     task := task FLAGS; tapas_verbosity := tapas_verbosity FLAGS;
     use_tpu := use_tpu FLAGS; test_batch_size := test_batch_size FLAGS;
     train_batch_size := train_batch_size FLAGS;
     gradient_accumulation_steps := gradient_accumulation_steps FLAGS;
     test_mode := test_mode FLAGS; max_seq_length := max_seq_length FLAGS;
     mode := mode FLAGS; loop_predict := loop_predict FLAGS;
     compression_type := c |}.

Definition demo_flags_task (name : string) : Flags :=
  {| num_columns := 2; column_order := [2; 1];
     write_prob_table := true; write_embed_table := true;
     output_dir := "out"; model_dir := None; task := name;
     tapas_verbosity := None; use_tpu := false; test_batch_size := 32;
     train_batch_size := None; gradient_accumulation_steps := 1;
     test_mode := false; max_seq_length := 7; mode := "predict";
     loop_predict := true; compression_type := "GZIP" |}.

(** An environment with one further task, 2000 training steps, a sequence
    result of two queries, an input pipeline that reads every file with
    the three known compression types and rejects any other, and no GPU; a
    world that holds the inputs of SQA and an empty probability table. *)
Definition demo_env : Env :=
  {| other_tasks := ["TABFACT"];
     get_dev_filename := fun _ => "dev";
     get_test_filename := fun _ => "test";
     get_hparams := fun _ => {| hp_train_batch_size := 128;
                                hp_num_train_examples := 256000 |};
     compute_prediction_sequence := fun _ => [sparse_query_7; demo_query];
     read_error := fun c f =>
       if bool_decide (c ∈ [""; "GZIP"; "ZLIB"]) then None
       else Some (OpError ("Unknown compression type: " +:+ c));
     config_error := None;
     estimator_error := None;
     is_built_with_cuda := false;
     is_gpu_available := false;
     gpu_devices := "[]";
     str_upper := fun s => s;
     str_lower := fun s => s;
     str_repr := fun s => "'" +:+ s +:+ "'" |}.

Definition demo_world : World :=
  {| files := <["out/sqa/tf_examples/dev.tfrecord" := Blob]>
              (<["out/sqa/tf_examples/test.tfrecord" := Blob]>
              (<["out/sqa/interactions/dev.tfrecord" := Blob]>
              (<["out/probs.npy" := Npy (Arr2 2 [])]> ∅)));
     log := [] |}.

(** An environment whose dev file name is an absolute path. *)
Definition abs_env : Env :=
  {| other_tasks := [];
     get_dev_filename := fun _ => "/data/dev";
     get_test_filename := fun _ => "test";
     get_hparams := fun _ => {| hp_train_batch_size := 128;
                                hp_num_train_examples := 256000 |};
     compute_prediction_sequence := fun _ => [];
     read_error := fun _ _ => None;
     config_error := None;
     estimator_error := None;
     is_built_with_cuda := false;
     is_gpu_available := false;
     gpu_devices := "[]";
     str_upper := fun s => s;
     str_lower := fun s => s;
     str_repr := fun s => "'" +:+ s +:+ "'" |}.

(** A world without any file, and the inputs of a run on WTQ. *)
Definition empty_world : World := {| files := ∅; log := [] |}.

Definition wtq_world : World :=
  {| files := <["out/wtq/tf_examples/dev.tfrecord" := Blob]>
              (<["out/wtq/tf_examples/test.tfrecord" := Blob]> ∅);
     log := [] |}.

Definition ckpt_1000 : string := "out/wtq/model/model.ckpt-1000".

Definition wtq_pass (w : World) : World :=
  snd (_predict demo_env demo_flags WTQ "out/wtq" "out/wtq/model" false 1000 w).

(* ===================================================================== *)
(** * Properties *)
(* ===================================================================== *)

(** ** The error monad and loops *)

Lemma bind_Ok {A B} (m : res A) (f : A -> res B) (b : B) :
  (m ≫= f) = Ok b <-> exists a, m = Ok a /\ f a = Ok b.
Proof.
  destruct m as [a|e]; simpl; split.
  - intros H. exists a. auto.
  - intros (a' & Ha & Hf). congruence.
  - discriminate.
  - intros (a' & Ha & _). discriminate.
Qed.

Ltac res_inv :=
  repeat match goal with
  | H : Ok _ = Ok _ |- _ => injection H as H; subst
  | H : Raise _ = Ok _ |- _ => discriminate H
  | H : (_ ≫= _) = Ok _ |- _ =>
      let a := fresh "a" in
      let E := fresh "E" in
      apply bind_Ok in H; destruct H as (a & E & H)
  end.

Lemma for_each_app {S I} (body : S -> I -> res S) s l1 l2 :
  for_each body s (l1 ++ l2) = (s' ← for_each body s l1; for_each body s' l2).
Proof.
  revert s. induction l1 as [|i l1 IH]; intros s; simpl; [done|].
  destruct (body s i); simpl; auto.
Qed.

Lemma for_each_snoc {S I} (body : S -> I -> res S) s l i :
  for_each body s (l ++ [i]) = (s' ← for_each body s l; body s' i).
Proof.
  rewrite for_each_app. destruct (for_each body s l); simpl; [|done].
  destruct (body a i); done.
Qed.

Lemma py_range_upto a b : py_range a b = upto a (Z.to_nat (b - a)).
Proof. reflexivity. Qed.

Lemma upto_S a m : upto a (S m) = upto a m ++ [a + Z.of_nat m].
Proof. unfold upto. rewrite seq_S, fmap_app. reflexivity. Qed.

Lemma py_range_1_upto (m : nat) : py_range 1 (1 + Z.of_nat m) = upto 1 m.
Proof. rewrite py_range_upto. f_equal. lia. Qed.

(** ** Indexing *)

Lemma py_norm_lt n k j : py_norm n k = Some j -> (j < n)%nat.
Proof.
  unfold py_norm. destruct (k <? 0) eqn:Hk;
    destruct (_ && _) eqn:Hb; intros [= <-];
    apply andb_true_iff in Hb as [H1 H2]; lia.
Qed.

Lemma py_getitem_Ok {A} (l : list A) k x :
  py_getitem l k = Ok x <->
  exists j, py_norm (length l) k = Some j /\ l !! j = Some x.
Proof.
  unfold py_getitem. split.
  - destruct (py_norm _ k) as [j|]; [|discriminate].
    destruct (l !! j) eqn:E; [|discriminate]. intros [= <-]. eauto.
  - intros (j & -> & ->). reflexivity.
Qed.

Lemma py_getitem_norm {A} (l : list A) k j :
  py_norm (length l) k = Some j -> exists x, py_getitem l k = Ok x /\ l !! j = Some x.
Proof.
  intros H. pose proof (py_norm_lt _ _ _ H) as Hlt.
  destruct (lookup_lt_is_Some_2 l j Hlt) as [x Hx].
  exists x. split; [|done]. apply py_getitem_Ok. eauto.
Qed.

Lemma np_update2_Ok {A} (arr : list (list A)) r c f arr' :
  np_update2 arr r c f = Ok arr' ->
  exists r' c' rw old new,
    py_norm (length arr) r = Some r' /\ arr !! r' = Some rw /\
    py_norm (length rw) c = Some c' /\ rw !! c' = Some old /\
    f old = Ok new /\ arr' = <[r' := <[c' := new]> rw]> arr.
Proof.
  unfold np_update2. intros H. res_inv.
  apply py_getitem_Ok in E as (r' & Hr & Hrw).
  apply py_getitem_Ok in E0 as (c' & Hc & Hold).
  unfold py_setitem in E2, H. rewrite Hc in E2. rewrite Hr in H.
  res_inv. exists r', c', a, a0, a1. repeat split; done.
Qed.

Lemma grid_get_update {A} (arr : list (list A)) r' c' rw new r c :
  arr !! r' = Some rw -> (c' < length rw)%nat ->
  grid_get (<[r' := <[c' := new]> rw]> arr) r c =
  if decide ((r, c) = (r', c')) then Some new else grid_get arr r c.
Proof.
  intros Hrw Hc. unfold grid_get.
  pose proof (lookup_lt_Some _ _ _ Hrw) as Hr.
  destruct (decide (r = r')) as [->|Hne].
  - rewrite list_lookup_insert_eq by done. simpl. rewrite Hrw. simpl.
    destruct (decide (c = c')) as [->|Hnc].
    + rewrite list_lookup_insert_eq by done. rewrite decide_True; done.
    + rewrite list_lookup_insert_ne by done. rewrite decide_False; congruence.
  - rewrite list_lookup_insert_ne by done. rewrite decide_False; congruence.
Qed.

Lemma grid_shape_update {A} nrows ncols (arr : list (list A)) r' c' rw new :
  grid_shape nrows ncols arr -> arr !! r' = Some rw ->
  grid_shape nrows ncols (<[r' := <[c' := new]> rw]> arr).
Proof.
  intros [Hl Hf] Hrw. split.
  - by rewrite length_insert.
  - apply Forall_insert; [done|]. rewrite length_insert.
    eapply (Forall_lookup_1 _ _ _ _ Hf Hrw).
Qed.

Lemma grid_shape_row {A} nrows ncols (arr : list (list A)) r rw :
  grid_shape nrows ncols arr -> arr !! r = Some rw -> length rw = ncols.
Proof. intros [_ Hf] Hrw. eapply (Forall_lookup_1 _ _ _ _ Hf Hrw). Qed.

Lemma grid_shape_replicate {A} (nrows ncols : nat) (z : A) :
  grid_shape nrows ncols (replicate nrows (replicate ncols z)).
Proof.
  split; [apply length_replicate|].
  apply Forall_replicate. apply length_replicate.
Qed.

Lemma grid_get_replicate {A} (nrows ncols : nat) (z : A) r c :
  (r < nrows)%nat -> (c < ncols)%nat ->
  grid_get (replicate nrows (replicate ncols z)) r c = Some z.
Proof.
  intros Hr Hc. unfold grid_get.
  rewrite lookup_replicate_2 by done. simpl. by rewrite lookup_replicate_2.
Qed.

(** ** The embedding loop *)

Lemma vsum_snoc d vs v : vsum d (vs ++ [v]) = zip_with Qplus (vsum d vs) v.
Proof. unfold vsum. by rewrite foldl_snoc. Qed.

Lemma seg_at_Ok query i s : py_getitem (segment_ids query) i = Ok s -> seg_at query i = s.
Proof. unfold seg_at. by intros ->. Qed.

Lemma emb_at_Ok query i e : py_getitem (embeddings query) i = Ok e -> emb_at query i = e.
Proof. unfold emb_at. by intros ->. Qed.

Lemma np_iadd_Ok a b c : np_iadd a b = Ok c -> c = zip_with Qplus a b.
Proof. unfold np_iadd. case_decide; congruence. Qed.

Ltac same_Ok :=
  repeat match goal with
  | H1 : ?m = Ok ?x, H2 : ?m = Ok ?y |- _ =>
      assert (y = x) by congruence; clear H2; try subst
  end.

Ltac use_at :=
  repeat match goal with
  | H : py_getitem (segment_ids _) _ = Ok _ |- _ => rewrite (seg_at_Ok _ _ _ H)
  | H : py_getitem (embeddings _) _ = Ok _ |- _ => rewrite (emb_at_Ok _ _ _ H)
  end.

Lemma embed_query_part_spec query st i st1 :
  i <> 0 ->
  embed_query_part query st i = Ok st1 ->
  embed_array st1 = embed_array st /\ num_array st1 = num_array st /\
  row st1 = row st /\ column st1 = column st /\
  at_beginning st1 = at_beginning st /\
  if (seg_at query i =? 0) && at_beginning st && negb (seg_at query (i + 1) =? 1)
  then query_array st1 = zip_with Qplus (query_array st) (emb_at query i) /\
       query_array_num st1 = query_array_num st + 1
  else query_array st1 = query_array st /\
       query_array_num st1 = query_array_num st.
Proof.
  intros Hi H. unfold embed_query_part in H. res_inv. use_at.
  destruct ((_ =? 0) && at_beginning st) eqn:Hc; simpl; res_inv; [|done].
  apply Z.eqb_neq in Hi. rewrite Hi in *. simpl in *. res_inv. use_at.
  destruct (negb (_ =? 1)); res_inv; [|done]. use_at.
  match goal with H : np_iadd _ _ = Ok _ |- _ => apply np_iadd_Ok in H; subst end.
  done.
Qed.

Lemma embed_cell_part_spec FLAGS query nrows ncols st1 i st' :
  grid_shape nrows ncols (embed_array st1) ->
  grid_shape nrows ncols (num_array st1) ->
  embed_cell_part FLAGS query st1 i = Ok st' ->
  query_array st' = query_array st1 /\
  query_array_num st' = query_array_num st1 /\
  at_beginning st' = at_beginning st1 && negb (seg_at query i =? 1) /\
  match token_cell FLAGS query nrows ncols i with
  | None => embed_array st' = embed_array st1 /\ num_array st' = num_array st1
  | Some (r', c') =>
      exists rw old nrw n,
        embed_array st1 !! r' = Some rw /\ rw !! c' = Some old /\
        embed_array st' =
          <[r' := <[c' := zip_with Qplus old (emb_at query i)]> rw]> (embed_array st1) /\
        num_array st1 !! r' = Some nrw /\ nrw !! c' = Some n /\
        num_array st' = <[r' := <[c' := n + 1]> nrw]> (num_array st1)
  end.
Proof.
  intros Hse Hsn H. unfold embed_cell_part in H. res_inv.
  assert (Hacc : forall r co e ea na,
    a = 1 ->
    py_getitem (row_ids query) i = Ok r ->
    (exists cid, py_getitem (column_ids query) i = Ok cid /\
                 py_getitem (column_order FLAGS) (cid - 1) = Ok co) ->
    py_getitem (embeddings query) i = Ok e ->
    np_update2 (embed_array st1) (r - 1) (co - 1) (fun old => np_iadd old e) = Ok ea ->
    np_update2 (num_array st1) (r - 1) (co - 1) (fun n => Ok (n + 1)) = Ok na ->
    match token_cell FLAGS query nrows ncols i with
    | None => ea = embed_array st1 /\ na = num_array st1
    | Some (r', c') =>
      exists rw old nrw n,
        embed_array st1 !! r' = Some rw /\ rw !! c' = Some old /\
        ea = <[r' := <[c' := zip_with Qplus old (emb_at query i)]> rw]> (embed_array st1) /\
        num_array st1 !! r' = Some nrw /\ nrw !! c' = Some n /\
        na = <[r' := <[c' := n + 1]> nrw]> (num_array st1)
    end).
  { intros r co e ea na -> Hr (cid & Hcid & Hco) He Hea Hna.
    unfold token_cell. rewrite E, Hr, Hcid, Hco. simpl.
    apply np_update2_Ok in Hea as (r' & c' & rw & old & new & Hr' & Hrw & Hc' & Hold & Hnew & ->).
    apply np_update2_Ok in Hna as (r2 & c2 & nrw & n & new2 & Hr2 & Hnrw & Hc2 & Hn & Hnew2 & ->).
    destruct Hse as [Hle Hfe]. destruct Hsn as [Hln Hfn].
    rewrite Hle in Hr'. rewrite Hln in Hr2.
    assert (r2 = r') by congruence. subst r2.
    rewrite (Forall_lookup_1 _ _ _ _ Hfe Hrw) in Hc'.
    rewrite (Forall_lookup_1 _ _ _ _ Hfn Hnrw) in Hc2.
    assert (c2 = c') by congruence. subst c2.
    rewrite Hr', Hc'. apply np_iadd_Ok in Hnew. injection Hnew2 as <-.
    rewrite (emb_at_Ok _ _ _ He). subst new.
    exists rw, old, nrw, n. done. }
  rewrite (seg_at_Ok _ _ _ E).
  destruct (a =? 1) eqn:Ha.
  - apply Z.eqb_eq in Ha. subst a.
    destruct a0; res_inv; same_Ok; simpl in *; res_inv; simpl.
    + split; [done|]. split; [done|]. split; [by rewrite andb_false_r|].
      eapply Hacc; eauto.
    + split; [done|]. split; [done|]. split; [by rewrite andb_false_r|].
      destruct (row st1 =? _ - 1) eqn:Hrow; res_inv; try discriminate.
      apply Z.eqb_eq in Hrow.
      match goal with H : negb _ = false |- _ =>
        apply negb_false_iff, Z.eqb_eq in H; rewrite Hrow, H in * end.
      eapply Hacc; eauto.
  - res_inv. same_Ok. rewrite Ha in *. res_inv.
    split; [done|]. split; [done|]. split; [by rewrite andb_true_r|].
    unfold token_cell. rewrite E, Ha. done.
Qed.

Lemma filter_snoc_bool {A} (P : A -> bool) (l : list A) (x : A) :
  filter (fun i => P i = true) (l ++ [x]) =
  filter (fun i => P i = true) l ++ (if P x then [x] else []).
Proof.
  rewrite filter_app. f_equal.
  destruct (P x) eqn:E.
  - rewrite filter_cons_True by done. done.
  - rewrite filter_cons_False by (rewrite E; done). done.
Qed.

Lemma counted_query_token_next query m :
  counted_query_token query (1 + Z.of_nat m) =
  (seg_at query (1 + Z.of_nat m) =? 0)
  && forallb (fun j => negb (seg_at query j =? 1)) (upto 1 m)
  && negb (seg_at query (1 + Z.of_nat m + 1) =? 1).
Proof. unfold counted_query_token. by rewrite py_range_1_upto. Qed.

Lemma embed_inv_step FLAGS query nrows ncols d m st st' :
  embed_inv FLAGS query nrows ncols d (upto 1 m) st ->
  embed_table_body FLAGS query st (1 + Z.of_nat m) = Ok st' ->
  embed_inv FLAGS query nrows ncols d (upto 1 (S m)) st'.
Proof.
  intros [Hse Hsn Hcells Hq Hqn Hb] H.
  unfold embed_table_body in H. apply bind_Ok in H as (st1 & H1 & H2).
  apply embed_query_part_spec in H1 as (Hea & Hna & _ & _ & Hab & Hqa); [|lia].
  rewrite <- Hea in Hse, Hcells. rewrite <- Hna in Hsn, Hcells.
  pose proof (embed_cell_part_spec _ _ _ _ _ _ _ Hse Hsn H2)
    as (Hqa' & Hqn' & Hab' & Hc).
  rewrite upto_S.
  assert (Hshape : grid_shape nrows ncols (embed_array st') /\
                   grid_shape nrows ncols (num_array st')).
  { destruct (token_cell FLAGS query nrows ncols (1 + Z.of_nat m)) as [[r' c']|].
    - destruct Hc as (rw & old & nrw & n & Hrw & _ & -> & Hnrw & _ & ->).
      split; by apply grid_shape_update.
    - destruct Hc as [-> ->]. done. }
  destruct Hshape as [Hse' Hsn'].
  split; try done.
  - intros r c Hr Hcl. rewrite !filter_snoc_bool.
    destruct (Hcells r c Hr Hcl) as [He Hn].
    assert (Hin : in_cell FLAGS query nrows ncols (r, c) (1 + Z.of_nat m) =
                  bool_decide (token_cell FLAGS query nrows ncols (1 + Z.of_nat m)
                               = Some (r, c))) by done.
    rewrite !Hin. clear Hin.
    destruct (token_cell FLAGS query nrows ncols (1 + Z.of_nat m)) as [[r' c']|].
    + destruct Hc as (rw & old & nrw & n & Hrw & Hold & -> & Hnrw & Hnn & ->).
      rewrite !grid_get_update; try done.
      2:{ by apply lookup_lt_Some in Hnn. }
      2:{ by apply lookup_lt_Some in Hold. }
      destruct (decide ((r, c) = (r', c'))) as [Heq|Hne].
      * injection Heq as -> ->. rewrite bool_decide_eq_true_2 by done.
        unfold grid_get in He, Hn. rewrite Hrw in He. rewrite Hnrw in Hn.
        simpl in He, Hn. rewrite Hold in He. rewrite Hnn in Hn.
        injection He as ->. injection Hn as ->.
        rewrite fmap_app, list_fmap_singleton, vsum_snoc, length_app. simpl.
        split; [done|]. f_equal. lia.
      * rewrite bool_decide_eq_false_2 by congruence.
        rewrite !app_nil_r. done.
    + destruct Hc as [-> ->].
      rewrite bool_decide_eq_false_2 by done. rewrite !app_nil_r. done.
  - rewrite filter_snoc_bool, counted_query_token_next, <- Hb.
    rewrite Hqa'.
    destruct (_ && _ && _).
    + destruct Hqa as [-> _].
      rewrite fmap_app, list_fmap_singleton, vsum_snoc, Hq. done.
    + destruct Hqa as [-> _]. rewrite app_nil_r. done.
  - rewrite filter_snoc_bool, counted_query_token_next, <- Hb.
    rewrite Hqn'.
    destruct (_ && _ && _).
    + destruct Hqa as [_ ->]. rewrite length_app, Hqn. simpl. lia.
    + destruct Hqa as [_ ->]. rewrite app_nil_r. done.
  - rewrite forallb_app. simpl. rewrite andb_true_r.
    rewrite Hab', Hab, Hb. done.
Qed.

Lemma embed_inv_loop FLAGS query nrows ncols d m st0 st :
  embed_inv FLAGS query nrows ncols d [] st0 ->
  for_each (embed_table_body FLAGS query) st0 (upto 1 m) = Ok st ->
  embed_inv FLAGS query nrows ncols d (upto 1 m) st.
Proof.
  intros H0. revert st. induction m as [|m IH]; intros st H.
  - simpl in H. injection H as <-. exact H0.
  - rewrite upto_S, for_each_snoc in H.
    apply bind_Ok in H as (s' & Hs' & Hbody).
    eapply embed_inv_step; eauto.
Qed.

Lemma embed_accumulate_inv FLAGS query st :
  embed_accumulate FLAGS query = Ok st ->
  embed_inv FLAGS query (grid_rows query) (grid_cols FLAGS) (len_embedding query)
            (py_range 1 (max_seq_length FLAGS)) st.
Proof.
  unfold embed_accumulate. intros H. res_inv.
  rewrite py_range_upto in *.
  eapply embed_inv_loop; [|exact H].
  unfold np_zeros2 in *. unfold np_zeros1 in *.
  destruct (_ || _); [discriminate|].
  destruct (_ <? 0); [discriminate|]. res_inv.
  unfold grid_rows, grid_cols, len_embedding.
  match goal with H : py_max _ = Ok _ |- _ => rewrite H end.
  match goal with H : py_getitem (embeddings _) 0 = Ok _ |- _ =>
    rewrite (emb_at_Ok _ _ _ H) end.
  unfold py_len. rewrite Nat2Z.id.
  split; simpl; try done.
  - apply grid_shape_replicate.
  - apply grid_shape_replicate.
  - intros r c Hr Hc. rewrite !grid_get_replicate by done. done.
Qed.

(** ** Normalisation *)

Lemma concat_lookup_grid {A} nrows ncols (arr : list (list A)) r c :
  grid_shape nrows ncols arr -> (c < ncols)%nat ->
  concat arr !! (r * ncols + c)%nat = grid_get arr r c.
Proof.
  intros [_ Hf] Hc. clear nrows. revert r.
  induction arr as [|rw arr IH]; intros r.
  - destruct r; done.
  - apply Forall_cons in Hf as [Hrw Hf]. simpl. destruct r as [|r].
    + simpl. rewrite lookup_app_l by lia. done.
    + rewrite lookup_app_r by (rewrite Hrw; lia).
      replace (S r * ncols + c - length rw)%nat with (r * ncols + c)%nat
        by (rewrite Hrw; lia).
      rewrite IH by done. done.
Qed.

Lemma concat_length_grid {A} nrows ncols (arr : list (list A)) :
  grid_shape nrows ncols arr -> length (concat arr) = (nrows * ncols)%nat.
Proof.
  intros [<- Hf]. induction arr as [|rw arr IH]; [done|].
  apply Forall_cons in Hf as [Hrw Hf]. simpl.
  rewrite length_app, IH by done. lia.
Qed.

Lemma zip_rows_shape {A B C} (f : A -> B -> C) nrows ncols
    (ea : list (list A)) (na : list (list B)) :
  grid_shape nrows ncols ea -> grid_shape nrows ncols na ->
  grid_shape nrows ncols (zip_with (zip_with f) ea na).
Proof.
  intros [Hle Hfe] [Hln Hfn]. split.
  - rewrite length_zip_with. lia.
  - apply Forall_lookup. intros i rw Hi.
    apply lookup_zip_with_Some in Hi as (x & y & -> & Hx & Hy).
    rewrite length_zip_with.
    rewrite (Forall_lookup_1 _ _ _ _ Hfe Hx), (Forall_lookup_1 _ _ _ _ Hfn Hy). lia.
Qed.

Lemma zip_rows_get {A B C} (f : A -> B -> C) (ea : list (list A))
    (na : list (list B)) r c x y :
  grid_get ea r c = Some x -> grid_get na r c = Some y ->
  grid_get (zip_with (zip_with f) ea na) r c = Some (f x y).
Proof.
  unfold grid_get. intros Hx Hy.
  destruct (ea !! r) as [rw|] eqn:Hrw; [|done].
  destruct (na !! r) as [nrw|] eqn:Hnrw; [|done]. simpl in *.
  rewrite lookup_zip_with, Hrw, Hnrw. simpl.
  rewrite lookup_zip_with, Hx, Hy. done.
Qed.

(** Every entry of the saved table is the division of that cell's sum by
    that cell's count, whatever the count. *)
Lemma embed_table_entries FLAGS query qa ra :
  embed_table FLAGS query = Ok (qa, ra) ->
  let nrows := grid_rows query in
  let ncols := grid_cols FLAGS in
  let d := len_embedding query in
  let L := max_seq_length FLAGS in
  length ra = (nrows * ncols)%nat /\
  (forall r c, (r < nrows)%nat -> (c < ncols)%nat ->
     let toks := cell_tokens FLAGS query nrows ncols (r, c) L in
     ra !! (r * ncols + c)%nat =
       Some (np_vdiv (vsum d (emb_at query <$> toks)) (Z.of_nat (length toks)))) /\
  qa = np_vdiv (vsum d (emb_at query <$> query_tokens query L))
               (Z.of_nat (length (query_tokens query L))).
Proof.
  unfold embed_table. intros H. res_inv.
  apply embed_accumulate_inv in E as [Hse Hsn Hcells Hq Hqn _].
  pose proof (zip_rows_shape np_vdiv _ _ _ _ Hse Hsn) as Hs.
  simpl. unfold normalize_cells. split; [|split].
  - by apply concat_length_grid.
  - intros r c Hr Hc. destruct (Hcells r c Hr Hc) as [He Hn].
    erewrite concat_lookup_grid by eauto.
    erewrite zip_rows_get by eauto. done.
  - rewrite Hq, Hqn. done.
Qed.

Lemma np_vdiv_mean d (vs : list (list Q)) :
  vs <> [] -> np_vdiv (vsum d vs) (Z.of_nat (length vs)) = vmean d vs.
Proof.
  intros Hne. unfold np_vdiv, vmean, np_true_divide.
  destruct vs; [done|]. simpl length.
  destruct (Z.of_nat _ =? 0) eqn:E; [apply Z.eqb_eq in E; lia|done].
Qed.

Lemma vsum_length d vs : Forall (fun v => length v = d) vs -> length (vsum d vs) = d.
Proof.
  unfold vsum. generalize (length_replicate d 0%Q).
  generalize (replicate d 0%Q). intros acc Hacc Hf. revert acc Hacc.
  induction Hf as [|v vs Hv Hf IH]; intros acc Hacc; simpl; [done|].
  apply IH. rewrite length_zip_with. lia.
Qed.

Lemma np_vdiv_zero d : np_vdiv (vsum d []) 0 = replicate d NaN.
Proof. unfold np_vdiv, vsum. simpl. by rewrite fmap_replicate. Qed.

(** C2: when the embedding table of a query is written, the entry saved for
    a grid cell that at least one segment-1 token is accumulated into is the
    arithmetic mean (sum divided by count) of the embeddings of exactly the
    token positions accumulated into that cell, where a position goes to row
    [row_ids[i]-1] and to the column the [column_order] remapping of
    [column_ids[i]] gives; and the saved query embedding is the mean of the
    counted leading segment-0 token embeddings.  The table is saved
    flattened, cell (r, c) at [r * num_columns + c]. *)
Theorem C2_embed_table_cell_is_mean FLAGS query qa ra :
  embed_table FLAGS query = Ok (qa, ra) ->
  let nrows := grid_rows query in
  let ncols := grid_cols FLAGS in
  let d := len_embedding query in
  let L := max_seq_length FLAGS in
  (forall r c, (r < nrows)%nat -> (c < ncols)%nat ->
     let toks := cell_tokens FLAGS query nrows ncols (r, c) L in
     toks <> [] ->
     ra !! (r * ncols + c)%nat = Some (vmean d (emb_at query <$> toks))) /\
  (query_tokens query L <> [] ->
     qa = vmean d (emb_at query <$> query_tokens query L)).
Proof.
  intros H. apply embed_table_entries in H as (_ & Hcells & Hq). simpl.
  split.
  - intros r c Hr Hc Hne. rewrite Hcells by done.
    rewrite <- (length_fmap (emb_at query)).
    rewrite np_vdiv_mean; [done|]. by destruct (cell_tokens _ _ _ _ _ _).
  - intros Hne. rewrite Hq. rewrite <- (length_fmap (emb_at query)).
    rewrite np_vdiv_mean; [done|]. by destruct (query_tokens _ _).
Qed.

Lemma C2_embed_table_cell_is_mean_witness :
  embed_table demo_flags demo_query = Ok ([Fin (6 # 2)], [[Fin 64]; [Fin (48 # 2)]]) /\
  [[Fin 64]; [Fin (48 # 2)]] !! 1%nat =
    Some (vmean 1 (emb_at demo_query <$>
            cell_tokens demo_flags demo_query 1 2 (0%nat, 1%nat) 7)) /\
  [Fin (6 # 2)] = vmean 1 (emb_at demo_query <$> query_tokens demo_query 7).
Proof.
  split; [reflexivity|].
  pose proof (C2_embed_table_cell_is_mean demo_flags demo_query
                [Fin (6 # 2)] [[Fin 64]; [Fin (48 # 2)]] eq_refl) as [Hc Hq].
  split.
  - apply (Hc 0%nat 1%nat); [vm_compute; lia | vm_compute; lia | discriminate].
  - apply Hq. discriminate.
Defined.

Lemma vmean_finite d vs : Forall (fun x => np_isfinite x = true) (vmean d vs).
Proof. unfold vmean. apply Forall_fmap, Forall_true. done. Qed.

(** C8: the normalisation divides every entry of the num_rows x num_columns
    grid by its count, also the entries no token was accumulated into, whose
    count is zero: such an entry is saved as NaN, so the saved table holds
    only finite numbers exactly when every grid entry received a segment-1
    token; and with no counted query token the saved query embedding is
    NaN as well. *)
Theorem C8_embed_table_division_unguarded FLAGS query qa ra :
  embed_table FLAGS query = Ok (qa, ra) ->
  let nrows := grid_rows query in
  let ncols := grid_cols FLAGS in
  let d := len_embedding query in
  let L := max_seq_length FLAGS in
  (forall r c, (r < nrows)%nat -> (c < ncols)%nat ->
     let toks := cell_tokens FLAGS query nrows ncols (r, c) L in
     ra !! (r * ncols + c)%nat =
       Some (np_vdiv (vsum d (emb_at query <$> toks)) (Z.of_nat (length toks))) /\
     (toks = [] -> ra !! (r * ncols + c)%nat = Some (replicate d NaN))) /\
  ((0 < d)%nat ->
     (Forall (Forall (fun x => np_isfinite x = true)) ra <->
      forall r c, (r < nrows)%nat -> (c < ncols)%nat ->
        cell_tokens FLAGS query nrows ncols (r, c) L <> [])) /\
  (query_tokens query L = [] -> qa = replicate d NaN).
Proof.
  intros H. apply embed_table_entries in H as (Hlen & Hcells & Hq). simpl.
  split; [|split].
  - intros r c Hr Hc. split; [by apply Hcells|].
    intros Hnil. rewrite Hcells, Hnil by done. simpl. by rewrite np_vdiv_zero.
  - intros Hd. split.
    + intros Hfin r c Hr Hc Hnil.
      pose proof (Hcells r c Hr Hc) as Hl. rewrite Hnil in Hl. simpl in Hl.
      rewrite np_vdiv_zero in Hl.
      pose proof (Forall_lookup_1 _ _ _ _ Hfin Hl) as Hrow.
      destruct (len_embedding query); [lia|].
      simpl in Hrow. apply Forall_cons in Hrow as [Hnan _]. discriminate.
    + intros Hall. apply Forall_lookup. intros k v Hk.
      pose proof (lookup_lt_Some _ _ _ Hk) as Hlt. rewrite Hlen in Hlt.
      assert (Hnc : (0 < grid_cols FLAGS)%nat) by nia.
      pose proof (Nat.div_mod_eq k (grid_cols FLAGS)) as Hdm.
      pose proof (Nat.mod_upper_bound k (grid_cols FLAGS) ltac:(lia)) as Hc.
      assert (Hr : (k / grid_cols FLAGS < grid_rows query)%nat).
      { apply Nat.Div0.div_lt_upper_bound. lia. }
      pose proof (Hcells _ _ Hr Hc) as Hl.
      replace (k / grid_cols FLAGS * grid_cols FLAGS + k mod grid_cols FLAGS)%nat
        with k in Hl by lia.
      rewrite Hk in Hl. injection Hl as ->.
      rewrite <- (length_fmap (emb_at query)).
      rewrite np_vdiv_mean; [apply vmean_finite|].
      specialize (Hall _ _ Hr Hc).
      by destruct (cell_tokens _ _ _ _ _ _).
  - intros Hnil. rewrite Hq, Hnil. simpl. by rewrite np_vdiv_zero.
Qed.

Lemma C8_embed_table_division_unguarded_witness :
  embed_table (demo_flags_of 3 [2; 1]) sparse_query
  = Ok ([NaN], [[NaN]; [Fin (6 # 2)]]) /\
  [[NaN]; [Fin (6 # 2)]] !! 0%nat = Some (replicate 1 NaN) /\
  [NaN] = replicate 1 NaN.
Proof.
  split; [reflexivity|].
  pose proof (C8_embed_table_division_unguarded (demo_flags_of 3 [2; 1])
     sparse_query [NaN] [[NaN]; [Fin (6 # 2)]] eq_refl) as (Hc & _ & Hq).
  split.
  - apply (Hc 0%nat 0%nat); [vm_compute; lia | vm_compute; lia | reflexivity].
  - apply Hq. reflexivity.
Defined.

(** ** The probability table *)

Lemma prob_table_body_order_irrelevant FLAGS o1 o2 query arr i a1 a2 :
  prob_table_body (set_column_order FLAGS o1) query arr i = Ok a1 ->
  prob_table_body (set_column_order FLAGS o2) query arr i = Ok a2 ->
  a1 = a2.
Proof.
  unfold prob_table_body. intros H1 H2.
  apply bind_Ok in H1 as (seg & Hseg & H1).
  apply bind_Ok in H2 as (seg2 & Hseg2 & H2).
  same_Ok.
  apply bind_Ok in H1 as (c1 & Hc1 & H1).
  apply bind_Ok in H2 as (c2 & Hc2 & H2).
  same_Ok.
  destruct c1; [|congruence].
  res_inv. same_Ok. congruence.
Qed.

(** The table the script builds does not depend on the values in
    [column_order]. *)
Lemma prob_table_order_irrelevant FLAGS o1 o2 query t1 t2 :
  prob_table (set_column_order FLAGS o1) query = Ok t1 ->
  prob_table (set_column_order FLAGS o2) query = Ok t2 ->
  t1 = t2.
Proof.
  unfold prob_table. intros H1 H2. res_inv. same_Ok. simpl in *. same_Ok.
  match goal with H : np_zeros2 _ _ _ = Ok ?z |- _ =>
    clear H; revert H1 H2; generalize z end.
  generalize (py_range 1 (max_seq_length FLAGS)).
  intros l. induction l as [|i l IH]; intros arr H1 H2; simpl in *.
  - congruence.
  - apply bind_Ok in H1 as (s1 & Hs1 & H1).
    apply bind_Ok in H2 as (s2 & Hs2 & H2).
    pose proof (prob_table_body_order_irrelevant _ _ _ _ _ _ _ _ Hs1 Hs2).
    subst s2. eauto.
Qed.

(** C1 (the script departs from the claim): with column_order = [2, 1] the
    probability of the cell of column id 1 is stored in column 0 and that of
    column id 2 in column 1, the positions [column_ids[i]-1]; the
    [column_order] remapping, which the script computes into a variable it
    never reads, would store them in columns 1 and 0. *)
Theorem C1_prob_table_ignores_column_order :
  prob_table demo_flags demo_query = Ok [[9 # 10; 4 # 10]]%Q /\
  prob_table_remapped demo_flags demo_query = Ok [[4 # 10; 9 # 10]]%Q /\
  prob_table demo_flags demo_query <> prob_table_remapped demo_flags demo_query.
Proof. repeat split. discriminate. Qed.

(** ** The script monad *)

Lemma bindM_Ok {A B} (m : Script A) (f : A -> Script B) w b w' :
  (m ≫= f) w = (Ok b, w') <-> exists a w1, m w = (Ok a, w1) /\ f a w1 = (Ok b, w').
Proof.
  unfold mbind, Script_bind. destruct (m w) as [[a|e] w1]; split.
  - intros H. eauto.
  - intros (a' & w2 & [= <- <-] & Hf). done.
  - discriminate.
  - intros (a' & w2 & [=] & _).
Qed.

Lemma for_eachM_snoc {I} (body : I -> Script unit) l i w :
  for_eachM body (l ++ [i]) w =
  match for_eachM body l w with
  | (Ok _, w1) => body i w1
  | (Raise e, w1) => (Raise e, w1)
  end.
Proof.
  revert w. induction l as [|j l IH]; intros w; simpl.
  - unfold mbind, Script_bind. destruct (body i w) as [[[]|e] w1]; done.
  - unfold mbind, Script_bind. destruct (body j w) as [[a|e] w1]; [|done].
    apply IH.
Qed.

Ltac script_inv :=
  repeat match goal with
  | H : (_ ≫= _) _ = (Ok _, _) |- _ =>
      let a := fresh "a" in
      let w := fresh "w" in
      let E := fresh "E" in
      apply bindM_Ok in H; destruct H as (a & w & E & H)
  | H : lift _ _ = (Ok _, _) |- _ => unfold lift in H
  | H : mret _ _ = (Ok _, _) |- _ => unfold mret, Script_ret in H
  | H : (_, _) = (_, _) |- _ => injection H as ??; subst
  end.

(** ** Strings *)

Lemma string_app_assoc (a b c : string) : (a +:+ b) +:+ c = a +:+ (b +:+ c).
Proof.
  induction a as [|x a' IH]; [done|].
  change (String x ((a' +:+ b) +:+ c) = String x (a' +:+ (b +:+ c))).
  by rewrite IH.
Qed.

Lemma string_app_length (a b : string) :
  String.length (a +:+ b) = (String.length a + String.length b)%nat.
Proof.
  induction a as [|x a' IH]; [done|].
  change (S (String.length (a' +:+ b)) = S (String.length a' + String.length b)).
  by rewrite IH.
Qed.

Lemma string_app_same_length_suffix (a b s t : string) :
  String.length s = String.length t -> a +:+ s = b +:+ t -> s = t.
Proof.
  intros Hl. revert b. induction a as [|x a IH]; intros b H.
  - destruct b as [|y b]; [done|].
    apply (f_equal String.length) in H.
    rewrite !string_app_length in H. simpl in H. lia.
  - destruct b as [|y b].
    + apply (f_equal String.length) in H.
      rewrite !string_app_length in H. simpl in H. lia.
    + change (String x (a +:+ s) = String y (b +:+ t)) in H.
      injection H as _ H. eauto.
Qed.

Lemma os_path_join_suffix a b : exists pre, os_path_join a b = pre +:+ b.
Proof.
  unfold os_path_join. destruct (starts_with_sep b).
  - by exists "".
  - destruct (_ || _).
    + by exists a.
    + exists (a +:+ "/"). by rewrite string_app_assoc.
Qed.

(** A prediction file is never one of the two dumped arrays. *)
Lemma prediction_file_not_npy env FLAGS task model_dir ts seq gs :
  _get_test_prediction_file env task model_dir ts seq gs <> query_path FLAGS /\
  _get_test_prediction_file env task model_dir ts seq gs <> embeds_path FLAGS /\
  _get_test_prediction_file env task model_dir ts seq gs <> probs_path FLAGS.
Proof.
  unfold _get_test_prediction_file, query_path, embeds_path, probs_path.
  match goal with |- context [os_path_join ?a ?b] =>
    destruct (os_path_join_suffix a b) as [pre ->] end.
  rewrite <- !string_app_assoc.
  repeat split; intros H.
  - change "/query.npy" with ("/query" +:+ ".npy") in H.
    rewrite <- string_app_assoc in H.
    by apply string_app_same_length_suffix in H.
  - change "/embeds.npy" with ("/embeds" +:+ ".npy") in H.
    rewrite <- string_app_assoc in H.
    by apply string_app_same_length_suffix in H.
  - change "/probs.npy" with ("/probs" +:+ ".npy") in H.
    rewrite <- string_app_assoc in H.
    by apply string_app_same_length_suffix in H.
Qed.

Lemma query_path_ne_embeds FLAGS : query_path FLAGS <> embeds_path FLAGS.
Proof. unfold query_path, embeds_path. intros H. by apply String.app_inj in H. Qed.

(** ** The dumped embedding arrays *)

Lemma write_embed_table_query_Ok FLAGS query w w' :
  write_embed_table_query FLAGS query w = (Ok tt, w') ->
  exists qa ra, embed_table FLAGS query = Ok (qa, ra) /\
    files w' = <[embeds_path FLAGS := Npy (np_array ra)]>
                 (<[query_path FLAGS := Npy (Arr1 qa)]> (files w)) /\
    log w' = log w ++ embed_prints FLAGS query.
Proof.
  unfold write_embed_table_query, embed_table, embed_prints. intros H.
  apply bindM_Ok in H as (st & w1 & Hst & H).
  unfold lift in Hst. injection Hst as Hst <-. rewrite Hst.
  unfold mbind, Script_bind, emit, np_save in H. simpl in H.
  injection H as <-. simpl.
  eexists _, _. split; [reflexivity|]. split; [done|].
  by rewrite <- app_assoc.
Qed.

Lemma write_embed_tables_log FLAGS result w w' :
  for_eachM (write_embed_table_query FLAGS) result w = (Ok tt, w') ->
  log w' = log w ++ concat (embed_prints FLAGS <$> result).
Proof.
  revert w. induction result as [|q result IH]; intros w H; simpl in H.
  - injection H as <-. by rewrite app_nil_r.
  - apply bindM_Ok in H as ([] & w1 & Hq & H).
    apply write_embed_table_query_Ok in Hq as (_ & _ & _ & _ & Hl).
    rewrite (IH _ H), Hl, fmap_cons. simpl. by rewrite <- app_assoc.
Qed.

(** After the loop over a result that ends with [query], the two files hold
    the arrays of [query], whatever the earlier queries saved. *)
Lemma write_embed_tables_last FLAGS result query w w' :
  for_eachM (write_embed_table_query FLAGS) (result ++ [query]) w = (Ok tt, w') ->
  exists qa ra, embed_table FLAGS query = Ok (qa, ra) /\
    files w' !! query_path FLAGS = Some (Npy (Arr1 qa)) /\
    files w' !! embeds_path FLAGS = Some (Npy (np_array ra)).
Proof.
  rewrite for_eachM_snoc.
  destruct (for_eachM _ result w) as [[[]|e] w1] eqn:Hpre; [|discriminate].
  intros H. apply write_embed_table_query_Ok in H as (qa & ra & He & Hf & Hl).
  exists qa, ra. rewrite Hf. split; [done|].
  split.
  - rewrite lookup_insert_ne by (apply not_eq_sym, query_path_ne_embeds).
    by rewrite lookup_insert_eq.
  - by rewrite lookup_insert_eq.
Qed.

Lemma write_predictions_then_copy env src p o w :
  source_error env (files w) src = None ->
  (write_predictions env src p ≫= fun _ => gfile_copy p o) w =
  (Ok tt, {| files := <[o := Tsv (tsv_of src)]> (<[p := Tsv (tsv_of src)]> (files w));
             log := log w ++ [EvWritePredictions p; EvCopy p o] |}).
Proof.
  intros Hsrc. unfold mbind, Script_bind, write_predictions, gfile_copy.
  rewrite Hsrc. simpl.
  rewrite lookup_insert_eq. by rewrite <- app_assoc.
Qed.

Lemma write_predictions_raises env src p o w e :
  source_error env (files w) src = Some e ->
  (write_predictions env src p ≫= fun _ => gfile_copy p o) w = (Raise e, w).
Proof.
  intros Hsrc. unfold mbind, Script_bind, write_predictions. by rewrite Hsrc.
Qed.

Lemma read_classifier_dataset_Ok env c example_file w a w' :
  read_classifier_dataset env c example_file w = (Ok a, w') ->
  w' = w /\ is_Some (files w !! example_file) /\ read_error env c example_file = None.
Proof.
  unfold read_classifier_dataset, source_error.
  destruct (files w !! example_file) as [f|]; [|discriminate].
  destruct (read_error env c example_file); [discriminate|].
  intros [= _ <-]. eauto.
Qed.

Lemma read_classifier_dataset_run env c example_file w :
  is_Some (files w !! example_file) -> read_error env c example_file = None ->
  read_classifier_dataset env c example_file w = (Ok tt, w).
Proof.
  intros [f Hf] Hr. unfold read_classifier_dataset, source_error. by rewrite Hf, Hr.
Qed.

(** C10: with write_embed_table set, query.npy and embeds.npy are saved once
    for each query of the result, each save replacing the one before, so
    when [_predict_sequence_for_set] returns the two files hold the query
    embedding and the embedding table of the last query of the result. *)
Theorem C10_embed_files_hold_last_query env FLAGS task model_dir ts ts' seq seq'
    gs gs' example_file result query w w' :
  write_embed_table FLAGS = true ->
  compute_prediction_sequence env example_file = result ++ [query] ->
  _predict_sequence_for_set env FLAGS example_file
    (_get_test_prediction_file env task model_dir ts seq gs)
    (_get_test_prediction_file env task model_dir ts' seq' gs') w = (Ok tt, w') ->
  exists qa ra,
    embed_table FLAGS query = Ok (qa, ra) /\
    files w' !! query_path FLAGS = Some (Npy (Arr1 qa)) /\
    files w' !! embeds_path FLAGS = Some (Npy (np_array ra)).
Proof.
  intros Hflag Hres H. unfold _predict_sequence_for_set in H.
  rewrite Hflag, Hres in H.
  apply bindM_Ok in H as ([] & w0 & _ & H).
  apply bindM_Ok in H as ([] & w1 & _ & H).
  apply bindM_Ok in H as ([] & w2 & Hemb & H).
  rewrite write_predictions_then_copy in H by done. injection H as <-.
  apply write_embed_tables_last in Hemb as (qa & ra & He & Hq & Hr).
  exists qa, ra. split; [done|]. simpl.
  destruct (prediction_file_not_npy env FLAGS task model_dir ts seq gs)
    as (Hp1 & Hp2 & _).
  destruct (prediction_file_not_npy env FLAGS task model_dir ts' seq' gs')
    as (Ho1 & Ho2 & _).
  rewrite !lookup_insert_ne by done. done.
Qed.

Lemma C10_embed_files_hold_last_query_witness :
  let run :=
    _predict_sequence_for_set demo_env demo_flags "out/sqa/tf_examples/dev.tfrecord"
      (_get_test_prediction_file demo_env SQA "out/sqa/model" DEV true (Some 1000))
      (_get_test_prediction_file demo_env SQA "out/sqa/model" DEV true None)
      demo_world in
  run = (Ok tt, snd run) /\
  exists qa ra,
    embed_table demo_flags demo_query = Ok (qa, ra) /\
    files (snd run) !! query_path demo_flags = Some (Npy (Arr1 qa)) /\
    files (snd run) !! embeds_path demo_flags = Some (Npy (np_array ra)).
Proof.
  intros run.
  assert (Hrun : run = (Ok tt, snd run)) by (vm_compute; reflexivity).
  split; [exact Hrun|].
  exact (C10_embed_files_hold_last_query demo_env demo_flags SQA "out/sqa/model"
           DEV DEV true true (Some 1000) None "out/sqa/tf_examples/dev.tfrecord"
           [sparse_query_7] demo_query demo_world (snd run)
           eq_refl eq_refl Hrun).
Defined.

(** ** The probability file *)

Lemma np_update2_length {A} (arr : list (list A)) r c f arr' :
  np_update2 arr r c f = Ok arr' -> length arr' = length arr.
Proof.
  intros H. apply np_update2_Ok in H as (r' & c' & rw & old & new & _ & _ & _ & _ & _ & ->).
  apply length_insert.
Qed.

Lemma prob_table_body_length FLAGS query arr i arr' :
  prob_table_body FLAGS query arr i = Ok arr' -> length arr' = length arr.
Proof.
  unfold prob_table_body. intros H. res_inv.
  match goal with H : (if ?c then _ else _) = Ok arr' |- _ => destruct c end.
  - res_inv. by eapply np_update2_length.
  - by injection H as <-.
Qed.

Lemma prob_table_length FLAGS query t :
  prob_table FLAGS query = Ok t -> length t = grid_rows query.
Proof.
  unfold prob_table, grid_rows. intros H. res_inv.
  match goal with H : py_max _ = Ok _ |- _ => rewrite H end.
  unfold np_zeros2 in *. destruct (_ || _); [discriminate|]. res_inv.
  match goal with |- _ = Z.to_nat ?n =>
    rewrite <- (length_replicate (Z.to_nat n)
                  (replicate (Z.to_nat (num_columns FLAGS)) 0%Q)) end.
  revert H. generalize (replicate (Z.to_nat a) (replicate (Z.to_nat (num_columns FLAGS)) 0%Q)).
  generalize (py_range 1 (max_seq_length FLAGS)). intros l.
  induction l as [|i l IH]; intros arr H; simpl in H.
  - by injection H as <-.
  - apply bind_Ok in H as (arr1 & H1 & H).
    rewrite (IH _ H). by eapply prob_table_body_length.
Qed.

Lemma prob_rows_length FLAGS query :
  is_Ok (prob_table FLAGS query) -> length (prob_rows FLAGS query) = grid_rows query.
Proof.
  intros [t Ht]. unfold prob_rows. rewrite Ht, length_fmap.
  by apply (prob_table_length FLAGS).
Qed.

Lemma write_prob_table_query_absent FLAGS query w :
  files w !! probs_path FLAGS = None ->
  exists e, write_prob_table_query FLAGS query w = (Raise e, w) /\
    (is_Ok (prob_table FLAGS query) -> e = FileNotFoundError (probs_path FLAGS)).
Proof.
  intros Habs. unfold write_prob_table_query, mbind, Script_bind, lift, np_load.
  destruct (prob_table FLAGS query) as [t|e].
  - rewrite Habs. eauto.
  - exists e. split; [done|]. intros [t [=]].
Qed.

Lemma write_prob_table_query_present FLAGS query w rows :
  files w !! probs_path FLAGS = Some (Npy (Arr2 (grid_cols FLAGS) rows)) ->
  is_Ok (prob_table FLAGS query) ->
  write_prob_table_query FLAGS query w =
  (Ok tt, {| files := <[probs_path FLAGS :=
                          Npy (Arr2 (grid_cols FLAGS) (rows ++ prob_rows FLAGS query))]>
                      (files w);
             log := log w |}).
Proof.
  intros Hf [t Ht].
  unfold write_prob_table_query, mbind, Script_bind, lift, np_load, prob_rows.
  rewrite Ht, Hf. unfold np_concatenate, prob_ndarray, grid_cols.
  rewrite decide_True by done. done.
Qed.

(** C9: each query loads the existing probs.npy, appends its table and saves
    the result back.  Without the file the write fails (with
    FileNotFoundError as soon as the first table is built) and leaves the
    world as it was; with a file of the table's width every query adds its
    max(row_ids) rows to it. *)
Theorem C9_probs_file_must_exist FLAGS result w :
  (forall query rest, result = query :: rest ->
     files w !! probs_path FLAGS = None ->
     exists e, for_eachM (write_prob_table_query FLAGS) result w = (Raise e, w) /\
       (is_Ok (prob_table FLAGS query) -> e = FileNotFoundError (probs_path FLAGS))) /\
  (forall rows,
     files w !! probs_path FLAGS = Some (Npy (Arr2 (grid_cols FLAGS) rows)) ->
     Forall (fun query => is_Ok (prob_table FLAGS query)) result ->
     exists w',
       for_eachM (write_prob_table_query FLAGS) result w = (Ok tt, w') /\
       files w' !! probs_path FLAGS =
         (if result is [] then files w !! probs_path FLAGS
          else Some (Npy (Arr2 (grid_cols FLAGS)
                        (rows ++ concat (prob_rows FLAGS <$> result))))) /\
       length (rows ++ concat (prob_rows FLAGS <$> result)) =
         (length rows + sum_list (grid_rows <$> result))%nat).
Proof.
  split.
  - intros query rest -> Habs. simpl.
    destruct (write_prob_table_query_absent FLAGS query w Habs) as (e & He & Hk).
    exists e. unfold mbind, Script_bind. rewrite He. done.
  - revert w. induction result as [|query result IH]; intros w rows Hf Hall.
    + exists w. simpl. rewrite app_nil_r. split; [done|]. split; [done|]. lia.
    + apply Forall_cons in Hall as [Hq Hall].
      rewrite !fmap_cons. cbn [for_eachM concat sum_list].
      unfold mbind at 1. unfold Script_bind.
      rewrite (write_prob_table_query_present _ _ _ _ Hf Hq).
      set (w1 := {| files := <[probs_path FLAGS :=
                       Npy (Arr2 (grid_cols FLAGS) (rows ++ prob_rows FLAGS query))]>
                     (files w); log := log w |}).
      destruct (IH w1 (rows ++ prob_rows FLAGS query)) as (w' & Hrun & Hfile & Hlen);
        [by (simpl; rewrite lookup_insert_eq)|exact Hall|].
      exists w'. split; [exact Hrun|]. rewrite app_assoc. split.
      * rewrite Hfile. destruct result; [|done]. simpl.
        rewrite lookup_insert_eq, app_nil_r. done.
      * rewrite Hlen, length_app, prob_rows_length by done. unfold id. lia.
Qed.

Lemma C9_probs_file_must_exist_witness :
  (exists e, for_eachM (write_prob_table_query demo_flags) [sparse_query_7; demo_query]
               {| files := ∅; log := [] |} = (Raise e, {| files := ∅; log := [] |}) /\
     (is_Ok (prob_table demo_flags sparse_query_7) ->
      e = FileNotFoundError (probs_path demo_flags))) /\
  (exists w',
     for_eachM (write_prob_table_query demo_flags) [sparse_query_7; demo_query]
               demo_world = (Ok tt, w') /\
     files w' !! probs_path demo_flags =
       Some (Npy (Arr2 2 ([] ++ concat (prob_rows demo_flags <$> [sparse_query_7; demo_query])))) /\
     length ([] ++ concat (prob_rows demo_flags <$> [sparse_query_7; demo_query])) =
       (0 + sum_list (grid_rows <$> [sparse_query_7; demo_query]))%nat).
Proof.
  split.
  - apply (proj1 (C9_probs_file_must_exist demo_flags [sparse_query_7; demo_query]
                    {| files := ∅; log := [] |}) sparse_query_7 [demo_query]);
      reflexivity.
  - apply (proj2 (C9_probs_file_must_exist demo_flags [sparse_query_7; demo_query]
                    demo_world) []).
    + reflexivity.
    + repeat constructor; eexists; reflexivity.
Defined.

(** ** Prediction files *)

Lemma for_eachM_log {I} (body : I -> Script unit) l w w' :
  (forall i w1 w2, body i w1 = (Ok tt, w2) -> log w2 = log w1) ->
  for_eachM body l w = (Ok tt, w') -> log w' = log w.
Proof.
  intros Hbody. revert w. induction l as [|i l IH]; intros w H; simpl in H.
  - by injection H as <-.
  - apply bindM_Ok in H as ([] & w1 & Hi & H).
    rewrite (IH _ H). eauto.
Qed.

Lemma write_prob_table_query_log FLAGS query w w' :
  write_prob_table_query FLAGS query w = (Ok tt, w') -> log w' = log w.
Proof.
  unfold write_prob_table_query. intros H.
  apply bindM_Ok in H as (t & w1 & Ht & H). injection Ht as _ <-.
  apply bindM_Ok in H as (a & w1 & Hl & H).
  unfold np_load in Hl. destruct (files w !! _) as [[]|]; try discriminate.
  injection Hl as _ <-.
  apply bindM_Ok in H as (b & w1 & Hc & H). injection Hc as _ <-.
  by injection H as <-.
Qed.

Lemma _predict_sequence_for_set_Ok env FLAGS example_file p o w w' :
  _predict_sequence_for_set env FLAGS example_file p o w = (Ok tt, w') ->
  log w' = log w
           ++ (if write_embed_table FLAGS
               then concat (embed_prints FLAGS <$> compute_prediction_sequence env example_file)
               else [])
           ++ [EvWritePredictions p; EvCopy p o] /\
  files w' !! p = Some (Tsv (FromSequence (compute_prediction_sequence env example_file))) /\
  files w' !! o = Some (Tsv (FromSequence (compute_prediction_sequence env example_file))) /\
  readable env FLAGS (files w) example_file.
Proof.
  unfold _predict_sequence_for_set. intros H.
  apply bindM_Ok in H as ([] & w0 & Hr & H).
  apply read_classifier_dataset_Ok in Hr as (-> & Hex & Hrd).
  apply bindM_Ok in H as ([] & w1 & Hp & H).
  apply bindM_Ok in H as ([] & w2 & He & H).
  rewrite write_predictions_then_copy in H by done. injection H as <-. simpl.
  assert (log w1 = log w) as Hl1.
  { destruct (write_prob_table FLAGS).
    - eapply for_eachM_log; [|exact Hp]. apply write_prob_table_query_log.
    - by injection Hp as <-. }
  assert (log w2 = log w1
                   ++ (if write_embed_table FLAGS
                       then concat (embed_prints FLAGS <$>
                                      compute_prediction_sequence env example_file)
                       else [])) as Hl2.
  { destruct (write_embed_table FLAGS).
    - by apply write_embed_tables_log.
    - injection He as <-. by rewrite app_nil_r. }
  split; [|split; [|split]].
  - rewrite Hl2, Hl1. by rewrite <- app_assoc.
  - destruct (decide (o = p)) as [->|Hne].
    + by rewrite lookup_insert_eq.
    + rewrite lookup_insert_ne by done. by rewrite lookup_insert_eq.
  - by rewrite lookup_insert_eq.
  - done.
Qed.

Lemma _predict_sequence_for_set_plain env FLAGS example_file p o w :
  write_prob_table FLAGS = false -> write_embed_table FLAGS = false ->
  readable env FLAGS (files w) example_file ->
  _predict_sequence_for_set env FLAGS example_file p o w =
  (Ok tt, {| files := <[o := Tsv (FromSequence (compute_prediction_sequence env example_file))]>
                      (<[p := Tsv (FromSequence (compute_prediction_sequence env example_file))]>
                       (files w));
             log := log w ++ [EvWritePredictions p; EvCopy p o] |}).
Proof.
  intros H1 H2 [Hex Hrd]. unfold _predict_sequence_for_set. rewrite H1, H2.
  unfold mbind at 1. unfold Script_bind at 1.
  rewrite read_classifier_dataset_run by done.
  unfold mbind at 1. unfold Script_bind at 1. unfold mret at 1. unfold Script_ret at 1.
  unfold mbind at 1. unfold Script_bind at 1. unfold mret at 1. unfold Script_ret at 1.
  by apply write_predictions_then_copy.
Qed.

Lemma readable_source env FLAGS fs example_file :
  readable env FLAGS fs example_file <->
  source_error env fs (Pending example_file (compression_type FLAGS)) = None.
Proof.
  unfold readable, source_error. split.
  - intros [[f Hf] Hr]. by rewrite Hf.
  - destruct (fs !! example_file); [eauto|discriminate].
Qed.

Lemma readable_insert env FLAGS fs example_file p f :
  readable env FLAGS fs example_file ->
  readable env FLAGS (<[p := f]> fs) example_file.
Proof.
  intros [Hex Hrd]. split; [|done].
  destruct (decide (p = example_file)) as [->|Hne].
  - rewrite lookup_insert_eq. eauto.
  - by rewrite lookup_insert_ne.
Qed.

Lemma _predict_for_set_run env FLAGS example_file p o w :
  readable env FLAGS (files w) example_file ->
  _predict_for_set env FLAGS example_file p o w =
  (Ok tt, {| files := <[o := Tsv (FromExamples example_file)]>
                      (<[p := Tsv (FromExamples example_file)]>
                       (files w));
             log := log w ++ [EvWritePredictions p; EvCopy p o] |}).
Proof.
  intros Hr. unfold _predict_for_set. apply write_predictions_then_copy.
  by apply readable_source.
Qed.

Lemma _predict_for_set_Ok env FLAGS example_file p o w a w' :
  _predict_for_set env FLAGS example_file p o w = (Ok a, w') ->
  readable env FLAGS (files w) example_file /\
  w' = {| files := <[o := Tsv (FromExamples example_file)]>
                   (<[p := Tsv (FromExamples example_file)]>
                    (files w));
          log := log w ++ [EvWritePredictions p; EvCopy p o] |}.
Proof.
  intros H.
  destruct (source_error env (files w)
              (Pending example_file (compression_type FLAGS))) as [e|] eqn:Hsrc.
  - unfold _predict_for_set in H.
    rewrite (write_predictions_raises _ _ _ _ _ _ Hsrc) in H. discriminate.
  - apply readable_source in Hsrc. split; [done|].
    rewrite _predict_for_set_run in H by done. by injection H as _ <-.
Qed.


Lemma _predict_log env FLAGS task output_dir model_dir use_tpu global_step w w' :
  _predict env FLAGS task output_dir model_dir use_tpu global_step w = (Ok tt, w') ->
  log w' = log w ++ prediction_events env task model_dir false global_step
           ++ (if bool_decide (task = SQA) then
                 if use_tpu
                 then [EvWarn "Skipping SQA sequence evaluation because eval is running on TPU."]
                 else sequence_events env FLAGS task output_dir model_dir global_step DEV
                      ++ sequence_events env FLAGS task output_dir model_dir global_step TEST
               else []).
Proof.
  unfold _predict. intros H.
  apply bindM_Ok in H as ([] & w1 & Hplain & H).
  simpl in Hplain.
  apply bindM_Ok in Hplain as ([] & wa & Ha & Hplain).
  apply bindM_Ok in Hplain as ([] & wb & Hb & Hplain).
  injection Hplain as <-.
  apply _predict_for_set_Ok in Ha as (_ & ->).
  apply _predict_for_set_Ok in Hb as (_ & ->). simpl in H.
  unfold prediction_events. simpl.
  destruct (bool_decide (task = SQA)).
  - destruct use_tpu.
    + injection H as <-. simpl. rewrite <- !app_assoc. done.
    + apply bindM_Ok in H as ([] & wc & Hc & H).
      apply bindM_Ok in H as ([] & wd & Hd & H). injection H as <-.
      apply _predict_sequence_for_set_Ok in Hc as (Hc & _).
      apply _predict_sequence_for_set_Ok in Hd as (Hd & _).
      rewrite Hd, Hc. simpl. unfold sequence_events. rewrite <- !app_assoc. done.
  - injection H as <-. simpl. rewrite <- !app_assoc. done.
Qed.

Lemma _predict_total env FLAGS task output_dir model_dir use_tpu global_step w :
  write_prob_table FLAGS = false -> write_embed_table FLAGS = false ->
  readable env FLAGS (files w) (_get_test_examples_file env task output_dir DEV) ->
  readable env FLAGS (files w) (_get_test_examples_file env task output_dir TEST) ->
  exists w', _predict env FLAGS task output_dir model_dir use_tpu global_step w = (Ok tt, w').
Proof.
  intros H1 H2 Hdev Htest. unfold _predict. simpl.
  unfold mbind at 1. unfold Script_bind at 1.
  unfold mbind at 1. unfold Script_bind at 1.
  rewrite _predict_for_set_run by done.
  unfold mbind at 1. unfold Script_bind at 1.
  rewrite _predict_for_set_run by (simpl; by do 2 apply readable_insert).
  unfold mret at 1. unfold Script_ret at 1.
  destruct (bool_decide (task = SQA)); [|eauto].
  destruct use_tpu; [unfold emit; eauto|].
  unfold mbind at 1. unfold Script_bind at 1.
  rewrite _predict_sequence_for_set_plain
    by (try done; simpl; by do 4 apply readable_insert).
  unfold mbind at 1. unfold Script_bind at 1.
  rewrite _predict_sequence_for_set_plain
    by (try done; simpl; by do 6 apply readable_insert).
  eauto.
Qed.

Lemma _get_test_prediction_file_eq env task model_dir ts seq gs :
  _get_test_prediction_file env task model_dir ts seq gs =
  os_path_join model_dir
    (_get_test_filename env task ts +:+ prediction_suffix seq gs +:+ ".tsv").
Proof.
  unfold _get_test_prediction_file, prediction_suffix.
  destruct seq, gs; reflexivity.
Qed.

Lemma os_path_join_plain a b :
  a <> "" -> ends_with_sep a = false -> starts_with_sep b = false ->
  os_path_join a b = a +:+ "/" +:+ b.
Proof.
  intros Ha He Hb. unfold os_path_join. rewrite Hb, He.
  destruct a; [done|]. reflexivity.
Qed.

Lemma starts_with_sep_app a b :
  starts_with_sep (a +:+ b) =
  match a with EmptyString => starts_with_sep b | _ => starts_with_sep a end.
Proof. destruct a; reflexivity. Qed.

Lemma prediction_name_not_absolute filename seq gs :
  starts_with_sep filename = false ->
  starts_with_sep (filename +:+ prediction_suffix seq gs +:+ ".tsv") = false.
Proof.
  intros H. rewrite starts_with_sep_app. destruct filename; [|done].
  unfold prediction_suffix. destruct seq, gs; reflexivity.
Qed.

(** C4: the prediction file of a task, test set and step is
    model_dir/<test-set filename><suffix>.tsv, the suffix being "_sequence"
    for sequence predictions only, followed by "_<step>" when the step is
    not None.  A prediction pass that returns has written, for dev and then
    test, the per-step file and copied it over the step-less file of the
    same name, and has done the same with the "_sequence" files exactly for
    SQA off TPU; it returns whenever the framework reads the example files
    of dev and test (with the two table dumps switched off), and the
    step-less file then holds what the per-step file holds. *)
Theorem C4_prediction_files env FLAGS task output_dir model_dir use_tpu global_step w :
  (forall ts seq gs,
     _get_test_prediction_file env task model_dir ts seq gs =
       os_path_join model_dir
         (_get_test_filename env task ts +:+ prediction_suffix seq gs +:+ ".tsv") /\
     (model_dir <> "" -> ends_with_sep model_dir = false ->
      starts_with_sep (_get_test_filename env task ts) = false ->
      _get_test_prediction_file env task model_dir ts seq gs =
        model_dir +:+ "/" +:+ _get_test_filename env task ts
                  +:+ prediction_suffix seq gs +:+ ".tsv")) /\
  (forall w',
     _predict env FLAGS task output_dir model_dir use_tpu global_step w = (Ok tt, w') ->
     log w' = log w ++ prediction_events env task model_dir false global_step
              ++ (if bool_decide (task = SQA) then
                    if use_tpu
                    then [EvWarn "Skipping SQA sequence evaluation because eval is running on TPU."]
                    else sequence_events env FLAGS task output_dir model_dir global_step DEV
                         ++ sequence_events env FLAGS task output_dir model_dir global_step TEST
                  else [])) /\
  (write_prob_table FLAGS = false -> write_embed_table FLAGS = false ->
   readable env FLAGS (files w) (_get_test_examples_file env task output_dir DEV) ->
   readable env FLAGS (files w) (_get_test_examples_file env task output_dir TEST) ->
   exists w', _predict env FLAGS task output_dir model_dir use_tpu global_step w = (Ok tt, w')) /\
  (forall example_file p o w0,
     readable env FLAGS (files w0) example_file ->
     exists w1, _predict_for_set env FLAGS example_file p o w0 = (Ok tt, w1) /\
       files w1 !! p = Some (Tsv (FromExamples example_file)) /\
       files w1 !! o = files w1 !! p) /\
  (forall example_file p o w0 w1,
     _predict_sequence_for_set env FLAGS example_file p o w0 = (Ok tt, w1) ->
     files w1 !! p = Some (Tsv (FromSequence (compute_prediction_sequence env example_file))) /\
     files w1 !! o = files w1 !! p).
Proof.
  split; [|split; [|split; [|split]]].
  - intros ts seq gs. split; [apply _get_test_prediction_file_eq|].
    intros Hm He Hf. rewrite _get_test_prediction_file_eq.
    rewrite os_path_join_plain; try done.
    by apply prediction_name_not_absolute.
  - intros w'. apply _predict_log.
  - apply _predict_total.
  - intros example_file p o w0 Hr. eexists.
    split; [by apply _predict_for_set_run|].
    simpl. destruct (decide (o = p)) as [->|Hne].
    + by rewrite lookup_insert_eq.
    + rewrite lookup_insert_eq. rewrite lookup_insert_ne by done.
      by rewrite lookup_insert_eq.
  - intros example_file p o w0 w1 H.
    apply _predict_sequence_for_set_Ok in H as (_ & Hp & Ho & _). by rewrite Hp, Ho.
Qed.

Lemma C4_prediction_files_witness :
  let run :=
    _predict demo_env demo_flags SQA "out/sqa" "out/sqa/model" false 1000 demo_world in
  _get_test_prediction_file demo_env SQA "out/sqa/model" DEV true (Some 1000) =
    "out/sqa/model" +:+ "/" +:+ "dev" +:+ "_sequence_1000" +:+ ".tsv" /\
  run = (Ok tt, snd run) /\
  log (snd run) =
    [EvWritePredictions "out/sqa/model/dev_1000.tsv";
     EvCopy "out/sqa/model/dev_1000.tsv" "out/sqa/model/dev.tsv";
     EvWritePredictions "out/sqa/model/test_1000.tsv";
     EvCopy "out/sqa/model/test_1000.tsv" "out/sqa/model/test.tsv";
     EvStdout (PInt 1); EvStdout (PQuery sparse_query_7);
     EvStdout (PInt 2); EvStdout (PQuery demo_query);
     EvWritePredictions "out/sqa/model/dev_sequence_1000.tsv";
     EvCopy "out/sqa/model/dev_sequence_1000.tsv" "out/sqa/model/dev_sequence.tsv";
     EvStdout (PInt 1); EvStdout (PQuery sparse_query_7);
     EvStdout (PInt 2); EvStdout (PQuery demo_query);
     EvWritePredictions "out/sqa/model/test_sequence_1000.tsv";
     EvCopy "out/sqa/model/test_sequence_1000.tsv" "out/sqa/model/test_sequence.tsv"] /\
  exists w1,
    _predict_for_set demo_env demo_flags "out/sqa/tf_examples/test.tfrecord"
      "out/sqa/model/test_1000.tsv" "out/sqa/model/test.tsv" demo_world = (Ok tt, w1) /\
    files w1 !! "out/sqa/model/test_1000.tsv" =
      Some (Tsv (FromExamples "out/sqa/tf_examples/test.tfrecord")) /\
    files w1 !! "out/sqa/model/test.tsv" = files w1 !! "out/sqa/model/test_1000.tsv".
Proof.
  intros run.
  pose proof (C4_prediction_files demo_env demo_flags SQA "out/sqa" "out/sqa/model"
                false 1000 demo_world) as (Hpath & Hlog & _ & Hset & _).
  assert (Hrun : run = (Ok tt, snd run)) by (vm_compute; reflexivity).
  split; [|split; [|split]].
  - apply (Hpath DEV true (Some 1000)); [discriminate|reflexivity|reflexivity].
  - exact Hrun.
  - rewrite (Hlog (snd run) Hrun). vm_compute. reflexivity.
  - apply (Hset "out/sqa/tf_examples/test.tfrecord" "out/sqa/model/test_1000.tsv"
                "out/sqa/model/test.tsv" demo_world).
    split; [|reflexivity]. apply (bool_decide_unpack _). vm_compute. exact I.
Defined.

(** ** Option checks and dispatch *)

Lemma logged_nil w : logged w [] = w.
Proof. destruct w. unfold logged. simpl. by rewrite app_nil_r. Qed.

Lemma logged_logged w l1 l2 : logged (logged w l1) l2 = logged w (l1 ++ l2).
Proof. unfold logged. simpl. by rewrite app_assoc. Qed.

Lemma _check_options_run env output_dir task mode w :
  _check_options env output_dir task mode w =
  match check_options_result env output_dir task mode (files w) with
  | Ok _ => (Ok tt, if bool_decide (mode = CREATE_DATA) then w
                    else logged w (device_report env))
  | Raise e => (Raise e, w)
  end.
Proof.
  unfold _check_options, check_options_result.
  destruct (bool_decide (mode = CREATE_DATA)); [done|].
  unfold mbind, Script_bind, gfile_exists, raise, mret, Script_ret, emit, logged,
    device_report.
  destruct (_ || _); simpl.
  - destruct (bool_decide (is_Some (files w !! _get_test_interactions_file _ _ _ _)));
      simpl; [|done].
    destruct (bool_decide (is_Some (files w !! _get_test_examples_file _ _ _ _)));
      simpl; [|done].
    by rewrite <- !app_assoc.
  - destruct (bool_decide (is_Some (files w !! _get_test_examples_file _ _ _ _)));
      simpl; [|done].
    by rewrite <- !app_assoc.
Qed.

(** The log level is set when the flag names one of the levels, and an
    unknown name is a ValueError. *)
Lemma main_verbosity_step env FLAGS w :
  verbosity_ok FLAGS ->
  (if py_truthy_str (tapas_verbosity FLAGS)
   then logger_setLevel env (default "" (tapas_verbosity FLAGS))
   else mret tt) w = (Ok tt, logged w (verbosity_events FLAGS)).
Proof.
  unfold verbosity_ok, verbosity_events. intros Hok.
  destruct (py_truthy_str (tapas_verbosity FLAGS)).
  - unfold logger_setLevel. by rewrite bool_decide_eq_true_2 by auto.
  - by rewrite logged_nil.
Qed.

Lemma main_verbosity_unknown env FLAGS argv latest_checkpoints w :
  (length argv <= 1)%nat ->
  py_truthy_str (tapas_verbosity FLAGS) = true ->
  default "" (tapas_verbosity FLAGS) ∉ logging_levels ->
  main env FLAGS argv latest_checkpoints w =
  (Raise (ValueError ("Unknown level: "
                      +:+ py_repr env (default "" (tapas_verbosity FLAGS)))), w).
Proof.
  intros Hargv Hset Hbad. unfold main.
  replace (1 <? py_len argv) with false by (unfold py_len; symmetry; apply Z.ltb_ge; lia).
  rewrite Hset. unfold mbind at 1. unfold Script_bind at 1.
  unfold logger_setLevel. by rewrite bool_decide_eq_false_2.
Qed.

Lemma main_run env FLAGS argv latest_checkpoints w t m :
  (length argv <= 1)%nat ->
  verbosity_ok FLAGS ->
  Task_getitem env (task FLAGS) = Ok t ->
  Mode_getitem (py_upper env (mode FLAGS)) = Ok m ->
  main env FLAGS argv latest_checkpoints w =
  match check_options_result env (main_output_dir env FLAGS t) t m (files w) with
  | Raise e => (Raise e, logged w (verbosity_events FLAGS))
  | Ok _ =>
      if bool_decide (m = PREDICT_AND_EVALUATE) || bool_decide (m = PREDICT) then
        _train_and_predict env FLAGS t (use_tpu FLAGS) (test_batch_size FLAGS)
          (train_batch_size FLAGS) (gradient_accumulation_steps FLAGS)
          (test_mode FLAGS) m (main_output_dir env FLAGS t) (main_model_dir env FLAGS t)
          (loop_predict FLAGS) latest_checkpoints
          (logged w (verbosity_events FLAGS ++ device_report env
                     ++ [EvPrint "Training or predicting ..."]))
      else (Raise (ValueError ("Not Predictive Mode: " +:+ Mode_str m)),
            logged w (verbosity_events FLAGS
                      ++ if bool_decide (m = CREATE_DATA) then [] else device_report env))
  end.
Proof.
  intros Hargv Hverb Ht Hm. unfold main.
  replace (1 <? py_len argv) with false by (unfold py_len; symmetry; apply Z.ltb_ge; lia).
  unfold mbind at 1. unfold Script_bind at 1. rewrite main_verbosity_step by done.
  unfold mbind at 1. unfold Script_bind at 1. unfold lift at 1. rewrite Ht.
  unfold mbind at 1. unfold Script_bind at 1. unfold lift at 1. rewrite Hm.
  unfold mbind at 1. unfold Script_bind at 1.
  fold (main_output_dir env FLAGS t). rewrite _check_options_run.
  change (files (logged w (verbosity_events FLAGS))) with (files w).
  destruct (check_options_result _ _ _ _ _); [|done].
  destruct (bool_decide (m = CREATE_DATA)) eqn:Hcd.
  - apply bool_decide_eq_true in Hcd as ->. simpl. by rewrite app_nil_r.
  - rewrite logged_logged.
    destruct (_ || _); [|done].
    unfold mbind, Script_bind, emit. fold (main_model_dir env FLAGS t).
    unfold logged. simpl. by rewrite <- !app_assoc.
Qed.

Lemma Mode_getitem_unknown name :
  name ∉ mode_names -> Mode_getitem name = Raise (KeyError name).
Proof.
  unfold mode_names, Mode_getitem. intros H.
  do 5 (apply not_elem_of_cons in H as [?%String.eqb_neq H]).
  by repeat match goal with H : (_ =? _)%string = false |- _ => rewrite H; clear H end.
Qed.

Lemma Task_getitem_unknown env name :
  name ∉ task_names env -> Task_getitem env name = Raise (KeyError name).
Proof.
  unfold task_names, Task_getitem. intros H. simpl in H.
  do 4 (apply not_elem_of_cons in H as [?%String.eqb_neq H]).
  repeat match goal with H : (_ =? _)%string = false |- _ => rewrite H; clear H end.
  by rewrite bool_decide_eq_false_2.
Qed.

(** C6: for every mode but CREATE_DATA, a missing dev TF-examples file makes
    [_check_options] raise a ValueError, and for PREDICT_AND_EVALUATE and
    EVALUATE so does a missing dev interactions file, nothing being printed
    or changed; [main] then stops with that error, having at most set the
    log level: no directory is made and no prediction is started. *)
Theorem C6_check_options_missing_inputs env output_dir t m w :
  (m <> CREATE_DATA ->
   files w !! _get_test_examples_file env t output_dir DEV = None ->
   exists msg, _check_options env output_dir t m w = (Raise (ValueError msg), w)) /\
  (m = PREDICT_AND_EVALUATE \/ m = EVALUATE ->
   files w !! _get_test_interactions_file env t output_dir DEV = None ->
   _check_options env output_dir t m w =
     (Raise (ValueError ("No interactions found: "
                         +:+ _get_test_interactions_file env t output_dir DEV)), w)) /\
  (forall FLAGS argv latest_checkpoints,
     (length argv <= 1)%nat ->
     verbosity_ok FLAGS ->
     Task_getitem env (task FLAGS) = Ok t ->
     Mode_getitem (py_upper env (mode FLAGS)) = Ok m ->
     output_dir = main_output_dir env FLAGS t ->
     forall e, _check_options env output_dir t m w = (Raise e, w) ->
     main env FLAGS argv latest_checkpoints w =
       (Raise e, logged w (verbosity_events FLAGS))).
Proof.
  rewrite _check_options_run. unfold check_options_result.
  split; [|split].
  - intros Hm Hnone. rewrite bool_decide_eq_false_2 by done.
    rewrite Hnone. rewrite (bool_decide_eq_false_2 (is_Some None)) by (by intros [? ?]).
    destruct (_ && _); simpl; eauto.
  - intros Hm Hnone.
    rewrite bool_decide_eq_false_2 by (destruct Hm; subst; done).
    rewrite Hnone. rewrite (bool_decide_eq_false_2 (is_Some None)) by (by intros [? ?]).
    replace (bool_decide (m = PREDICT_AND_EVALUATE) || bool_decide (m = EVALUATE))
      with true; [done|].
    destruct Hm; subst; done.
  - intros FLAGS argv cks Hargv Hverb Ht Hmode -> e He.
    rewrite (main_run _ _ _ _ _ _ _ Hargv Hverb Ht Hmode).
    fold (check_options_result env (main_output_dir env FLAGS t) t m (files w)) in He.
    destruct (check_options_result _ _ _ _ _); [discriminate|].
    by injection He as ->.
Qed.

Lemma C6_check_options_missing_inputs_witness :
  (exists msg, _check_options demo_env "out/sqa" SQA PREDICT {| files := ∅; log := [] |}
               = (Raise (ValueError msg), {| files := ∅; log := [] |})) /\
  _check_options demo_env "out/sqa" SQA PREDICT_AND_EVALUATE {| files := ∅; log := [] |}
    = (Raise (ValueError "No interactions found: out/sqa/interactions/dev.tfrecord"),
       {| files := ∅; log := [] |}) /\
  main demo_env (set_mode demo_flags "predict_and_evaluate") [] []
       {| files := ∅; log := [] |}
    = (Raise (ValueError "No interactions found: out/sqa/interactions/dev.tfrecord"),
       {| files := ∅; log := [] |}).
Proof.
  split; [|split].
  - apply (proj1 (C6_check_options_missing_inputs demo_env "out/sqa" SQA PREDICT
                    {| files := ∅; log := [] |})); [discriminate|reflexivity].
  - apply (proj1 (proj2 (C6_check_options_missing_inputs demo_env "out/sqa" SQA
                           PREDICT_AND_EVALUATE {| files := ∅; log := [] |})));
      [by left|reflexivity].
  - apply (proj2 (proj2 (C6_check_options_missing_inputs demo_env "out/sqa" SQA
                           PREDICT_AND_EVALUATE {| files := ∅; log := [] |}))
             (set_mode demo_flags "predict_and_evaluate") [] []);
      [simpl; lia|discriminate|reflexivity..].
Defined.

(** C7 as stated fails: with every input in place, mode train is rejected
    once the option checks have printed their three lines. *)
Lemma C7_train_mode_rejected :
  main demo_env (set_mode demo_flags "train") []
       [Some "out/sqa/model/model.ckpt-2000"] demo_world
  = (Raise (ValueError "Not Predictive Mode: Mode.TRAIN"),
     logged demo_world
       [EvPrint "is_built_with_cuda: False"; EvPrint "is_gpu_available: False";
        EvPrint "GPUs: []"]).
Proof. vm_compute. reflexivity. Qed.

Lemma main_not_predictive env FLAGS argv latest_checkpoints w m :
  Mode_getitem (py_upper env (mode FLAGS)) = Ok m ->
  m = CREATE_DATA \/ m = TRAIN \/ m = EVALUATE ->
  exists e evs,
    main env FLAGS argv latest_checkpoints w = (Raise e, logged w evs) /\
    evs `prefix_of` verbosity_events FLAGS ++ device_report env /\
    forall t, (length argv <= 1)%nat -> verbosity_ok FLAGS ->
      Task_getitem env (task FLAGS) = Ok t ->
      fst (_check_options env (main_output_dir env FLAGS t) t m w) = Ok tt ->
      e = ValueError ("Not Predictive Mode: " +:+ Mode_str m) /\
      evs = verbosity_events FLAGS
            ++ if bool_decide (m = CREATE_DATA) then [] else device_report env.
Proof.
  intros Hm Hcase.
  destruct (decide (length argv <= 1)%nat) as [Hargv|Hargv].
  - destruct (py_truthy_str (tapas_verbosity FLAGS)) eqn:Hset.
    + destruct (decide (default "" (tapas_verbosity FLAGS) ∈ logging_levels))
        as [Hin|Hout].
      * assert (verbosity_ok FLAGS) as Hverb by (by intros _).
        destruct (Task_getitem env (task FLAGS)) as [t|e] eqn:Ht.
        -- rewrite (main_run _ _ _ _ _ _ _ Hargv Hverb Ht Hm).
           destruct (check_options_result _ _ _ _ _) as [[]|e] eqn:Hc.
           ++ replace (bool_decide (m = PREDICT_AND_EVALUATE) || bool_decide (m = PREDICT))
                with false by (by destruct Hcase as [->|[->| ->]]).
              eexists _, _. split; [done|]. split.
              ** destruct (bool_decide (m = CREATE_DATA)).
                 --- rewrite app_nil_r. by apply prefix_app_r.
                 --- done.
              ** intros t' _ _ [= <-] _. done.
           ++ exists e, (verbosity_events FLAGS). split; [done|].
              split; [by apply prefix_app_r|]. intros t' _ _ [= <-] Hk.
              rewrite _check_options_run, Hc in Hk. discriminate.
        -- exists e, (verbosity_events FLAGS). unfold main.
           replace (1 <? py_len argv) with false
             by (unfold py_len; symmetry; apply Z.ltb_ge; lia).
           unfold mbind at 1. unfold Script_bind at 1.
           rewrite main_verbosity_step by done.
           unfold mbind, Script_bind, lift. rewrite Ht.
           split; [done|]. split; [by apply prefix_app_r|]. intros; congruence.
      * exists (ValueError ("Unknown level: "
                            +:+ py_repr env (default "" (tapas_verbosity FLAGS)))), [].
        rewrite logged_nil. split; [by apply main_verbosity_unknown|].
        split; [apply prefix_nil|]. intros t _ Hverb. by specialize (Hverb Hset).
    + assert (verbosity_ok FLAGS) as Hverb by (intros ?; congruence).
      destruct (Task_getitem env (task FLAGS)) as [t|e] eqn:Ht.
      * rewrite (main_run _ _ _ _ _ _ _ Hargv Hverb Ht Hm).
        destruct (check_options_result _ _ _ _ _) as [[]|e] eqn:Hc.
        -- replace (bool_decide (m = PREDICT_AND_EVALUATE) || bool_decide (m = PREDICT))
             with false by (by destruct Hcase as [->|[->| ->]]).
           eexists _, _. split; [done|]. split.
           ++ destruct (bool_decide (m = CREATE_DATA)).
              ** rewrite app_nil_r. by apply prefix_app_r.
              ** done.
           ++ intros t' _ _ [= <-] _. done.
        -- exists e, (verbosity_events FLAGS). split; [done|].
           split; [by apply prefix_app_r|]. intros t' _ _ [= <-] Hk.
              rewrite _check_options_run, Hc in Hk. discriminate.
      * exists e, (verbosity_events FLAGS). unfold main.
        replace (1 <? py_len argv) with false
          by (unfold py_len; symmetry; apply Z.ltb_ge; lia).
        unfold mbind at 1. unfold Script_bind at 1.
        rewrite main_verbosity_step by done.
        unfold mbind, Script_bind, lift. rewrite Ht.
        split; [done|]. split; [by apply prefix_app_r|]. intros; congruence.
  - exists (UsageError "Too many command-line arguments."), []. unfold main.
    replace (1 <? py_len argv) with true
      by (unfold py_len; symmetry; apply Z.ltb_lt; lia).
    rewrite logged_nil. split; [done|]. split; [apply prefix_nil|]. intros; lia.
Qed.

(** C7 (amended): each of the five mode strings names a member of Mode, but
    [main] runs only predict and predict_and_evaluate, which it hands to
    [_train_and_predict] once the log level is set and the option checks
    have passed and printed their three lines; create_data, train and
    evaluate always end in an error, no file changed and nothing done
    beyond setting the log level and printing those lines: the ValueError
    "Not Predictive Mode" when the arguments, the log level, the task and
    the option checks are in order. *)
Theorem C7_mode_dispatch env FLAGS argv latest_checkpoints w :
  (Mode_getitem (py_upper env "create_data") = Ok CREATE_DATA /\
   Mode_getitem (py_upper env "train") = Ok TRAIN /\
   Mode_getitem (py_upper env "predict") = Ok PREDICT /\
   Mode_getitem (py_upper env "evaluate") = Ok EVALUATE /\
   Mode_getitem (py_upper env "predict_and_evaluate") = Ok PREDICT_AND_EVALUATE) /\
  (forall m, Mode_getitem (py_upper env (mode FLAGS)) = Ok m ->
     m = CREATE_DATA \/ m = TRAIN \/ m = EVALUATE ->
     exists e evs,
       main env FLAGS argv latest_checkpoints w = (Raise e, logged w evs) /\
       evs `prefix_of` verbosity_events FLAGS ++ device_report env /\
       forall t, (length argv <= 1)%nat -> verbosity_ok FLAGS ->
         Task_getitem env (task FLAGS) = Ok t ->
         fst (_check_options env (main_output_dir env FLAGS t) t m w) = Ok tt ->
         e = ValueError ("Not Predictive Mode: " +:+ Mode_str m) /\
         evs = verbosity_events FLAGS
               ++ if bool_decide (m = CREATE_DATA) then [] else device_report env) /\
  (forall m t, Mode_getitem (py_upper env (mode FLAGS)) = Ok m ->
     m = PREDICT \/ m = PREDICT_AND_EVALUATE ->
     (length argv <= 1)%nat -> verbosity_ok FLAGS ->
     Task_getitem env (task FLAGS) = Ok t ->
     fst (_check_options env (main_output_dir env FLAGS t) t m w) = Ok tt ->
     main env FLAGS argv latest_checkpoints w =
       _train_and_predict env FLAGS t (use_tpu FLAGS) (test_batch_size FLAGS)
         (train_batch_size FLAGS) (gradient_accumulation_steps FLAGS)
         (test_mode FLAGS) m (main_output_dir env FLAGS t) (main_model_dir env FLAGS t)
         (loop_predict FLAGS) latest_checkpoints
         (logged w (verbosity_events FLAGS ++ device_report env
                    ++ [EvPrint "Training or predicting ..."]))).
Proof.
  split; [repeat split|]. split.
  - intros m Hm Hcase. by apply main_not_predictive.
  - intros m t Hm Hcase Hargv Hverb Ht Hc.
    rewrite (main_run _ _ _ _ _ _ _ Hargv Hverb Ht Hm).
    rewrite _check_options_run in Hc.
    destruct (check_options_result _ _ _ _ _); [|discriminate].
    by destruct Hcase as [-> | ->].
Qed.

Lemma C7_mode_dispatch_witness :
  (exists e evs, main demo_env (set_mode demo_flags "evaluate") [] [] demo_world
             = (Raise e, logged demo_world evs) /\
     e = ValueError ("Not Predictive Mode: " +:+ Mode_str EVALUATE) /\
     evs = device_report demo_env) /\
  main demo_env demo_flags [] [] demo_world =
    _train_and_predict demo_env demo_flags SQA false 32 None 1 false PREDICT
      "out/sqa" "out/sqa/model" true []
      (logged demo_world (device_report demo_env ++ [EvPrint "Training or predicting ..."])).
Proof.
  split.
  - destruct (proj1 (proj2 (C7_mode_dispatch demo_env (set_mode demo_flags "evaluate")
                              [] [] demo_world)) EVALUATE eq_refl)
      as (e & evs & He & _ & Hk); [auto|].
    exists e, evs. split; [exact He|].
    apply (Hk SQA); [simpl; lia|discriminate|reflexivity|reflexivity].
  - apply (proj2 (proj2 (C7_mode_dispatch demo_env demo_flags [] [] demo_world))
             PREDICT SQA);
      [reflexivity|by left|simpl; lia|discriminate|reflexivity|reflexivity].
Defined.

(** ** Invalid configuration values *)

Lemma _train_and_predict_other_task env FLAGS name use_tpu test_batch_size
    train_batch_size gradient_accumulation_steps test_mode m output_dir model_dir
    loop_predict latest_checkpoints w :
  _train_and_predict env FLAGS (OtherTask name) use_tpu test_batch_size
    train_batch_size gradient_accumulation_steps test_mode m output_dir model_dir
    loop_predict latest_checkpoints w =
  (Raise (ValueError ("Unknown task: " +:+ name)),
   {| files := files w; log := log w ++ [EvMakeDirs model_dir] |}).
Proof. reflexivity. Qed.

Lemma bindM_ext {A B} (m : Script A) (f g : A -> Script B) w :
  (forall a w1, f a w1 = g a w1) -> (m ≫= f) w = (m ≫= g) w.
Proof.
  intros H. unfold mbind, Script_bind. destruct (m w) as [[a|e] w1]; [apply H|done].
Qed.

Lemma py_not_str_true checkpoint :
  py_not_str checkpoint = true -> checkpoint = None \/ checkpoint = Some "".
Proof.
  destruct checkpoint as [s|]; [|by left]. simpl.
  intros H%String.eqb_eq. right. by subst.
Qed.

(** As long as there is no checkpoint to predict, the loop does not look at
    the flags. *)
Lemma predict_loop_no_checkpoint env FLAGS FLAGS' t m output_dir model_dir
    loop_predict use_tpu N prev latest_checkpoints w :
  Forall (fun checkpoint => py_not_str checkpoint = true) latest_checkpoints ->
  predict_loop env FLAGS t m output_dir model_dir loop_predict use_tpu N prev
               latest_checkpoints w =
  predict_loop env FLAGS' t m output_dir model_dir loop_predict use_tpu N prev
               latest_checkpoints w.
Proof.
  intros Hall. revert w. induction Hall as [|checkpoint later Hc Hall IH]; intros w.
  - done.
  - cbn [predict_loop]. rewrite Hc.
    destruct loop_predict; cbn [negb andb]; [|done].
    destruct (bool_decide (checkpoint = prev)).
    + apply bindM_ext. intros _ w1. apply bindM_ext. intros _ w2. apply IH.
    + apply py_not_str_true in Hc as [-> | ->]; reflexivity.
Qed.

Lemma _train_and_predict_no_checkpoint env FLAGS FLAGS' t use_tpu test_batch_size
    train_batch_size gradient_accumulation_steps test_mode m output_dir model_dir
    loop_predict latest_checkpoints w :
  Forall (fun checkpoint => py_not_str checkpoint = true) latest_checkpoints ->
  _train_and_predict env FLAGS t use_tpu test_batch_size train_batch_size
    gradient_accumulation_steps test_mode m output_dir model_dir loop_predict
    latest_checkpoints w =
  _train_and_predict env FLAGS' t use_tpu test_batch_size train_batch_size
    gradient_accumulation_steps test_mode m output_dir model_dir loop_predict
    latest_checkpoints w.
Proof.
  intros Hall. unfold _train_and_predict.
  apply bindM_ext. intros _ w1. apply bindM_ext. intros _ w2.
  apply bindM_ext. intros steps w3. apply bindM_ext. intros _ w4.
  apply bindM_ext. intros _ w5. apply bindM_ext. intros _ w6.
  destruct (_ || _); [|done]. by apply predict_loop_no_checkpoint.
Qed.

Lemma main_compression_ignored env FLAGS c argv latest_checkpoints w :
  Forall (fun checkpoint => py_not_str checkpoint = true) latest_checkpoints ->
  main env (set_compression_type FLAGS c) argv latest_checkpoints w =
  main env FLAGS argv latest_checkpoints w.
Proof.
  intros Hall. unfold main.
  change (tapas_verbosity (set_compression_type FLAGS c)) with (tapas_verbosity FLAGS).
  change (task (set_compression_type FLAGS c)) with (task FLAGS).
  change (output_dir (set_compression_type FLAGS c)) with (output_dir FLAGS).
  change (model_dir (set_compression_type FLAGS c)) with (model_dir FLAGS).
  change (mode (set_compression_type FLAGS c)) with (mode FLAGS).
  change (use_tpu (set_compression_type FLAGS c)) with (use_tpu FLAGS).
  change (test_batch_size (set_compression_type FLAGS c)) with (test_batch_size FLAGS).
  change (train_batch_size (set_compression_type FLAGS c)) with (train_batch_size FLAGS).
  change (gradient_accumulation_steps (set_compression_type FLAGS c))
    with (gradient_accumulation_steps FLAGS).
  change (test_mode (set_compression_type FLAGS c)) with (test_mode FLAGS).
  change (loop_predict (set_compression_type FLAGS c)) with (loop_predict FLAGS).
  destruct (1 <? py_len argv); [done|].
  apply bindM_ext. intros _ w1. apply bindM_ext. intros t w2.
  apply bindM_ext. intros m w3. apply bindM_ext. intros _ w4.
  destruct (_ || _); [|done].
  apply bindM_ext. intros _ w5. by apply _train_and_predict_no_checkpoint.
Qed.

Lemma bindM_ext2 {A B} (m1 m2 : Script A) (f g : A -> Script B) w :
  (forall w0, m1 w0 = m2 w0) -> (forall a w1, f a w1 = g a w1) ->
  (m1 ≫= f) w = (m2 ≫= g) w.
Proof.
  intros Hm H. unfold mbind, Script_bind. rewrite Hm.
  destruct (m2 w) as [[a|e] w1]; [apply H|done].
Qed.

Lemma for_eachM_ext {I} (body1 body2 : I -> Script unit) l w :
  (forall i w0, body1 i w0 = body2 i w0) ->
  for_eachM body1 l w = for_eachM body2 l w.
Proof.
  intros H. revert w. induction l as [|i l IH]; intros w; [done|].
  cbn [for_eachM]. apply bindM_ext2; [apply H|]. intros _ w1. apply IH.
Qed.

Lemma write_prob_table_query_compression FLAGS c query :
  write_prob_table_query (set_compression_type FLAGS c) query =
  write_prob_table_query FLAGS query.
Proof. reflexivity. Qed.

Lemma write_embed_table_query_compression FLAGS c query :
  write_embed_table_query (set_compression_type FLAGS c) query =
  write_embed_table_query FLAGS query.
Proof. reflexivity. Qed.

Lemma _predict_for_set_compression env FLAGS c example_file p o w :
  read_error env c example_file = read_error env (compression_type FLAGS) example_file ->
  _predict_for_set env (set_compression_type FLAGS c) example_file p o w =
  _predict_for_set env FLAGS example_file p o w.
Proof.
  intros Hread. unfold _predict_for_set.
  change (compression_type (set_compression_type FLAGS c)) with c.
  unfold mbind, Script_bind, write_predictions, source_error. by rewrite Hread.
Qed.

Lemma _predict_sequence_for_set_compression env FLAGS c example_file p o w :
  read_error env c example_file = read_error env (compression_type FLAGS) example_file ->
  _predict_sequence_for_set env (set_compression_type FLAGS c) example_file p o w =
  _predict_sequence_for_set env FLAGS example_file p o w.
Proof.
  intros Hread. unfold _predict_sequence_for_set.
  change (compression_type (set_compression_type FLAGS c)) with c.
  apply bindM_ext2.
  - intros w0. unfold read_classifier_dataset, source_error. by rewrite Hread.
  - intros _ w1. reflexivity.
Qed.

Lemma _predict_compression env FLAGS c t output_dir model_dir use_tpu global_step w :
  (forall f, read_error env c f = read_error env (compression_type FLAGS) f) ->
  _predict env (set_compression_type FLAGS c) t output_dir model_dir use_tpu global_step w =
  _predict env FLAGS t output_dir model_dir use_tpu global_step w.
Proof.
  intros Hread. unfold _predict. apply bindM_ext2.
  - intros w0. apply for_eachM_ext. intros ts w1. by apply _predict_for_set_compression.
  - intros _ w1. destruct (bool_decide (t = SQA)); [|done].
    destruct use_tpu; [done|].
    apply for_eachM_ext. intros ts w2. by apply _predict_sequence_for_set_compression.
Qed.

Lemma predict_loop_compression env FLAGS c t m output_dir model_dir loop_predict
    use_tpu N prev latest_checkpoints w :
  (forall f, read_error env c f = read_error env (compression_type FLAGS) f) ->
  predict_loop env (set_compression_type FLAGS c) t m output_dir model_dir
               loop_predict use_tpu N prev latest_checkpoints w =
  predict_loop env FLAGS t m output_dir model_dir loop_predict use_tpu N prev
               latest_checkpoints w.
Proof.
  intros Hread. revert w.
  induction latest_checkpoints as [|checkpoint later IH]; intros w; [done|].
  cbn [predict_loop].
  destruct (negb loop_predict && py_not_str checkpoint); [done|].
  destruct (loop_predict && bool_decide (checkpoint = prev)).
  - apply bindM_ext. intros _ w1. apply bindM_ext. intros _ w2. apply IH.
  - apply bindM_ext. intros s w1. apply bindM_ext2.
    + intros w0. by apply _predict_compression.
    + intros _ w2. apply bindM_ext. intros _ w3.
      destruct (negb loop_predict || (s >=? N)); [done|]. apply IH.
Qed.

Lemma _train_and_predict_compression env FLAGS c t use_tpu test_batch_size
    train_batch_size gradient_accumulation_steps test_mode m output_dir model_dir
    loop_predict latest_checkpoints w :
  (forall f, read_error env c f = read_error env (compression_type FLAGS) f) ->
  _train_and_predict env (set_compression_type FLAGS c) t use_tpu test_batch_size
    train_batch_size gradient_accumulation_steps test_mode m output_dir model_dir
    loop_predict latest_checkpoints w =
  _train_and_predict env FLAGS t use_tpu test_batch_size train_batch_size
    gradient_accumulation_steps test_mode m output_dir model_dir loop_predict
    latest_checkpoints w.
Proof.
  intros Hread. unfold _train_and_predict.
  apply bindM_ext. intros _ w1. apply bindM_ext. intros _ w2.
  apply bindM_ext. intros steps w3. apply bindM_ext. intros _ w4.
  apply bindM_ext. intros _ w5. apply bindM_ext. intros _ w6.
  destruct (_ || _); [|done]. by apply predict_loop_compression.
Qed.

Lemma main_compression_framework env FLAGS c argv latest_checkpoints w :
  (forall f, read_error env c f = read_error env (compression_type FLAGS) f) ->
  main env (set_compression_type FLAGS c) argv latest_checkpoints w =
  main env FLAGS argv latest_checkpoints w.
Proof.
  intros Hread. unfold main.
  change (tapas_verbosity (set_compression_type FLAGS c)) with (tapas_verbosity FLAGS).
  change (task (set_compression_type FLAGS c)) with (task FLAGS).
  change (output_dir (set_compression_type FLAGS c)) with (output_dir FLAGS).
  change (model_dir (set_compression_type FLAGS c)) with (model_dir FLAGS).
  change (mode (set_compression_type FLAGS c)) with (mode FLAGS).
  change (use_tpu (set_compression_type FLAGS c)) with (use_tpu FLAGS).
  change (test_batch_size (set_compression_type FLAGS c)) with (test_batch_size FLAGS).
  change (train_batch_size (set_compression_type FLAGS c)) with (train_batch_size FLAGS).
  change (gradient_accumulation_steps (set_compression_type FLAGS c))
    with (gradient_accumulation_steps FLAGS).
  change (test_mode (set_compression_type FLAGS c)) with (test_mode FLAGS).
  change (loop_predict (set_compression_type FLAGS c)) with (loop_predict FLAGS).
  destruct (1 <? py_len argv); [done|].
  apply bindM_ext. intros _ w1. apply bindM_ext. intros t w2.
  apply bindM_ext. intros m w3. apply bindM_ext. intros _ w4.
  destruct (_ || _); [|done].
  apply bindM_ext. intros _ w5. by apply _train_and_predict_compression.
Qed.

(** C5 as stated fails for the compression type: [main] never validates it.
    With compression_type BOGUS the script raises nothing: it passes the
    option checks, makes the model directory and goes to sleep waiting for
    a checkpoint. *)
Lemma C5_invalid_compression_not_rejected :
  _to_tf_compression_type "BOGUS" = Raise (ValueError "Unknown compression type: BOGUS") /\
  main demo_env (set_compression_type demo_flags "BOGUS") [] [None] demo_world
    = (Ok Polling,
       logged demo_world
         [EvPrint "is_built_with_cuda: False"; EvPrint "is_gpu_available: False";
          EvPrint "GPUs: []"; EvPrint "Training or predicting ...";
          EvMakeDirs "out/sqa/model";
          EvPrint "Sleeping 5 mins before predicting"; EvSleep 300]).
Proof. split; vm_compute; reflexivity. Qed.

(** C5 (amended): [_to_tf_compression_type] maps the empty string, GZIP and ZLIB to NONE,
    GZIP and ZLIB and raises ValueError on any other string, but nothing in
    [main] calls it: the flag is only handed to the framework when the
    examples are read, so [main] does the same under two compression types
    as long as no checkpoint is there to predict, and also whenever the
    framework reads the example files alike under both.  A task string that names
    no member of Task and a mode string that names no member of Mode raise
    KeyError in [main] once the log level is set and before anything else
    is done; a member of Task other than the four raises ValueError
    "Unknown task" in [_train_and_predict] after the model directory is
    made, and [main] on such a task always ends in an error with no file
    written. *)
Theorem C5_invalid_configuration env FLAGS argv latest_checkpoints w :
  (_to_tf_compression_type "" = Ok NONE /\
   _to_tf_compression_type "GZIP" = Ok GZIP /\
   _to_tf_compression_type "ZLIB" = Ok ZLIB /\
   forall c, c ∉ [""; "GZIP"; "ZLIB"] ->
     _to_tf_compression_type c = Raise (ValueError ("Unknown compression type: " +:+ c))) /\
  (forall c,
     Forall (fun checkpoint => py_not_str checkpoint = true) latest_checkpoints \/
     (forall f, read_error env c f = read_error env (compression_type FLAGS) f) ->
     main env (set_compression_type FLAGS c) argv latest_checkpoints w =
     main env FLAGS argv latest_checkpoints w) /\
  ((length argv <= 1)%nat -> verbosity_ok FLAGS -> task FLAGS ∉ task_names env ->
   main env FLAGS argv latest_checkpoints w =
     (Raise (KeyError (task FLAGS)), logged w (verbosity_events FLAGS))) /\
  (forall t, (length argv <= 1)%nat -> verbosity_ok FLAGS ->
   Task_getitem env (task FLAGS) = Ok t ->
   py_upper env (mode FLAGS) ∉ mode_names ->
   main env FLAGS argv latest_checkpoints w =
     (Raise (KeyError (py_upper env (mode FLAGS))), logged w (verbosity_events FLAGS))) /\
  (forall name use_tpu test_batch_size train_batch_size gradient_accumulation_steps
          test_mode m output_dir model_dir loop_predict,
   _train_and_predict env FLAGS (OtherTask name) use_tpu test_batch_size
     train_batch_size gradient_accumulation_steps test_mode m output_dir model_dir
     loop_predict latest_checkpoints w =
   (Raise (ValueError ("Unknown task: " +:+ name)),
    {| files := files w; log := log w ++ [EvMakeDirs model_dir] |})) /\
  (forall name, Task_getitem env (task FLAGS) = Ok (OtherTask name) ->
   exists e w', main env FLAGS argv latest_checkpoints w = (Raise e, w') /\
                files w' = files w).
Proof.
  split; [|split; [|split; [|split; [|split]]]].
  - repeat split. intros c H. unfold _to_tf_compression_type.
    do 3 (apply not_elem_of_cons in H as [?%String.eqb_neq H]).
    by repeat match goal with H : (_ =? _)%string = false |- _ => rewrite H; clear H end.
  - intros c [Hall|Hread];
      [by apply main_compression_ignored|by apply main_compression_framework].
  - intros Hargv Hverb Ht. unfold main.
    replace (1 <? py_len argv) with false
      by (unfold py_len; symmetry; apply Z.ltb_ge; lia).
    unfold mbind at 1. unfold Script_bind at 1. rewrite main_verbosity_step by done.
    unfold mbind, Script_bind, lift. by rewrite Task_getitem_unknown.
  - intros t Hargv Hverb Ht Hm. unfold main.
    replace (1 <? py_len argv) with false
      by (unfold py_len; symmetry; apply Z.ltb_ge; lia).
    unfold mbind at 1. unfold Script_bind at 1. rewrite main_verbosity_step by done.
    unfold mbind, Script_bind, lift. rewrite Ht. by rewrite Mode_getitem_unknown.
  - intros. apply _train_and_predict_other_task.
  - intros name Ht.
    destruct (decide (length argv <= 1)%nat) as [Hargv|Hargv].
    + destruct (decide (verbosity_ok FLAGS)) as [Hverb|Hverb].
      * destruct (Mode_getitem (py_upper env (mode FLAGS))) as [m|e] eqn:Hm.
        -- rewrite (main_run _ _ _ _ _ _ _ Hargv Hverb Ht Hm).
           destruct (check_options_result _ _ _ _ _); [|eauto].
           destruct (_ || _); [|eauto].
           rewrite _train_and_predict_other_task. eauto.
        -- exists e, (logged w (verbosity_events FLAGS)). unfold main.
           replace (1 <? py_len argv) with false
             by (unfold py_len; symmetry; apply Z.ltb_ge; lia).
           unfold mbind at 1. unfold Script_bind at 1.
           rewrite main_verbosity_step by done.
           unfold mbind, Script_bind, lift. rewrite Ht, Hm. done.
      * eexists _, w. split; [|done]. apply main_verbosity_unknown; [done|..].
        -- destruct (py_truthy_str (tapas_verbosity FLAGS)) eqn:Hset; [done|].
           exfalso. apply Hverb. intros ?; congruence.
        -- intros Hin. apply Hverb. by intros _.
    + eexists _, w. unfold main.
      replace (1 <? py_len argv) with true
        by (unfold py_len; symmetry; apply Z.ltb_lt; lia).
      done.
Qed.

Lemma C5_invalid_configuration_witness :
  _to_tf_compression_type "LZ4" = Raise (ValueError ("Unknown compression type: " +:+ "LZ4")) /\
  main demo_env (set_compression_type demo_flags "LZ4") [] [None; Some ""] demo_world
    = main demo_env demo_flags [] [None; Some ""] demo_world /\
  main demo_env (set_compression_type demo_flags "ZLIB") []
       [Some "out/sqa/model/model.ckpt-2000"] demo_world
    = main demo_env demo_flags [] [Some "out/sqa/model/model.ckpt-2000"] demo_world /\
  main demo_env (demo_flags_task "NOPE") [] [] demo_world
    = (Raise (KeyError "NOPE"), demo_world) /\
  main demo_env (set_mode demo_flags "resume") [] [] demo_world
    = (Raise (KeyError "RESUME"), demo_world) /\
  exists e w', main demo_env (demo_flags_task "TABFACT") [] [] demo_world = (Raise e, w') /\
               files w' = files demo_world.
Proof.
  split; [|split; [|split; [|split; [|split]]]].
  - apply (proj1 (C5_invalid_configuration demo_env demo_flags [] [] demo_world)).
    apply (bool_decide_unpack _). vm_compute. exact I.
  - apply (proj1 (proj2 (C5_invalid_configuration demo_env demo_flags []
                           [None; Some ""] demo_world))).
    left. repeat constructor.
  - apply (proj1 (proj2 (C5_invalid_configuration demo_env demo_flags []
                           [Some "out/sqa/model/model.ckpt-2000"] demo_world))).
    right. intros f. reflexivity.
  - apply (proj1 (proj2 (proj2 (C5_invalid_configuration demo_env (demo_flags_task "NOPE")
                           [] [] demo_world)))); [simpl; lia|discriminate|].
    apply (bool_decide_unpack _). vm_compute. exact I.
  - apply (proj1 (proj2 (proj2 (proj2 (C5_invalid_configuration demo_env
                                  (set_mode demo_flags "resume") [] [] demo_world)))) SQA);
      [simpl; lia|discriminate|reflexivity|].
    apply (bool_decide_unpack _). vm_compute. exact I.
  - apply (proj2 (proj2 (proj2 (proj2 (proj2 (C5_invalid_configuration demo_env
                                         (demo_flags_task "TABFACT") [] [] demo_world)))))
             "TABFACT").
    reflexivity.
Defined.

(** ** The checkpoint loop *)

(** C3 (the script departs from the claim): [prev_checkpoint] is never
    assigned, so a latest checkpoint that was already processed is predicted
    again at once, without any sleep: here checkpoint 1000 is predicted
    twice before checkpoint 2000 ends the loop.  In PREDICT_AND_EVALUATE the
    pass ends in NameError, [_eval] being undefined. *)
Theorem C3_checkpoint_predicted_again :
  let run :=
    _train_and_predict demo_env demo_flags WTQ false 32 None 1 false PREDICT
      "out/wtq" "out/wtq/model" true
      [Some "out/wtq/model/model.ckpt-1000"; Some "out/wtq/model/model.ckpt-1000";
       Some "out/wtq/model/model.ckpt-2000"]
      wtq_world in
  fst run = Ok Returned /\
  log (snd run) =
    [EvMakeDirs "out/wtq/model";
     EvWritePredictions "out/wtq/model/dev_1000.tsv";
     EvCopy "out/wtq/model/dev_1000.tsv" "out/wtq/model/dev.tsv";
     EvWritePredictions "out/wtq/model/test_1000.tsv";
     EvCopy "out/wtq/model/test_1000.tsv" "out/wtq/model/test.tsv";
     EvWritePredictions "out/wtq/model/dev_1000.tsv";
     EvCopy "out/wtq/model/dev_1000.tsv" "out/wtq/model/dev.tsv";
     EvWritePredictions "out/wtq/model/test_1000.tsv";
     EvCopy "out/wtq/model/test_1000.tsv" "out/wtq/model/test.tsv";
     EvWritePredictions "out/wtq/model/dev_2000.tsv";
     EvCopy "out/wtq/model/dev_2000.tsv" "out/wtq/model/dev.tsv";
     EvWritePredictions "out/wtq/model/test_2000.tsv";
     EvCopy "out/wtq/model/test_2000.tsv" "out/wtq/model/test.tsv";
     EvPrint "Evaluation finished after training step 2000."] /\
  fst (_train_and_predict demo_env demo_flags WTQ false 32 None 1 false
         PREDICT_AND_EVALUATE "out/wtq" "out/wtq/model" true
         [Some "out/wtq/model/model.ckpt-1000"] wtq_world)
  = Raise (NameError "_eval").
Proof. repeat split; vm_compute; reflexivity. Qed.

(** ** The embedding loop runs through on well-formed results *)

Lemma np_update2_total {A} (arr : list (list A)) r c f r' c' rw old new :
  py_norm (length arr) r = Some r' -> arr !! r' = Some rw ->
  py_norm (length rw) c = Some c' -> rw !! c' = Some old ->
  f old = Ok new ->
  np_update2 arr r c f = Ok (<[r' := <[c' := new]> rw]> arr).
Proof.
  intros Hr Hrw Hc Hold Hf. unfold np_update2, py_getitem, py_setitem.
  rewrite Hr, Hrw. simpl. rewrite Hc, Hold. simpl. rewrite Hf. done.
Qed.

Lemma embed_query_part_total query st i s :
  i <> 0 ->
  py_getitem (segment_ids query) i = Ok s ->
  ((s =? 0) && at_beginning st = true ->
   is_Ok (py_getitem (segment_ids query) (i + 1))) ->
  is_Ok (py_getitem (embeddings query) i) ->
  length (query_array st) = length (emb_at query i) ->
  is_Ok (embed_query_part query st i).
Proof.
  intros Hi Hs Hnext [e He] Hlen. unfold embed_query_part. rewrite Hs. simpl.
  destruct ((s =? 0) && at_beginning st); [|by eexists].
  destruct (Hnext eq_refl) as [nxt Hnxt].
  apply Z.eqb_neq in Hi. rewrite Hi. simpl. rewrite Hnxt. simpl.
  destruct (negb (nxt =? 1)); [|by eexists].
  rewrite He. simpl. unfold np_iadd.
  rewrite (emb_at_Ok _ _ _ He) in Hlen. rewrite decide_True by done.
  by eexists.
Qed.

Lemma embed_cell_part_total FLAGS query nrows ncols st1 i :
  grid_shape nrows ncols (embed_array st1) ->
  grid_shape nrows ncols (num_array st1) ->
  is_Ok (py_getitem (segment_ids query) i) ->
  is_Ok (py_getitem (embeddings query) i) ->
  (seg_at query i = 1 -> is_Some (token_cell FLAGS query nrows ncols i)) ->
  (forall r c old, grid_get (embed_array st1) r c = Some old ->
                   length old = length (emb_at query i)) ->
  is_Ok (embed_cell_part FLAGS query st1 i).
Proof.
  intros Hse Hsn [s Hs] [e He] Hcell Hlen.
  unfold embed_cell_part. rewrite Hs, He. simpl.
  rewrite (seg_at_Ok _ _ _ Hs) in Hcell.
  destruct (s =? 1) eqn:Hs1; [|simpl; by eexists].
  apply Z.eqb_eq in Hs1. destruct (Hcell Hs1) as [[r' c'] Htc].
  unfold token_cell in Htc. rewrite Hs in Htc. subst s. simpl in Htc.
  destruct (py_getitem (row_ids query) i) as [r|] eqn:Hr; [|done].
  destruct (py_getitem (column_ids query) i) as [cid|] eqn:Hcid; [|done].
  destruct (py_getitem (column_order FLAGS) (cid - 1)) as [co|] eqn:Hco; [|done].
  destruct (py_norm nrows (r - 1)) as [r2|] eqn:Hr2; [|done].
  destruct (py_norm ncols (co - 1)) as [c2|] eqn:Hc2; [|done].
  injection Htc as -> ->.
  destruct Hse as [Hle Hfe]. destruct Hsn as [Hln Hfn].
  pose proof (py_norm_lt _ _ _ Hr2) as Hr'lt.
  pose proof (py_norm_lt _ _ _ Hc2) as Hc'lt.
  destruct (lookup_lt_is_Some_2 (embed_array st1) r' ltac:(lia)) as [rw Hrw].
  destruct (lookup_lt_is_Some_2 (num_array st1) r' ltac:(lia)) as [nrw Hnrw].
  pose proof (Forall_lookup_1 _ _ _ _ Hfe Hrw) as Hrwl.
  pose proof (Forall_lookup_1 _ _ _ _ Hfn Hnrw) as Hnrwl.
  simpl in Hrwl, Hnrwl.
  destruct (lookup_lt_is_Some_2 rw c' ltac:(lia)) as [old Hold].
  destruct (lookup_lt_is_Some_2 nrw c' ltac:(lia)) as [n Hn].
  assert (Hadd : np_iadd old e = Ok (zip_with Qplus old e)).
  { unfold np_iadd. rewrite decide_True; [done|].
    rewrite <- (emb_at_Ok _ _ _ He). apply (Hlen r' c').
    unfold grid_get. rewrite Hrw. simpl. done. }
  assert (Hupd : forall x y, x = r - 1 -> y = co - 1 ->
    np_update2 (embed_array st1) x y (fun old => np_iadd old e) =
      Ok (<[r' := <[c' := zip_with Qplus old e]> rw]> (embed_array st1)) /\
    np_update2 (num_array st1) x y (fun n => Ok (n + 1)) =
      Ok (<[r' := <[c' := n + 1]> nrw]> (num_array st1))).
  { intros x y -> ->. split.
    - eapply np_update2_total; eauto; congruence.
    - eapply np_update2_total; eauto; congruence. }
  simpl.
  destruct (row st1 =? r - 1) eqn:Hrow; simpl; rewrite ?Hco; simpl.
  - destruct (column st1 =? co - 1) eqn:Hcol; simpl; rewrite ?Hco; simpl.
    + apply Z.eqb_eq in Hrow, Hcol.
      destruct (Hupd _ _ Hrow Hcol) as [-> ->]. simpl. by eexists.
    + destruct (Hupd _ _ eq_refl eq_refl) as [-> ->]. simpl. by eexists.
  - destruct (Hupd _ _ eq_refl eq_refl) as [-> ->]. simpl. by eexists.
Qed.

Lemma elem_of_upto a m i : i ∈ upto a m <-> exists k, (k < m)%nat /\ i = a + Z.of_nat k.
Proof.
  unfold upto. rewrite list_elem_of_fmap. split.
  - intros (k & -> & Hk). apply elem_of_seq in Hk. exists k. split; [lia|done].
  - intros (k & Hk & ->). exists k. split; [done|]. apply elem_of_seq. lia.
Qed.

Lemma upto_prefix_elem a m n i : (m <= n)%nat -> i ∈ upto a m -> i ∈ upto a n.
Proof.
  rewrite !elem_of_upto. intros Hle (k & Hk & ->). exists k. split; [lia|done].
Qed.

Lemma grid_get_Some_lt {A} nrows ncols (arr : list (list A)) r c x :
  grid_shape nrows ncols arr -> grid_get arr r c = Some x ->
  (r < nrows)%nat /\ (c < ncols)%nat.
Proof.
  intros [Hl Hf] H. unfold grid_get in H.
  destruct (arr !! r) as [rw|] eqn:Hrw; [|done]. simpl in H.
  pose proof (lookup_lt_Some _ _ _ Hrw). pose proof (lookup_lt_Some _ _ _ H).
  pose proof (Forall_lookup_1 _ _ _ _ Hf Hrw) as Hrl. simpl in Hrl. lia.
Qed.

Lemma vsum_filter_length d (emb : Z -> list Q) (P : Z -> bool) (l : list Z) :
  (forall j, j ∈ l -> length (emb j) = d) ->
  length (vsum d (emb <$> filter (fun i => P i = true) l)) = d.
Proof.
  intros H. apply vsum_length. apply Forall_fmap, Forall_forall.
  intros j Hj. apply list_elem_of_filter in Hj as [_ Hj]. simpl. auto.
Qed.

Lemma embed_inv_init FLAGS query e0 n :
  py_getitem (embeddings query) 0 = Ok e0 ->
  py_max (row_ids query) = Ok n ->
  embed_inv FLAGS query (grid_rows query) (grid_cols FLAGS) (len_embedding query) []
    {| embed_array := replicate (Z.to_nat n)
                        (replicate (Z.to_nat (num_columns FLAGS))
                           (replicate (Z.to_nat (py_len e0)) 0%Q));
       num_array := replicate (Z.to_nat n) (replicate (Z.to_nat (num_columns FLAGS)) 0);
       row := 0; column := 0;
       query_array := replicate (Z.to_nat (py_len e0)) 0%Q;
       query_array_num := 0; at_beginning := true |}.
Proof.
  intros He0 Hn. unfold grid_rows, grid_cols, len_embedding.
  rewrite Hn, (emb_at_Ok _ _ _ He0). unfold py_len. rewrite Nat2Z.id.
  split; simpl; try done.
  - apply grid_shape_replicate.
  - apply grid_shape_replicate.
  - intros r c Hr Hc. rewrite !grid_get_replicate by done. done.
Qed.

Lemma embed_table_body_total FLAGS query m st :
  embed_wf FLAGS query ->
  (m < Z.to_nat (max_seq_length FLAGS - 1))%nat ->
  embed_inv FLAGS query (grid_rows query) (grid_cols FLAGS) (len_embedding query)
            (upto 1 m) st ->
  is_Ok (embed_table_body FLAGS query st (1 + Z.of_nat m)).
Proof.
  intros Hwf Hm Hinv.
  assert (Hin : 1 + Z.of_nat m ∈ py_range 1 (max_seq_length FLAGS)).
  { rewrite py_range_upto. apply elem_of_upto. eauto. }
  assert (Hlens : forall j, j ∈ upto 1 m -> length (emb_at query j) = len_embedding query).
  { intros j Hj. apply (wf_emb _ _ Hwf). rewrite py_range_upto.
    eapply upto_prefix_elem; [|exact Hj]. lia. }
  destruct (wf_seg _ _ Hwf _ Hin) as [s Hs].
  destruct (wf_emb _ _ Hwf _ Hin) as [Hemb Hlen].
  assert (Hq : is_Ok (embed_query_part query st (1 + Z.of_nat m))).
  { apply (embed_query_part_total _ _ _ s); try done; [lia| |].
    - intros Hc. apply andb_true_iff in Hc as [Hs0 Hab].
      apply (wf_next _ _ Hwf _ Hin).
      + rewrite (seg_at_Ok _ _ _ Hs). by apply Z.eqb_eq.
      + rewrite py_range_1_upto, <- (inv_beginning _ _ _ _ _ _ _ Hinv). done.
    - rewrite (inv_query _ _ _ _ _ _ _ Hinv), Hlen.
      by apply vsum_filter_length. }
  destruct Hq as [st1 Hq]. unfold embed_table_body. rewrite Hq. simpl.
  apply embed_query_part_spec in Hq as (Hea & Hna & _); [|lia].
  apply (embed_cell_part_total _ _ (grid_rows query) (grid_cols FLAGS)).
  - rewrite Hea. apply (inv_shape_e _ _ _ _ _ _ _ Hinv).
  - rewrite Hna. apply (inv_shape_n _ _ _ _ _ _ _ Hinv).
  - by exists s.
  - done.
  - apply (wf_cell _ _ Hwf _ Hin).
  - intros r c old Hold. rewrite Hea in Hold.
    destruct (grid_get_Some_lt _ _ _ _ _ _ (inv_shape_e _ _ _ _ _ _ _ Hinv) Hold)
      as [Hr Hc].
    destruct (inv_cells _ _ _ _ _ _ _ Hinv r c Hr Hc) as [He _].
    rewrite He in Hold. injection Hold as <-. rewrite Hlen.
    by apply vsum_filter_length.
Qed.

Lemma embed_loop_total FLAGS query m st0 :
  embed_wf FLAGS query ->
  (m <= Z.to_nat (max_seq_length FLAGS - 1))%nat ->
  embed_inv FLAGS query (grid_rows query) (grid_cols FLAGS) (len_embedding query) [] st0 ->
  is_Ok (for_each (embed_table_body FLAGS query) st0 (upto 1 m)).
Proof.
  intros Hwf Hm H0. induction m as [|m IH].
  - by eexists.
  - destruct IH as [st Hst]; [lia|].
    rewrite upto_S, for_each_snoc, Hst. simpl.
    apply embed_table_body_total; [done|lia|].
    by eapply embed_inv_loop.
Qed.

(** On a well-formed result the embedding table is built and saved: no
    index falls outside its array and no shapes disagree. *)
Theorem embed_table_total FLAGS query :
  embed_wf FLAGS query -> is_Ok (embed_table FLAGS query).
Proof.
  intros Hwf. destruct (wf_first _ _ Hwf) as [e0 He0].
  destruct (wf_rows _ _ Hwf) as (n & Hn & Hn0).
  pose proof (wf_cols _ _ Hwf) as Hc.
  pose proof (embed_loop_total FLAGS query (Z.to_nat (max_seq_length FLAGS - 1)) _
                Hwf ltac:(lia) (embed_inv_init _ _ _ _ He0 Hn)) as [st Hst].
  unfold embed_table, embed_accumulate. rewrite He0. simpl. rewrite Hn. simpl.
  unfold np_zeros2, np_zeros1.
  replace (n <? 0) with false by (symmetry; apply Z.ltb_ge; lia).
  replace (num_columns FLAGS <? 0) with false by (symmetry; apply Z.ltb_ge; lia).
  replace (py_len e0 <? 0) with false by (unfold py_len; symmetry; apply Z.ltb_ge; lia).
  simpl. rewrite py_range_upto, Hst. simpl. by eexists.
Qed.

Lemma grid_index_inv (nrows ncols k : nat) :
  (k < nrows * ncols)%nat ->
  exists r c, (r < nrows)%nat /\ (c < ncols)%nat /\ k = (r * ncols + c)%nat.
Proof.
  intros Hk. assert (Hnc : (0 < ncols)%nat) by nia.
  exists (k / ncols)%nat, (k mod ncols)%nat.
  pose proof (Nat.div_mod_eq k ncols).
  pose proof (Nat.mod_upper_bound k ncols ltac:(lia)).
  split; [apply Nat.Div0.div_lt_upper_bound; lia|]. split; [done|lia].
Qed.

Lemma np_vdiv_length v n : length (np_vdiv v n) = length v.
Proof. unfold np_vdiv. apply length_fmap. Qed.

(** X1: on a well-formed result (arrays covering the positions, embeddings
    of one length, table-token indices inside the grid, a successor for every
    leading segment-0 position) the embedding path raises nothing: it yields
    a query vector of the embedding length and num_rows * num_columns cell
    vectors, each of the embedding length. *)
Theorem embed_table_well_formed FLAGS query :
  embed_wf FLAGS query ->
  exists qa ra,
    embed_table FLAGS query = Ok (qa, ra) /\
    length qa = len_embedding query /\
    length ra = (grid_rows query * grid_cols FLAGS)%nat /\
    Forall (fun v => length v = len_embedding query) ra.
Proof.
  intros Hwf. destruct (embed_table_total _ _ Hwf) as [[qa ra] Hrun].
  exists qa, ra. split; [done|].
  pose proof (wf_emb _ _ Hwf) as Hemb.
  apply embed_table_entries in Hrun as (Hlen & Hcells & Hq). simpl in *.
  split; [|split; [done|]].
  - rewrite Hq, np_vdiv_length. apply vsum_filter_length.
    intros j Hj. by apply Hemb.
  - apply Forall_lookup. intros k v Hk.
    pose proof (lookup_lt_Some _ _ _ Hk) as Hlt. rewrite Hlen in Hlt.
    destruct (grid_index_inv _ _ _ Hlt) as (r & c & Hr & Hc & ->).
    rewrite (Hcells r c Hr Hc) in Hk. injection Hk as <-.
    rewrite np_vdiv_length. apply vsum_filter_length.
    intros j Hj. by apply Hemb.
Qed.

Lemma demo_query_wf : embed_wf demo_flags demo_query.
Proof.
  split.
  - by eexists.
  - exists 1. split; [reflexivity|lia].
  - simpl. lia.
  - intros i Hi. change (i ∈ [1; 2; 3; 4; 5; 6]) in Hi.
    repeat (apply elem_of_cons in Hi as [->|Hi]); try (by eexists).
    by apply elem_of_nil in Hi.
  - intros i Hi. change (i ∈ [1; 2; 3; 4; 5; 6]) in Hi.
    repeat (apply elem_of_cons in Hi as [->|Hi]); try (split; [by eexists|reflexivity]).
    by apply elem_of_nil in Hi.
  - intros i Hi. change (i ∈ [1; 2; 3; 4; 5; 6]) in Hi.
    repeat (apply elem_of_cons in Hi as [->|Hi]); intros Hs;
      try discriminate Hs; try (by eexists).
    by apply elem_of_nil in Hi.
  - intros i Hi. change (i ∈ [1; 2; 3; 4; 5; 6]) in Hi.
    repeat (apply elem_of_cons in Hi as [->|Hi]); intros Hs Hl;
      try discriminate Hs; try discriminate Hl; try (by eexists).
    by apply elem_of_nil in Hi.
Defined.

Lemma embed_table_well_formed_witness :
  embed_wf demo_flags demo_query /\
  exists qa ra,
    embed_table demo_flags demo_query = Ok (qa, ra) /\
    length qa = len_embedding demo_query /\
    length ra = (grid_rows demo_query * grid_cols demo_flags)%nat /\
    Forall (fun v => length v = len_embedding demo_query) ra.
Proof.
  split; [exact demo_query_wf|].
  exact (embed_table_well_formed demo_flags demo_query demo_query_wf).
Defined.

(** ** Table tokens outside the grid *)

Lemma embed_cell_part_in_grid FLAGS query nrows ncols st1 i st' :
  grid_shape nrows ncols (embed_array st1) ->
  embed_cell_part FLAGS query st1 i = Ok st' ->
  seg_at query i = 1 ->
  is_Some (token_cell FLAGS query nrows ncols i).
Proof.
  intros [Hle Hfe] H Hseg. unfold embed_cell_part in H.
  apply bind_Ok in H as (s & Hs & H).
  rewrite (seg_at_Ok _ _ _ Hs) in Hseg. subst s.
  assert (Hgrid : forall r cid co e ea,
    py_getitem (row_ids query) i = Ok r ->
    py_getitem (column_ids query) i = Ok cid ->
    py_getitem (column_order FLAGS) (cid - 1) = Ok co ->
    np_update2 (embed_array st1) (r - 1) (co - 1) (fun old => np_iadd old e) = Ok ea ->
    is_Some (token_cell FLAGS query nrows ncols i)).
  { intros r cid co e ea Hr Hcid Hco Hea.
    apply np_update2_Ok in Hea as (r' & c' & rw & old & new & Hr' & Hrw & Hc' & _).
    pose proof (Forall_lookup_1 _ _ _ _ Hfe Hrw) as Hrl. simpl in Hrl.
    unfold token_cell. rewrite Hs, Hr, Hcid, Hco. simpl.
    rewrite <- Hle, Hr'. rewrite <- Hrl, Hc'. by eexists. }
  simpl in H. apply bind_Ok in H as (moved & Hmoved & H).
  apply bind_Ok in Hmoved as (r & Hr & Hmoved).
  destruct moved.
  - res_inv. same_Ok. eapply Hgrid; eauto.
  - destruct (row st1 =? r - 1) eqn:Hrow; [|discriminate].
    apply bind_Ok in Hmoved as (cid & Hcid & Hmoved).
    apply bind_Ok in Hmoved as (co & Hco & Hmoved).
    injection Hmoved as Hcol. apply negb_false_iff in Hcol.
    apply Z.eqb_eq in Hrow, Hcol.
    apply bind_Ok in H as (s' & Hs' & H). same_Ok. simpl in H.
    apply bind_Ok in H as (e & He & H).
    apply bind_Ok in H as (ea & Hea & H).
    rewrite Hrow, Hcol in Hea. eapply Hgrid; eauto.
Qed.

Lemma embed_loop_in_grid FLAGS query nrows ncols d m st0 st :
  embed_inv FLAGS query nrows ncols d [] st0 ->
  for_each (embed_table_body FLAGS query) st0 (upto 1 m) = Ok st ->
  forall i, i ∈ upto 1 m -> seg_at query i = 1 ->
    is_Some (token_cell FLAGS query nrows ncols i).
Proof.
  intros H0. revert st. induction m as [|m IH]; intros st H i Hi Hseg.
  - by apply elem_of_nil in Hi.
  - rewrite upto_S, for_each_snoc in H.
    apply bind_Ok in H as (s & Hs & Hbody).
    rewrite upto_S in Hi. apply elem_of_app in Hi as [Hi|Hi]; [by eapply IH|].
    apply list_elem_of_singleton in Hi. subst i.
    pose proof (embed_inv_loop _ _ _ _ _ _ _ _ H0 Hs) as Hinv.
    unfold embed_table_body in Hbody.
    apply bind_Ok in Hbody as (s1 & Hq & Hc).
    apply embed_query_part_spec in Hq as (Hea & _); [|lia].
    eapply embed_cell_part_in_grid; [|exact Hc|exact Hseg].
    rewrite Hea. apply (inv_shape_e _ _ _ _ _ _ _ Hinv).
Qed.

Lemma embed_table_in_grid FLAGS query out :
  embed_table FLAGS query = Ok out ->
  forall i, i ∈ py_range 1 (max_seq_length FLAGS) -> seg_at query i = 1 ->
    is_Some (token_cell FLAGS query (grid_rows query) (grid_cols FLAGS) i).
Proof.
  unfold embed_table. intros H. apply bind_Ok in H as (st & H & _).
  unfold embed_accumulate in H.
  apply bind_Ok in H as (e0 & He0 & H).
  apply bind_Ok in H as (n & Hn & H).
  apply bind_Ok in H as (ea & Hea & H).
  apply bind_Ok in H as (na & Hna & H).
  apply bind_Ok in H as (qa & Hqa & H).
  unfold np_zeros2 in Hea, Hna. unfold np_zeros1 in Hqa.
  destruct (_ || _); [discriminate|]. destruct (_ <? 0); [discriminate|].
  injection Hea as <-. injection Hna as <-. injection Hqa as <-.
  rewrite py_range_upto in *.
  eapply embed_loop_in_grid; [|exact H].
  by apply embed_inv_init.
Qed.

(** X2: if a segment-1 position in 1..max_seq_length-1 has indices that
    denote no entry of the grid (row_ids[i]-1 outside the num_rows rows,
    column_ids[i]-1 outside column_order, or the remapped column outside
    the num_columns columns, negative indices counted from the end), the
    embedding path raises and no table is produced. *)
Theorem embed_table_raises_outside_grid FLAGS query i :
  i ∈ py_range 1 (max_seq_length FLAGS) ->
  seg_at query i = 1 ->
  token_cell FLAGS query (grid_rows query) (grid_cols FLAGS) i = None ->
  exists e, embed_table FLAGS query = Raise e.
Proof.
  intros Hi Hseg Hnone.
  destruct (embed_table FLAGS query) as [out|e] eqn:Hrun; [|by eexists].
  destruct (embed_table_in_grid _ _ _ Hrun i Hi Hseg) as [rc Hrc]. congruence.
Qed.

Lemma embed_table_raises_outside_grid_witness :
  exists e, embed_table (demo_flags_of 7 [2; 3]) demo_query = Raise e.
Proof.
  apply (embed_table_raises_outside_grid (demo_flags_of 7 [2; 3]) demo_query 6).
  - change (6 ∈ [1; 2; 3; 4; 5; 6]). set_solver.
  - reflexivity.
  - reflexivity.
Defined.

(** X3: a table token whose row id is 0 (the header row) is accumulated into
    the last grid row, index max(row_ids)-1, numpy resolving the index -1
    from the end; its embedding is therefore averaged into a cell of the
    last row. *)
Theorem embed_header_token_wraps FLAGS query out i :
  embed_table FLAGS query = Ok out ->
  i ∈ py_range 1 (max_seq_length FLAGS) ->
  py_getitem (segment_ids query) i = Ok 1 ->
  py_getitem (row_ids query) i = Ok 0 ->
  exists c, (0 < grid_rows query)%nat /\ (c < grid_cols FLAGS)%nat /\
    i ∈ cell_tokens FLAGS query (grid_rows query) (grid_cols FLAGS)
          ((grid_rows query - 1)%nat, c) (max_seq_length FLAGS).
Proof.
  intros Hrun Hi Hseg Hrow.
  destruct (embed_table_in_grid _ _ _ Hrun i Hi (seg_at_Ok _ _ _ Hseg)) as [[r c] Hrc].
  pose proof Hrc as Hrc'.
  unfold token_cell in Hrc. rewrite Hseg, Hrow in Hrc. simpl in Hrc.
  destruct (py_getitem (column_ids query) i) as [cid|]; [|done].
  destruct (py_getitem (column_order FLAGS) (cid - 1)) as [co|]; [|done].
  destruct (py_norm (grid_rows query) (0 - 1)) as [r2|] eqn:Hr2; [|done].
  destruct (py_norm (grid_cols FLAGS) (co - 1)) as [c2|] eqn:Hc2; [|done].
  injection Hrc as -> ->.
  pose proof (py_norm_lt _ _ _ Hc2) as Hclt.
  unfold py_norm in Hr2. simpl in Hr2.
  destruct (_ && _) eqn:Hb; [|done]. injection Hr2 as <-.
  apply andb_true_iff in Hb as [Hb1 Hb2].
  exists c. split; [lia|]. split; [done|].
  unfold cell_tokens. apply list_elem_of_filter. split; [|done].
  unfold in_cell. apply bool_decide_eq_true_2.
  rewrite Hrc'. do 2 f_equal. lia.
Qed.

Lemma embed_header_token_wraps_witness :
  exists c, (0 < grid_rows header_query)%nat /\ (c < grid_cols header_flags)%nat /\
    2 ∈ cell_tokens header_flags header_query (grid_rows header_query)
          (grid_cols header_flags) ((grid_rows header_query - 1)%nat, c) 4.
Proof.
  apply (embed_header_token_wraps header_flags header_query
           ([NaN], [[NaN]; [Fin (12 # 2)]])).
  - reflexivity.
  - change (2 ∈ [1; 2; 3]). set_solver.
  - reflexivity.
  - reflexivity.
Defined.

(** ** The entries of the probability table *)

Lemma row_at_Ok query i r : py_getitem (row_ids query) i = Ok r -> row_at query i = r.
Proof. unfold row_at. by intros ->. Qed.

Lemma col_at_Ok query i c : py_getitem (column_ids query) i = Ok c -> col_at query i = c.
Proof. unfold col_at. by intros ->. Qed.

Lemma prob_at_Ok query i p : py_getitem (probabilities query) i = Ok p -> prob_at query i = p.
Proof. unfold prob_at. by intros ->. Qed.

Lemma prob_table_body_spec FLAGS query nrows ncols arr i arr' :
  grid_shape nrows ncols arr ->
  prob_table_body FLAGS query arr i = Ok arr' ->
  match prob_cell query nrows ncols i with
  | Some (r', c') =>
      exists rw, arr !! r' = Some rw /\ (c' < length rw)%nat /\
                 arr' = <[r' := <[c' := prob_at query i]> rw]> arr
  | None => arr' = arr
  end.
Proof.
  intros [Hl Hf] H. unfold prob_table_body in H.
  apply bind_Ok in H as (seg & Hseg & H).
  apply bind_Ok in H as (cond & Hcond & H).
  assert (Hstart : cell_start query i = cond).
  { unfold cell_start. rewrite (seg_at_Ok _ _ _ Hseg).
    destruct (seg =? 1); [|by injection Hcond as <-]. simpl.
    apply bind_Ok in Hcond as (rp & Hrp & Hcond).
    apply bind_Ok in Hcond as (r & Hr & Hcond).
    rewrite (row_at_Ok _ _ _ Hrp), (row_at_Ok _ _ _ Hr).
    destruct (negb (rp =? r)); [by injection Hcond as <-|]. simpl.
    apply bind_Ok in Hcond as (cp & Hcp & Hcond).
    apply bind_Ok in Hcond as (c & Hc & Hcond).
    rewrite (col_at_Ok _ _ _ Hcp), (col_at_Ok _ _ _ Hc). by injection Hcond as <-. }
  unfold prob_cell. rewrite Hstart. destruct cond; [|by injection H as <-].
  apply bind_Ok in H as (r & Hr & H).
  apply bind_Ok in H as (cid & Hcid & H).
  apply bind_Ok in H as (co & _ & H).
  apply bind_Ok in H as (p & Hp & H).
  apply bind_Ok in H as (cid' & Hcid' & H).
  assert (cid' = cid) by congruence. subst cid'.
  apply np_update2_Ok in H as (r' & c' & rw & old & new & Hr' & Hrw & Hc' & Hold & Hnew & ->).
  injection Hnew as <-.
  pose proof (Forall_lookup_1 _ _ _ _ Hf Hrw) as Hrl. simpl in Hrl.
  rewrite (row_at_Ok _ _ _ Hr), (col_at_Ok _ _ _ Hcid), (prob_at_Ok _ _ _ Hp).
  rewrite <- Hl, Hr', <- Hrl, Hc'.
  exists rw. split; [done|]. split; [|done]. by apply lookup_lt_Some in Hold.
Qed.

Lemma prob_entry_snoc query nrows ncols rc l i :
  prob_entry query nrows ncols rc (l ++ [i]) =
  if bool_decide (prob_cell query nrows ncols i = Some rc) then prob_at query i
  else prob_entry query nrows ncols rc l.
Proof.
  unfold prob_entry. rewrite filter_snoc_bool.
  destruct (bool_decide _).
  - by rewrite last_snoc.
  - by rewrite app_nil_r.
Qed.

Lemma prob_table_loop_entries FLAGS query nrows ncols l arr0 arr :
  grid_shape nrows ncols arr0 ->
  (forall r c, (r < nrows)%nat -> (c < ncols)%nat -> grid_get arr0 r c = Some 0%Q) ->
  for_each (prob_table_body FLAGS query) arr0 l = Ok arr ->
  grid_shape nrows ncols arr /\
  forall r c, (r < nrows)%nat -> (c < ncols)%nat ->
    grid_get arr r c = Some (prob_entry query nrows ncols (r, c) l).
Proof.
  intros Hs0 H0. revert arr. induction l as [|i l IH] using rev_ind; intros arr H.
  - injection H as <-. split; [done|]. intros r c Hr Hc. by rewrite H0.
  - rewrite for_each_snoc in H. apply bind_Ok in H as (arr1 & H1 & Hbody).
    destruct (IH _ H1) as [Hs1 Hent].
    pose proof (prob_table_body_spec _ _ _ _ _ _ _ Hs1 Hbody) as Hspec.
    destruct (prob_cell query nrows ncols i) as [[r' c']|] eqn:Hcell.
    + destruct Hspec as (rw & Hrw & Hc' & ->). split.
      * by apply grid_shape_update.
      * intros r c Hr Hc. rewrite prob_entry_snoc, Hcell.
        rewrite grid_get_update by done.
        destruct (decide ((r, c) = (r', c'))) as [->|Hne].
        -- by rewrite bool_decide_eq_true_2.
        -- rewrite bool_decide_eq_false_2 by congruence. by apply Hent.
    + subst arr. split; [done|]. intros r c Hr Hc.
      rewrite prob_entry_snoc, Hcell. rewrite bool_decide_eq_false_2 by done.
      by apply Hent.
Qed.

(** X4: when the probability table of a query is built, it has max(row_ids)
    rows of num_columns entries, and the entry (r, c) holds the probability
    of the last cell start (a segment-1 position in 1..max_seq_length-1
    whose row id or column id differs from the position before) whose
    indices row_ids[i]-1 and column_ids[i]-1 denote (r, c), and zero when
    there is none; [column_order] plays no part in it. *)
Theorem prob_table_entries FLAGS query t :
  prob_table FLAGS query = Ok t ->
  grid_shape (grid_rows query) (grid_cols FLAGS) t /\
  forall r c, (r < grid_rows query)%nat -> (c < grid_cols FLAGS)%nat ->
    grid_get t r c =
      Some (prob_entry query (grid_rows query) (grid_cols FLAGS) (r, c)
                       (py_range 1 (max_seq_length FLAGS))).
Proof.
  unfold prob_table. intros H.
  apply bind_Ok in H as (n & Hn & H).
  apply bind_Ok in H as (arr0 & Harr & H).
  unfold np_zeros2 in Harr. destruct (_ || _); [discriminate|]. injection Harr as <-.
  unfold grid_rows, grid_cols. rewrite Hn.
  eapply prob_table_loop_entries; [| |exact H].
  - apply grid_shape_replicate.
  - intros r c Hr Hc. by apply grid_get_replicate.
Qed.

Lemma prob_table_entries_witness :
  grid_shape (grid_rows demo_query) (grid_cols demo_flags) [[9 # 10; 4 # 10]]%Q /\
  grid_get [[9 # 10; 4 # 10]]%Q 0 0 =
    Some (prob_entry demo_query (grid_rows demo_query) (grid_cols demo_flags)
            (0%nat, 0%nat) (py_range 1 (max_seq_length demo_flags))).
Proof.
  destruct (prob_table_entries demo_flags demo_query [[9 # 10; 4 # 10]]%Q eq_refl)
    as [Hs He].
  split; [exact Hs|]. apply He; vm_compute; lia.
Defined.

(** ** When the option checks pass *)

Lemma check_options_result_iff env output_dir t m fs :
  check_options_result env output_dir t m fs = Ok tt <->
  m = CREATE_DATA \/
  (is_Some (fs !! _get_test_examples_file env t output_dir DEV) /\
   (m = PREDICT_AND_EVALUATE \/ m = EVALUATE ->
    is_Some (fs !! _get_test_interactions_file env t output_dir DEV))).
Proof.
  unfold check_options_result.
  destruct (decide (is_Some (fs !! _get_test_interactions_file env t output_dir DEV)))
    as [Hi|Hi];
  destruct (decide (is_Some (fs !! _get_test_examples_file env t output_dir DEV)))
    as [He|He];
  rewrite ?(bool_decide_eq_true_2 _ Hi), ?(bool_decide_eq_false_2 _ Hi),
          ?(bool_decide_eq_true_2 _ He), ?(bool_decide_eq_false_2 _ He);
  destruct m; simpl; intuition congruence.
Qed.

(** X5: [_check_options] changes no file, and it returns normally exactly
    when the mode is CREATE_DATA, or the dev TF-examples file exists and,
    for PREDICT_AND_EVALUATE and EVALUATE, the dev interactions file exists
    as well.  Its three device lines are printed only once the checks have
    passed: a check that raises, and mode CREATE_DATA, leave the log as it
    was. *)
Theorem _check_options_passes_iff env output_dir t m w :
  files (snd (_check_options env output_dir t m w)) = files w /\
  (fst (_check_options env output_dir t m w) = Ok tt <->
   m = CREATE_DATA \/
   (is_Some (files w !! _get_test_examples_file env t output_dir DEV) /\
    (m = PREDICT_AND_EVALUATE \/ m = EVALUATE ->
     is_Some (files w !! _get_test_interactions_file env t output_dir DEV)))) /\
  (m <> CREATE_DATA -> fst (_check_options env output_dir t m w) = Ok tt ->
   log (snd (_check_options env output_dir t m w)) = log w ++ device_report env) /\
  (m = CREATE_DATA \/ fst (_check_options env output_dir t m w) <> Ok tt ->
   snd (_check_options env output_dir t m w) = w).
Proof.
  rewrite _check_options_run.
  pose proof (check_options_result_iff env output_dir t m (files w)) as Hiff.
  destruct (check_options_result env output_dir t m (files w)) as [[]|e]; simpl.
  - split; [by destruct (bool_decide (m = CREATE_DATA))|].
    split; [done|]. split.
    + intros Hm _. by rewrite bool_decide_eq_false_2.
    + intros [-> | Hne]; [done|]. by destruct Hne.
  - split; [done|]. split; [|done].
    split; [discriminate|]. intros H. apply Hiff in H. discriminate.
Qed.

Lemma _check_options_passes_iff_witness :
  fst (_check_options demo_env "out/sqa" SQA PREDICT demo_world) = Ok tt /\
  log (snd (_check_options demo_env "out/sqa" SQA PREDICT demo_world)) =
    [EvPrint "is_built_with_cuda: False"; EvPrint "is_gpu_available: False";
     EvPrint "GPUs: []"] /\
  snd (_check_options demo_env "out/sqa" SQA PREDICT empty_world) = empty_world.
Proof.
  destruct (_check_options_passes_iff demo_env "out/sqa" SQA PREDICT demo_world)
    as (_ & Hiff & Hlog & _).
  assert (fst (_check_options demo_env "out/sqa" SQA PREDICT demo_world) = Ok tt) as Hok.
  { apply Hiff. right. split; [|intros [?|?]; discriminate].
    apply (bool_decide_unpack _). vm_compute. exact I. }
  split; [exact Hok|]. split.
  - apply Hlog; [discriminate|exact Hok].
  - apply (_check_options_passes_iff demo_env "out/sqa" SQA PREDICT empty_world).
    right. discriminate.
Defined.


(** ** Steps of the checkpoint loop *)

Lemma world_eta (w : World) : {| files := files w; log := log w |} = w.
Proof. by destruct w. Qed.

Lemma checkpoint_step_nonempty path s :
  checkpoint_step (Some path) = Ok s -> String.eqb path "" = false.
Proof. destruct path; [discriminate|done]. Qed.

Lemma predict_loop_sleeps env FLAGS t m output_dir model_dir use_tpu N k later w :
  predict_loop env FLAGS t m output_dir model_dir true use_tpu N None
               (replicate k None ++ later) w =
  predict_loop env FLAGS t m output_dir model_dir true use_tpu N None later
               {| files := files w; log := log w ++ sleep_events k |}.
Proof.
  revert w. induction k as [|k IH]; intros w.
  - unfold sleep_events. simpl. by rewrite app_nil_r, world_eta.
  - simpl. unfold mbind at 1. unfold Script_bind at 1. unfold emit at 1.
    unfold mbind at 1. unfold Script_bind at 1. unfold emit at 1.
    rewrite IH. simpl. unfold sleep_events. simpl.
    by rewrite <- !app_assoc.
Qed.

(** X6: with loop_predict set, as long as [latest_checkpoint] answers None
    the loop only logs the sleeping message and sleeps 300 seconds, once for
    each poll; it raises nothing, predicts nothing and changes no file. *)
Theorem predict_loop_waits_without_checkpoint env FLAGS t m output_dir model_dir use_tpu N k w :
  predict_loop env FLAGS t m output_dir model_dir true use_tpu N None (replicate k None) w =
  (Ok Polling, {| files := files w; log := log w ++ sleep_events k |}).
Proof.
  rewrite <- (app_nil_r (replicate k None)). by rewrite predict_loop_sleeps.
Qed.

Lemma predict_loop_pass env FLAGS t output_dir model_dir loop_predict use_tpu N
    path later s w w1 :
  checkpoint_step (Some path) = Ok s ->
  _predict env FLAGS t output_dir model_dir use_tpu s w = (Ok tt, w1) ->
  predict_loop env FLAGS t PREDICT output_dir model_dir loop_predict use_tpu N None
               (Some path :: later) w =
  if negb loop_predict || (s >=? N) then (Ok Returned, finished w1 s)
  else predict_loop env FLAGS t PREDICT output_dir model_dir loop_predict use_tpu N None
                    later w1.
Proof.
  intros Hs Hp. pose proof (checkpoint_step_nonempty _ _ Hs) as Hne.
  cbn [predict_loop py_not_str]. rewrite Hne, andb_false_r.
  rewrite (bool_decide_eq_false_2 (Some path = None)) by done.
  rewrite andb_false_r.
  unfold mbind at 1. unfold Script_bind at 1. unfold lift at 1. rewrite Hs.
  unfold mbind at 1. unfold Script_bind at 1. rewrite Hp.
  unfold mbind at 1. unfold Script_bind at 1.
  rewrite (bool_decide_eq_false_2 (PREDICT = PREDICT_AND_EVALUATE)) by done.
  unfold mret at 1. unfold Script_ret at 1.
  destruct (negb loop_predict || (s >=? N)); [|done].
  reflexivity.
Qed.

(** X7: with loop_predict unset the loop makes one pass at most: with no
    checkpoint (None or the empty string) it raises ValueError "No
    checkpoint found" having done nothing, and otherwise, in mode PREDICT,
    it predicts the latest checkpoint once and returns, whatever its step
    and num_train_steps are. *)
Theorem predict_loop_without_looping env FLAGS t m output_dir model_dir use_tpu N prev
    checkpoint later w :
  (py_not_str checkpoint = true ->
   predict_loop env FLAGS t m output_dir model_dir false use_tpu N prev
                (checkpoint :: later) w =
   (Raise (ValueError ("No checkpoint found at " +:+ model_dir +:+ ".")), w)) /\
  (forall path s w1,
     checkpoint = Some path ->
     checkpoint_step (Some path) = Ok s ->
     _predict env FLAGS t output_dir model_dir use_tpu s w = (Ok tt, w1) ->
     predict_loop env FLAGS t PREDICT output_dir model_dir false use_tpu N None
                  (checkpoint :: later) w =
     (Ok Returned, finished w1 s)).
Proof.
  split.
  - intros Hnot. cbn [predict_loop]. rewrite Hnot. reflexivity.
  - intros path s w1 -> Hs Hp.
    by rewrite (predict_loop_pass _ _ _ _ _ _ _ _ _ _ _ _ _ Hs Hp).
Qed.

(** X8: with loop_predict set and mode PREDICT, a pass at a checkpoint whose
    step is below num_train_steps is followed at once by the next poll, with
    [prev_checkpoint] still None: when that poll answers the same checkpoint
    again it is predicted a second time, without any sleep in between. *)
Theorem predict_loop_repeats_checkpoint env FLAGS t output_dir model_dir use_tpu N
    path later s w w1 w2 :
  checkpoint_step (Some path) = Ok s ->
  s < N ->
  _predict env FLAGS t output_dir model_dir use_tpu s w = (Ok tt, w1) ->
  _predict env FLAGS t output_dir model_dir use_tpu s w1 = (Ok tt, w2) ->
  predict_loop env FLAGS t PREDICT output_dir model_dir true use_tpu N None
               (Some path :: Some path :: later) w =
  predict_loop env FLAGS t PREDICT output_dir model_dir true use_tpu N None later w2.
Proof.
  intros Hs Hlt Hp1 Hp2.
  rewrite (predict_loop_pass _ _ _ _ _ _ _ _ _ _ _ _ _ Hs Hp1).
  replace (s >=? N) with false by (rewrite Z.geb_leb; symmetry; apply Z.leb_gt; lia).
  cbn [negb orb].
  rewrite (predict_loop_pass _ _ _ _ _ _ _ _ _ _ _ _ _ Hs Hp2).
  replace (s >=? N) with false by (rewrite Z.geb_leb; symmetry; apply Z.leb_gt; lia).
  done.
Qed.

(** X9: with loop_predict set and mode PREDICT, the loop returns right after
    the pass at the first checkpoint whose step has reached num_train_steps;
    what [latest_checkpoint] would answer later is not looked at. *)
Theorem predict_loop_stops_at_last_step env FLAGS t output_dir model_dir use_tpu N
    path later s w w1 :
  checkpoint_step (Some path) = Ok s ->
  N <= s ->
  _predict env FLAGS t output_dir model_dir use_tpu s w = (Ok tt, w1) ->
  predict_loop env FLAGS t PREDICT output_dir model_dir true use_tpu N None
               (Some path :: later) w =
  (Ok Returned, finished w1 s).
Proof.
  intros Hs Hle Hp.
  rewrite (predict_loop_pass _ _ _ _ _ _ _ _ _ _ _ _ _ Hs Hp).
  replace (s >=? N) with true by (rewrite Z.geb_leb; symmetry; apply Z.leb_le; lia).
  done.
Qed.

(** X10: in mode PREDICT_AND_EVALUATE the first pass is the last: once the
    predictions of the checkpoint are written, the call of the undefined
    [_eval] raises NameError, whether loop_predict is set or not. *)
Theorem predict_loop_evaluate_raises env FLAGS t output_dir model_dir loop_predict
    use_tpu N path later s w w1 :
  checkpoint_step (Some path) = Ok s ->
  _predict env FLAGS t output_dir model_dir use_tpu s w = (Ok tt, w1) ->
  predict_loop env FLAGS t PREDICT_AND_EVALUATE output_dir model_dir loop_predict
               use_tpu N None (Some path :: later) w =
  (Raise (NameError "_eval"), w1).
Proof.
  intros Hs Hp. pose proof (checkpoint_step_nonempty _ _ Hs) as Hne.
  cbn [predict_loop py_not_str]. rewrite Hne, andb_false_r.
  rewrite (bool_decide_eq_false_2 (Some path = None)) by done.
  rewrite andb_false_r.
  unfold mbind at 1. unfold Script_bind at 1. unfold lift at 1. rewrite Hs.
  unfold mbind at 1. unfold Script_bind at 1. rewrite Hp.
  reflexivity.
Qed.

Lemma predict_loop_without_looping_witness :
  predict_loop demo_env demo_flags WTQ PREDICT "out/wtq" "out/wtq/model" false false
               2000 None [None] wtq_world =
    (Raise (ValueError ("No checkpoint found at " +:+ "out/wtq/model" +:+ ".")), wtq_world) /\
  predict_loop demo_env demo_flags WTQ PREDICT "out/wtq" "out/wtq/model" false false
               2000 None [Some ckpt_1000] wtq_world =
    (Ok Returned, finished (wtq_pass wtq_world) 1000).
Proof.
  split.
  - apply (proj1 (predict_loop_without_looping demo_env demo_flags WTQ PREDICT
                    "out/wtq" "out/wtq/model" false 2000 None None [] wtq_world)).
    reflexivity.
  - apply (proj2 (predict_loop_without_looping demo_env demo_flags WTQ PREDICT
                    "out/wtq" "out/wtq/model" false 2000 None (Some ckpt_1000) []
                    wtq_world) ckpt_1000 1000 (wtq_pass wtq_world)).
    + reflexivity.
    + vm_compute. reflexivity.
    + vm_compute. reflexivity.
Defined.

Lemma predict_loop_repeats_checkpoint_witness :
  predict_loop demo_env demo_flags WTQ PREDICT "out/wtq" "out/wtq/model" true false
               2000 None [Some ckpt_1000; Some ckpt_1000] wtq_world =
  predict_loop demo_env demo_flags WTQ PREDICT "out/wtq" "out/wtq/model" true false
               2000 None [] (wtq_pass (wtq_pass wtq_world)).
Proof.
  apply (predict_loop_repeats_checkpoint demo_env demo_flags WTQ "out/wtq"
           "out/wtq/model" false 2000 ckpt_1000 [] 1000 wtq_world
           (wtq_pass wtq_world) (wtq_pass (wtq_pass wtq_world))).
  - vm_compute. reflexivity.
  - lia.
  - vm_compute. reflexivity.
  - vm_compute. reflexivity.
Defined.

Lemma predict_loop_stops_at_last_step_witness :
  predict_loop demo_env demo_flags WTQ PREDICT "out/wtq" "out/wtq/model" true false
               1000 None [Some ckpt_1000; None] wtq_world =
  (Ok Returned, finished (wtq_pass wtq_world) 1000).
Proof.
  apply (predict_loop_stops_at_last_step demo_env demo_flags WTQ "out/wtq"
           "out/wtq/model" false 1000 ckpt_1000 [None] 1000 wtq_world
           (wtq_pass wtq_world)).
  - vm_compute. reflexivity.
  - lia.
  - vm_compute. reflexivity.
Defined.

Lemma predict_loop_evaluate_raises_witness :
  predict_loop demo_env demo_flags WTQ PREDICT_AND_EVALUATE "out/wtq" "out/wtq/model"
               true false 1000 None [Some ckpt_1000] wtq_world =
  (Raise (NameError "_eval"), wtq_pass wtq_world).
Proof.
  apply (predict_loop_evaluate_raises demo_env demo_flags WTQ "out/wtq"
           "out/wtq/model" true false 1000 ckpt_1000 [] 1000 wtq_world
           (wtq_pass wtq_world)).
  - vm_compute. reflexivity.
  - vm_compute. reflexivity.
Defined.

(** ** Prediction files never coincide *)

Lemma os_path_join_inj_name a f x y :
  starts_with_sep x = false -> starts_with_sep y = false ->
  os_path_join a (f +:+ x) = os_path_join a (f +:+ y) -> x = y.
Proof.
  intros Hx Hy. unfold os_path_join.
  assert (Hxy : starts_with_sep (f +:+ x) = starts_with_sep (f +:+ y)).
  { rewrite !starts_with_sep_app. destruct f; [congruence|done]. }
  rewrite <- Hxy. destruct (starts_with_sep (f +:+ x)).
  - intros H. by apply String.app_inj in H.
  - destruct (_ || _); intros H.
    + apply String.app_inj in H. by apply String.app_inj in H.
    + apply String.app_inj in H. apply String.app_inj in H.
      by apply String.app_inj in H.
Qed.

Lemma prediction_suffix_not_absolute seq gs :
  starts_with_sep (prediction_suffix seq gs +:+ ".tsv") = false.
Proof. unfold prediction_suffix. destruct seq, gs; reflexivity. Qed.


(** ** What the script leaves alone *)

Lemma frames_ret {A} touch (a : A) : frames touch (mret a).
Proof. intros w r w' [= <- <-] p _. done. Qed.

Lemma frames_raise {A} touch e : frames touch (@raise A e).
Proof. intros w r w' [= <- <-] p _. done. Qed.

Lemma frames_raise_if touch e : frames touch (raise_if e).
Proof. destruct e; [apply frames_raise|apply frames_ret]. Qed.

Lemma frames_lift {A} touch (x : res A) : frames touch (lift x).
Proof. intros w r w' [= <- <-] p _. done. Qed.

Lemma frames_emit touch ev : frames touch (emit ev).
Proof. intros w r w' [= <- <-] p _. done. Qed.

Lemma frames_bind {A B} touch (m : Script A) (f : A -> Script B) :
  frames touch m -> (forall a, frames touch (f a)) -> frames touch (m ≫= f).
Proof.
  intros Hm Hf w r w' H p Hp. unfold mbind, Script_bind in H.
  destruct (m w) as [[a|e] w1] eqn:Hmw.
  - rewrite (Hf a _ _ _ H p Hp). by apply (Hm _ _ _ Hmw).
  - injection H as <- <-. by apply (Hm _ _ _ Hmw).
Qed.

Lemma frames_for_eachM {I} touch (body : I -> Script unit) l :
  (forall i, frames touch (body i)) -> frames touch (for_eachM body l).
Proof.
  intros Hb. induction l as [|i l IH]; simpl.
  - apply frames_ret.
  - apply frames_bind; [apply Hb|]. intros _. apply IH.
Qed.

Lemma frames_gfile_exists touch path : frames touch (gfile_exists path).
Proof. intros w r w' [= <- <-] p _. done. Qed.

Lemma frames_np_load touch path : frames touch (np_load path).
Proof.
  intros w r w' H p _. unfold np_load in H.
  destruct (files w !! path) as [[]|]; by injection H as <- <-.
Qed.

Lemma frames_np_save (touch : string -> Prop) path arr :
  touch path -> frames touch (np_save path arr).
Proof.
  intros Ht w r w' [= <- <-] p Hp. simpl.
  apply lookup_insert_ne. intros ->. done.
Qed.

Lemma frames_write_predictions (touch : string -> Prop) env src path :
  touch path -> frames touch (write_predictions env src path).
Proof.
  intros Ht w r w' H p Hp. unfold write_predictions in H.
  destruct (source_error env (files w) src); injection H as <- <-; [done|]. simpl.
  apply lookup_insert_ne. intros ->. done.
Qed.

Lemma frames_read_classifier_dataset touch env c example_file :
  frames touch (read_classifier_dataset env c example_file).
Proof.
  intros w r w' H p _. unfold read_classifier_dataset in H.
  destruct (source_error _ _ _); by injection H as <- <-.
Qed.

Lemma frames_check_options touch env output_dir t m :
  frames touch (_check_options env output_dir t m).
Proof.
  intros w r w' H p _. rewrite _check_options_run in H.
  destruct (check_options_result _ _ _ _ _); injection H as <- <-; [|done].
  by destruct (bool_decide (m = CREATE_DATA)).
Qed.

Lemma frames_logger_setLevel touch env level : frames touch (logger_setLevel env level).
Proof.
  unfold logger_setLevel.
  destruct (bool_decide _); [apply frames_emit|apply frames_raise].
Qed.

Lemma frames_gfile_copy (touch : string -> Prop) src dst :
  touch dst -> frames touch (gfile_copy src dst).
Proof.
  intros Ht w r w' H p Hp. unfold gfile_copy in H.
  destruct (files w !! src); injection H as <- <-; [|done]. simpl.
  apply lookup_insert_ne. intros ->. done.
Qed.

Lemma frames_predict env FLAGS t output_dir model_dir use_tpu global_step :
  frames (output_path env FLAGS t model_dir)
         (_predict env FLAGS t output_dir model_dir use_tpu global_step).
Proof.
  assert (Hpred : forall ts seq gs,
            output_path env FLAGS t model_dir
              (_get_test_prediction_file env t model_dir ts seq gs)).
  { intros ts seq gs. left. eauto. }
  unfold _predict. apply frames_bind.
  - apply frames_for_eachM. intros ts. unfold _predict_for_set.
    apply frames_bind; [by apply frames_write_predictions|].
    intros _. by apply frames_gfile_copy.
  - intros _. destruct (bool_decide (t = SQA)); [|apply frames_ret].
    destruct use_tpu; [apply frames_emit|].
    apply frames_for_eachM. intros ts. unfold _predict_sequence_for_set.
    apply frames_bind; [apply frames_read_classifier_dataset|]. intros _.
    apply frames_bind.
    { destruct (write_prob_table FLAGS); [|apply frames_ret].
      apply frames_for_eachM. intros q. unfold write_prob_table_query.
      apply frames_bind; [apply frames_lift|]. intros ?.
      apply frames_bind; [apply frames_np_load|]. intros ?.
      apply frames_bind; [apply frames_lift|]. intros ?.
      apply frames_np_save. right. by left. }
    intros _. apply frames_bind.
    { destruct (write_embed_table FLAGS); [|apply frames_ret].
      apply frames_for_eachM. intros q. unfold write_embed_table_query.
      apply frames_bind; [apply frames_lift|]. intros ?.
      apply frames_bind; [apply frames_emit|]. intros _.
      apply frames_bind; [apply frames_emit|]. intros _.
      apply frames_bind; apply frames_np_save || intros ?.
      - right. right. by left.
      - apply frames_np_save. right. right. by right. }
    intros _. apply frames_bind; [by apply frames_write_predictions|].
    intros _. by apply frames_gfile_copy.
Qed.

Lemma frames_predict_loop env FLAGS t m output_dir model_dir loop_predict use_tpu N
    prev latest_checkpoints :
  frames (output_path env FLAGS t model_dir)
         (predict_loop env FLAGS t m output_dir model_dir loop_predict use_tpu N prev
                       latest_checkpoints).
Proof.
  induction latest_checkpoints as [|c later IH]; cbn [predict_loop].
  - apply frames_ret.
  - destruct (negb loop_predict && py_not_str c); [apply frames_raise|].
    destruct (loop_predict && bool_decide (c = prev)).
    + apply frames_bind; [apply frames_emit|]. intros _.
      apply frames_bind; [apply frames_emit|]. intros _. apply IH.
    + apply frames_bind; [apply frames_lift|]. intros s.
      apply frames_bind; [apply frames_predict|]. intros _.
      apply frames_bind.
      { destruct (bool_decide (m = PREDICT_AND_EVALUATE));
          [apply frames_raise|apply frames_ret]. }
      intros _. destruct (negb loop_predict || (s >=? N)); [|apply IH].
      apply frames_bind; [apply frames_emit|]. intros _. apply frames_ret.
Qed.

Lemma frames_train_and_predict env FLAGS t use_tpu test_batch_size train_batch_size
    gradient_accumulation_steps test_mode m output_dir model_dir loop_predict
    latest_checkpoints :
  frames (output_path env FLAGS t model_dir)
         (_train_and_predict env FLAGS t use_tpu test_batch_size train_batch_size
            gradient_accumulation_steps test_mode m output_dir model_dir loop_predict
            latest_checkpoints).
Proof.
  unfold _train_and_predict.
  apply frames_bind; [apply frames_emit|]. intros _.
  apply frames_bind.
  { destruct t; apply frames_ret || apply frames_raise. }
  intros _. apply frames_bind.
  { destruct test_mode; [apply frames_ret|].
    destruct (_ =? 0); [apply frames_raise|apply frames_ret]. }
  intros steps. apply frames_bind; [apply frames_raise_if|]. intros _.
  apply frames_bind.
  { destruct (_ =? 0); [apply frames_raise|apply frames_ret]. }
  intros _. apply frames_bind; [apply frames_raise_if|]. intros _.
  destruct (_ || _); [apply frames_predict_loop|apply frames_raise].
Qed.

Lemma ends_differently (a b s t : string) :
  String.length s = String.length t -> s <> t -> a +:+ s <> b +:+ t.
Proof. intros Hl Hne H. by apply string_app_same_length_suffix in H. Qed.

Lemma tfrecord_not_output env FLAGS t model_dir dir filename :
  ~ output_path env FLAGS t model_dir (os_path_join dir (filename +:+ ".tfrecord")).
Proof.
  destruct (os_path_join_suffix dir (filename +:+ ".tfrecord")) as [pre ->].
  change ".tfrecord" with (".tfre" +:+ "cord").
  rewrite <- !string_app_assoc.
  intros [(ts & seq & gs & H)|[H|[H|H]]]; revert H.
  - rewrite _get_test_prediction_file_eq.
    match goal with |- context [os_path_join ?a ?b] =>
      destruct (os_path_join_suffix a b) as [pre' ->] end.
    rewrite <- !string_app_assoc. by apply ends_differently.
  - unfold probs_path. change "/probs.npy" with ("/probs" +:+ ".npy").
    rewrite <- !string_app_assoc. by apply ends_differently.
  - unfold query_path. change "/query.npy" with ("/query" +:+ ".npy").
    rewrite <- !string_app_assoc. by apply ends_differently.
  - unfold embeds_path. change "/embeds.npy" with ("/embeds" +:+ ".npy").
    rewrite <- !string_app_assoc. by apply ends_differently.
Qed.

(** X12: whatever [main] does and however it ends, it changes no file other
    than the prediction files of the task under the model directory and the
    three dumped arrays probs.npy, query.npy and embeds.npy; in particular
    the TF-examples and interactions files it reads stay as they were. *)
Theorem main_changes_only_outputs env FLAGS argv latest_checkpoints w r w' :
  main env FLAGS argv latest_checkpoints w = (r, w') ->
  (forall p,
     (forall t, Task_getitem env (task FLAGS) = Ok t ->
                ~ output_path env FLAGS t (main_model_dir env FLAGS t) p) ->
     files w' !! p = files w !! p) /\
  (forall t ts, Task_getitem env (task FLAGS) = Ok t ->
     files w' !! _get_test_examples_file env t (main_output_dir env FLAGS t) ts =
       files w !! _get_test_examples_file env t (main_output_dir env FLAGS t) ts /\
     files w' !! _get_test_interactions_file env t (main_output_dir env FLAGS t) ts =
       files w !! _get_test_interactions_file env t (main_output_dir env FLAGS t) ts).
Proof.
  intros Hrun.
  assert (Hframe : forall p,
     (forall t, Task_getitem env (task FLAGS) = Ok t ->
                ~ output_path env FLAGS t (main_model_dir env FLAGS t) p) ->
     files w' !! p = files w !! p).
  { intros p Hp. unfold main in Hrun.
    destruct (1 <? py_len argv); [by injection Hrun as <- <-|].
    unfold mbind at 1 in Hrun. unfold Script_bind at 1 in Hrun.
    destruct ((if py_truthy_str (tapas_verbosity FLAGS)
               then logger_setLevel env (default "" (tapas_verbosity FLAGS))
               else mret tt) w) as [[[]|e] w0] eqn:Hverb.
    2:{ injection Hrun as <- <-. revert Hverb.
        destruct (py_truthy_str _); intros Hverb.
        - exact (frames_logger_setLevel (fun _ => False) env _ _ _ _ Hverb p (fun H => H)).
        - discriminate. }
    assert (files w0 !! p = files w !! p) as <-.
    { revert Hverb. destruct (py_truthy_str _); intros Hverb.
      - exact (frames_logger_setLevel (fun _ => False) env _ _ _ _ Hverb p (fun H => H)).
      - by injection Hverb as <-. }
    clear Hverb.
    unfold mbind at 1 in Hrun. unfold Script_bind at 1 in Hrun.
    unfold lift at 1 in Hrun.
    destruct (Task_getitem env (task FLAGS)) as [t|e] eqn:Ht;
      [|by injection Hrun as <- <-].
    specialize (Hp t eq_refl). revert Hrun.
    fold (main_output_dir env FLAGS t). fold (main_model_dir env FLAGS t).
    intros Hrun. revert w0 r w' Hrun p Hp.
    change (frames (output_path env FLAGS t (main_model_dir env FLAGS t))
      (lift (Mode_getitem (py_upper env (mode FLAGS))) ≫= fun m =>
       _check_options env (main_output_dir env FLAGS t) t m ≫= fun _ =>
       if bool_decide (m = PREDICT_AND_EVALUATE) || bool_decide (m = PREDICT) then
         emit (EvPrint "Training or predicting ...") ≫= fun _ =>
         _train_and_predict env FLAGS t (use_tpu FLAGS) (test_batch_size FLAGS)
           (train_batch_size FLAGS) (gradient_accumulation_steps FLAGS)
           (test_mode FLAGS) m (main_output_dir env FLAGS t) (main_model_dir env FLAGS t)
           (loop_predict FLAGS) latest_checkpoints
       else raise (ValueError ("Not Predictive Mode: " +:+ Mode_str m)))).
    apply frames_bind; [apply frames_lift|]. intros m.
    apply frames_bind; [apply frames_check_options|].
    intros _. destruct (_ || _); [|apply frames_raise].
    apply frames_bind; [apply frames_emit|]. intros _.
    apply frames_train_and_predict. }
  split; [exact Hframe|].
  intros t ts Ht. split; apply Hframe; intros t' Ht'; apply tfrecord_not_output.
Qed.

Lemma main_changes_only_outputs_witness :
  let run := main demo_env demo_flags [] [Some "out/sqa/model/model.ckpt-2000"] demo_world in
  files (snd run) !! _get_test_examples_file demo_env SQA (main_output_dir demo_env demo_flags SQA) DEV =
    files demo_world !! _get_test_examples_file demo_env SQA (main_output_dir demo_env demo_flags SQA) DEV.
Proof.
  intros run.
  assert (Hrun : run = (fst run, snd run)) by (by destruct run).
  exact (proj1 (proj2 (main_changes_only_outputs demo_env demo_flags []
                         [Some "out/sqa/model/model.ckpt-2000"] demo_world
                         (fst run) (snd run) Hrun) SQA DEV eq_refl)).
Defined.

(** ** Failures while the probability file is written *)

Lemma for_eachM_app {I} (body : I -> Script unit) l1 l2 w :
  for_eachM body (l1 ++ l2) w =
  match for_eachM body l1 w with
  | (Ok _, w1) => for_eachM body l2 w1
  | (Raise e, w1) => (Raise e, w1)
  end.
Proof.
  revert w. induction l1 as [|i l1 IH]; intros w; simpl; [done|].
  unfold mbind, Script_bind. destruct (body i w) as [[a|e] w1]; [|done].
  apply IH.
Qed.

Lemma write_prob_tables_run FLAGS qs rows w :
  files w !! probs_path FLAGS = Some (Npy (Arr2 (grid_cols FLAGS) rows)) ->
  Forall (fun query => is_Ok (prob_table FLAGS query)) qs ->
  exists w',
    for_eachM (write_prob_table_query FLAGS) qs w = (Ok tt, w') /\
    files w' !! probs_path FLAGS =
      Some (Npy (Arr2 (grid_cols FLAGS) (rows ++ concat (prob_rows FLAGS <$> qs)))) /\
    log w' = log w.
Proof.
  revert w rows. induction qs as [|q qs IH]; intros w rows Hf Hall.
  - exists w. simpl. by rewrite app_nil_r.
  - apply Forall_cons in Hall as [Hq Hall].
    rewrite fmap_cons. cbn [for_eachM concat].
    unfold mbind at 1. unfold Script_bind.
    rewrite (write_prob_table_query_present _ _ _ _ Hf Hq).
    set (w1 := {| files := <[probs_path FLAGS :=
                     Npy (Arr2 (grid_cols FLAGS) (rows ++ prob_rows FLAGS q))]>
                   (files w); log := log w |}).
    destruct (IH w1 (rows ++ prob_rows FLAGS q)) as (w' & Hrun & Hfile & Hlog);
      [by (simpl; rewrite lookup_insert_eq)|exact Hall|].
    exists w'. rewrite app_assoc. done.
Qed.

Lemma write_prob_table_query_raises FLAGS query w e w' :
  write_prob_table_query FLAGS query w = (Raise e, w') -> w' = w.
Proof.
  unfold write_prob_table_query, mbind, Script_bind, lift, np_load, np_save.
  destruct (prob_table FLAGS query) as [t|]; [|by intros [= _ <-]].
  destruct (files w !! probs_path FLAGS) as [[arr| |]|]; try by intros [= _ <-].
  destruct (np_concatenate arr _); [discriminate|by intros [= _ <-]].
Qed.

(** X13: a query whose write to probs.npy raises leaves the world exactly as
    it was, and the rows appended for the queries before it stay in the
    file: when the table of a query cannot be built, the loop ends in that
    exception with the file holding the old rows followed by the tables of
    the earlier queries only.  A probs.npy of another width makes the
    concatenation raise ValueError, again with nothing changed. *)
Theorem write_prob_tables_partial FLAGS qs query rest rows w :
  (forall e w', write_prob_table_query FLAGS query w = (Raise e, w') -> w' = w) /\
  (forall e,
     files w !! probs_path FLAGS = Some (Npy (Arr2 (grid_cols FLAGS) rows)) ->
     Forall (fun q => is_Ok (prob_table FLAGS q)) qs ->
     prob_table FLAGS query = Raise e ->
     exists w',
       for_eachM (write_prob_table_query FLAGS) (qs ++ query :: rest) w = (Raise e, w') /\
       files w' !! probs_path FLAGS =
         Some (Npy (Arr2 (grid_cols FLAGS) (rows ++ concat (prob_rows FLAGS <$> qs))))) /\
  (forall c,
     files w !! probs_path FLAGS = Some (Npy (Arr2 c rows)) ->
     c <> grid_cols FLAGS ->
     is_Ok (prob_table FLAGS query) ->
     exists msg, write_prob_table_query FLAGS query w = (Raise (ValueError msg), w)).
Proof.
  split; [|split].
  - intros e w'. apply write_prob_table_query_raises.
  - intros e Hf Hall Hq.
    destruct (write_prob_tables_run _ _ _ _ Hf Hall) as (w1 & Hrun & Hfile & _).
    exists w1. rewrite for_eachM_app, Hrun. split; [|done].
    simpl. unfold mbind, Script_bind.
    unfold write_prob_table_query at 1. unfold mbind, Script_bind, lift.
    rewrite Hq. done.
  - intros c Hf Hc [t Ht].
    unfold write_prob_table_query, mbind, Script_bind, lift, np_load.
    rewrite Ht, Hf. unfold np_concatenate, prob_ndarray. fold (grid_cols FLAGS).
    rewrite decide_False by done. eauto.
Qed.

Lemma write_prob_tables_partial_witness :
  (exists w',
     for_eachM (write_prob_table_query demo_flags) ([demo_query] ++ sparse_query :: [])
               demo_world = (Raise IndexError, w') /\
     files w' !! probs_path demo_flags =
       Some (Npy (Arr2 (grid_cols demo_flags)
                   ([] ++ concat (prob_rows demo_flags <$> [demo_query]))))) /\
  (exists msg,
     write_prob_table_query demo_flags demo_query
       {| files := <["out/probs.npy" := Npy (Arr2 3 [])]> ∅; log := [] |} =
     (Raise (ValueError msg),
      {| files := <["out/probs.npy" := Npy (Arr2 3 [])]> ∅; log := [] |})).
Proof.
  split.
  - apply (proj1 (proj2 (write_prob_tables_partial demo_flags [demo_query] sparse_query
                           [] [] demo_world)) IndexError).
    + vm_compute. reflexivity.
    + repeat constructor. by eexists.
    + reflexivity.
  - apply (proj2 (proj2 (write_prob_tables_partial demo_flags [] demo_query [] []
                           {| files := <["out/probs.npy" := Npy (Arr2 3 [])]> ∅;
                              log := [] |})) 3%nat).
    + vm_compute. reflexivity.
    + vm_compute. lia.
    + by eexists.
Defined.

(** ** The step of a checkpoint *)

Lemma split_go_no_sep sep cur s :
  no_char sep s = true -> split_go sep cur s = [String.rev_app cur s].
Proof.
  revert cur. induction s as [|c s IH]; intros cur H; simpl in *.
  - done.
  - apply andb_true_iff in H as [Hc Hs]. apply negb_true_iff in Hc.
    rewrite Hc. by rewrite IH.
Qed.

Lemma split_go_at_sep sep cur s1 s2 :
  no_char sep s1 = true ->
  split_go sep cur (s1 +:+ String sep s2) =
  String.rev_app cur s1 :: split_go sep "" s2.
Proof.
  revert cur. induction s1 as [|c s1 IH]; intros cur H.
  - change (split_go sep cur (String sep s2) = String.rev_app cur "" :: split_go sep "" s2).
    simpl. by rewrite Ascii.eqb_refl.
  - change (split_go sep cur (String c (s1 +:+ String sep s2)) =
            String.rev_app (String c cur) s1 :: split_go sep "" s2).
    simpl in *. apply andb_true_iff in H as [Hc Hs]. apply negb_true_iff in Hc.
    rewrite Hc. by apply IH.
Qed.

Lemma split_go_nonempty sep cur s : split_go sep cur s <> [].
Proof.
  revert cur. induction s as [|c s IH]; intros cur; simpl; [done|].
  destruct (Ascii.eqb c sep); [done|apply IH].
Qed.

Lemma last_cons_nonempty {A} (x : A) l d : l <> [] -> List.last (x :: l) d = List.last l d.
Proof. by destruct l. Qed.

Lemma split_go_last sep cur s name :
  no_char sep name = true ->
  List.last (split_go sep cur (s +:+ String sep name)) "" = name.
Proof.
  intros Hname. revert cur. induction s as [|c s IH]; intros cur.
  - rewrite (split_go_at_sep sep cur "" name eq_refl).
    rewrite last_cons_nonempty by apply split_go_nonempty.
    by rewrite split_go_no_sep.
  - change (List.last (split_go sep cur (String c (s +:+ String sep name))) "" = name).
    simpl. destruct (Ascii.eqb c sep).
    + rewrite last_cons_nonempty by apply split_go_nonempty. apply IH.
    + apply IH.
Qed.

Lemma os_path_basename_join dir name :
  no_char "/" name = true -> os_path_basename (dir +:+ "/" +:+ name) = name.
Proof. intros H. unfold os_path_basename, py_split. by apply split_go_last. Qed.

Lemma digit_of_pretty_N_char d :
  (d < 10)%N -> digit_of (pretty_N_char d) = Some (Z.of_N d).
Proof.
  intros Hd.
  assert (d = 0 \/ d = 1 \/ d = 2 \/ d = 3 \/ d = 4 \/ d = 5 \/ d = 6 \/ d = 7
          \/ d = 8 \/ d = 9)%N as Hcases by lia.
  repeat (destruct Hcases as [->|Hcases]; [reflexivity|]). by subst.
Qed.

Lemma pretty_N_char_no_sep sep d :
  digit_of sep = None -> Ascii.eqb (pretty_N_char d) sep = false.
Proof.
  intros Hsep. apply Ascii.eqb_neq. intros <-.
  unfold pretty_N_char in Hsep. by repeat case_match.
Qed.

Lemma pretty_N_go_no_char sep x s :
  digit_of sep = None -> no_char sep s = true -> no_char sep (pretty_N_go x s) = true.
Proof.
  intros Hsep. revert s. induction (N.lt_wf_0 x) as [x _ IH]; intros s Hs.
  assert (x = 0 \/ 0 < x)%N as [->|Hx] by lia.
  - by rewrite pretty_N_go_0.
  - rewrite pretty_N_go_step by done. apply IH.
    + by apply N.div_lt.
    + simpl. by rewrite pretty_N_char_no_sep.
Qed.

Lemma pretty_N_go_head x c s :
  is_Some (digit_of c) ->
  exists c' s', pretty_N_go x (String c s) = String c' s' /\ is_Some (digit_of c').
Proof.
  revert c s. induction (N.lt_wf_0 x) as [x _ IH]; intros c s Hc.
  assert (x = 0 \/ 0 < x)%N as [->|Hx] by lia.
  - rewrite pretty_N_go_0. eauto.
  - rewrite pretty_N_go_step by done. apply IH.
    + by apply N.div_lt.
    + rewrite digit_of_pretty_N_char; [done|]. by apply N.mod_lt.
Qed.

Lemma digits_go_pretty_N_go x :
  exists k, 0 <= k /\ forall acc s,
    digits_go acc (pretty_N_go x s) = digits_go (acc * 10 ^ k + Z.of_N x) s.
Proof.
  induction (N.lt_wf_0 x) as [x _ IH].
  assert (x = 0 \/ 0 < x)%N as [->|Hx] by lia.
  - exists 0. split; [lia|]. intros acc s. rewrite pretty_N_go_0. f_equal. lia.
  - destruct (IH (x `div` 10)%N) as (k & Hk & Hgo); [by apply N.div_lt|].
    exists (k + 1). split; [lia|]. intros acc s.
    rewrite pretty_N_go_step by done. rewrite Hgo. simpl.
    rewrite digit_of_pretty_N_char by (by apply N.mod_lt). f_equal.
    rewrite Z.pow_add_r by lia. rewrite N2Z.inj_div, N2Z.inj_mod.
    pose proof (Z.div_mod (Z.of_N x) 10 ltac:(lia)). change (Z.of_N 10) with 10. lia.
Qed.

Lemma py_int_digit_head c s :
  is_Some (digit_of c) ->
  py_int (String c s) =
  match digits_go 0 (String c s) with
  | Some n => Ok n
  | None => Raise (ValueError ("invalid literal for int() with base 10: " +:+ String c s))
  end.
Proof.
  intros [d Hd]. unfold py_int.
  destruct c as [[] [] [] [] [] [] [] []]; try discriminate Hd; reflexivity.
Qed.

Lemma py_int_pretty_N (n : N) : py_int (pretty n) = Ok (Z.of_N n).
Proof.
  unfold pretty, pretty_N. case_decide as Hn; [by subst|].
  rewrite pretty_N_go_step by lia.
  destruct (pretty_N_go_head (n `div` 10)%N (pretty_N_char (n `mod` 10)) "") as (c & s & Hcs & Hc).
  { rewrite digit_of_pretty_N_char; [done|]. by apply N.mod_lt. }
  rewrite Hcs, (py_int_digit_head _ _ Hc), <- Hcs.
  rewrite <- pretty_N_go_step by lia.
  destruct (digits_go_pretty_N_go n) as (k & _ & Hgo). rewrite Hgo. simpl.
  f_equal; lia.
Qed.

Lemma pretty_Z_nonneg (z : Z) : 0 <= z -> pretty z = pretty (Z.to_N z).
Proof. intros Hz. destruct z; [done|done|lia]. Qed.

Lemma pretty_N_no_char sep (n : N) : digit_of sep = None -> no_char sep (pretty n) = true.
Proof.
  intros Hsep. unfold pretty, pretty_N. case_decide.
  - simpl. rewrite andb_true_r. apply negb_true_iff.
    apply (pretty_N_char_no_sep sep 0 Hsep).
  - by apply pretty_N_go_no_char.
Qed.

Lemma no_char_app c a b :
  no_char c a = true -> no_char c b = true -> no_char c (a +:+ b) = true.
Proof.
  intros Ha Hb. induction a as [|x a IH]; [done|].
  change (no_char c (String x (a +:+ b)) = true). simpl in *.
  apply andb_true_iff in Ha as [Hx Ha]. rewrite Hx. by apply IH.
Qed.

(** X14: the step of a checkpoint is read from its base name alone. A
    checkpoint <dir>/<prefix>-<step>, with a prefix free of "-" and "/" and
    the step written in decimal, gives that step whatever the directory is
    (dashes in it included); a base name without "-" raises IndexError. *)
Theorem checkpoint_step_of_name dir pre :
  no_char "/" pre = true -> no_char "-" pre = true ->
  (forall step, 0 <= step ->
     checkpoint_step (Some (dir +:+ "/" +:+ pre +:+ "-" +:+ pretty step)) = Ok step) /\
  checkpoint_step (Some (dir +:+ "/" +:+ pre)) = Raise IndexError.
Proof.
  intros Hslash Hdash. split.
  - intros step Hstep. rewrite (pretty_Z_nonneg _ Hstep).
    unfold checkpoint_step. rewrite os_path_basename_join.
    2:{ apply no_char_app; [done|]. apply (no_char_app "/" "-"); [done|].
        by apply pretty_N_no_char. }
    unfold py_split.
    change (pre +:+ "-" +:+ pretty (Z.to_N step))
      with (pre +:+ String "-" (pretty (Z.to_N step))).
    rewrite split_go_at_sep by done.
    rewrite split_go_no_sep by (by apply pretty_N_no_char).
    simpl. rewrite py_int_pretty_N. f_equal. lia.
  - unfold checkpoint_step. rewrite os_path_basename_join by done.
    unfold py_split. rewrite split_go_no_sep by done. reflexivity.
Qed.

Lemma checkpoint_step_of_name_witness :
  checkpoint_step (Some ("runs/exp-1/sqa" +:+ "/" +:+ "model.ckpt" +:+ "-" +:+ pretty 1000))
    = Ok 1000 /\
  checkpoint_step (Some ("runs/exp-1/sqa" +:+ "/" +:+ "model.ckpt")) = Raise IndexError.
Proof.
  destruct (checkpoint_step_of_name "runs/exp-1/sqa" "model.ckpt" eq_refl eq_refl)
    as [Hstep Hnone].
  split; [apply Hstep; lia|exact Hnone].
Defined.

(** ** The unused column remapping can still raise *)

Lemma prob_table_body_lookup FLAGS query arr i arr' :
  prob_table_body FLAGS query arr i = Ok arr' ->
  cell_start query i = true ->
  is_Ok (py_getitem (column_order FLAGS) (col_at query i - 1)).
Proof.
  intros H Hstart. unfold prob_table_body in H.
  apply bind_Ok in H as (seg & Hseg & H).
  apply bind_Ok in H as (cond & Hcond & H).
  assert (Hc : cell_start query i = cond).
  { unfold cell_start. rewrite (seg_at_Ok _ _ _ Hseg).
    destruct (seg =? 1); [|by injection Hcond as <-]. simpl.
    apply bind_Ok in Hcond as (rp & Hrp & Hcond).
    apply bind_Ok in Hcond as (r & Hr & Hcond).
    rewrite (row_at_Ok _ _ _ Hrp), (row_at_Ok _ _ _ Hr).
    destruct (negb (rp =? r)); [by injection Hcond as <-|]. simpl.
    apply bind_Ok in Hcond as (cp & Hcp & Hcond).
    apply bind_Ok in Hcond as (c & Hc & Hcond).
    rewrite (col_at_Ok _ _ _ Hcp), (col_at_Ok _ _ _ Hc). by injection Hcond as <-. }
  rewrite Hstart in Hc. subst cond.
  apply bind_Ok in H as (r & Hr & H).
  apply bind_Ok in H as (cid & Hcid & H).
  apply bind_Ok in H as (co & Hco & H).
  rewrite (col_at_Ok _ _ _ Hcid). by exists co.
Qed.

Lemma prob_table_loop_lookup FLAGS query l arr0 arr :
  for_each (prob_table_body FLAGS query) arr0 l = Ok arr ->
  forall i, i ∈ l -> cell_start query i = true ->
    is_Ok (py_getitem (column_order FLAGS) (col_at query i - 1)).
Proof.
  revert arr0. induction l as [|j l IH]; intros arr0 H i Hi Hstart.
  - by apply elem_of_nil in Hi.
  - simpl in H. apply bind_Ok in H as (arr1 & Hj & H).
    apply elem_of_cons in Hi as [->|Hi].
    + by eapply prob_table_body_lookup.
    + by eapply IH.
Qed.

(** X15: although the probability table never uses the value it reads from
    [column_order], the lookup is made at every cell start: when
    column_ids[i]-1 is no index of [column_order] at some cell start, the
    table is not built and the path raises. *)
Theorem prob_table_needs_column_order FLAGS query i e :
  i ∈ py_range 1 (max_seq_length FLAGS) ->
  cell_start query i = true ->
  py_getitem (column_order FLAGS) (col_at query i - 1) = Raise e ->
  exists e', prob_table FLAGS query = Raise e'.
Proof.
  intros Hi Hstart Hlook.
  destruct (prob_table FLAGS query) as [t|e'] eqn:Hrun; [|by eexists].
  unfold prob_table in Hrun.
  apply bind_Ok in Hrun as (n & _ & Hrun).
  apply bind_Ok in Hrun as (arr0 & _ & Hrun).
  destruct (prob_table_loop_lookup _ _ _ _ _ Hrun i Hi Hstart) as [co Hco].
  congruence.
Qed.

Lemma prob_table_needs_column_order_witness :
  exists e', prob_table (demo_flags_of 7 [2]) demo_query = Raise e'.
Proof.
  apply (prob_table_needs_column_order (demo_flags_of 7 [2]) demo_query 6 IndexError).
  - change (6 ∈ [1; 2; 3; 4; 5; 6]). set_solver.
  - reflexivity.
  - reflexivity.
Defined.

Lemma py_getitem_same_length {A B} (l1 l2 : list A) k (K : res B) :
  length l1 = length l2 ->
  (py_getitem l1 k ≫= fun _ => K) = (py_getitem l2 k ≫= fun _ => K).
Proof.
  intros Hl. unfold py_getitem. rewrite Hl.
  destruct (py_norm (length l2) k) as [j|] eqn:Hj; [|done].
  apply py_norm_lt in Hj.
  destruct (lookup_lt_is_Some_2 l1 j ltac:(lia)) as [x1 ->].
  destruct (lookup_lt_is_Some_2 l2 j ltac:(lia)) as [x2 ->]. done.
Qed.

Lemma for_each_ext {S I} (f g : S -> I -> res S) s l :
  (forall s i, f s i = g s i) -> for_each f s l = for_each g s l.
Proof.
  intros Hfg. revert s. induction l as [|i l IH]; intros s; simpl; [done|].
  rewrite Hfg. destruct (g s i); simpl; auto.
Qed.

Lemma prob_table_body_same_length FLAGS o1 o2 query arr i :
  length o1 = length o2 ->
  prob_table_body (set_column_order FLAGS o1) query arr i =
  prob_table_body (set_column_order FLAGS o2) query arr i.
Proof.
  intros Hl. unfold prob_table_body. simpl.
  destruct (py_getitem (segment_ids query) i) as [seg|]; simpl; [|done].
  match goal with |- (?c ≫= _) = _ => destruct c as [[|]|] end; simpl; try done.
  destruct (py_getitem (row_ids query) i) as [r|]; simpl; [|done].
  destruct (py_getitem (column_ids query) i) as [cid|]; simpl; [|done].
  by apply py_getitem_same_length.
Qed.

(** X16: the probability table, or the exception in its place, is the same
    for any two column orders of the same length: permuting or changing the
    values of [column_order] never changes what is written to probs.npy. *)
Theorem prob_table_same_for_any_order FLAGS o1 o2 query :
  length o1 = length o2 ->
  prob_table (set_column_order FLAGS o1) query =
  prob_table (set_column_order FLAGS o2) query.
Proof.
  intros Hl. unfold prob_table. simpl.
  destruct (py_max (row_ids query)) as [n|]; simpl; [|done].
  destruct (np_zeros2 0%Q n (num_columns FLAGS)) as [arr|]; simpl; [|done].
  apply for_each_ext. intros s i. by apply prob_table_body_same_length.
Qed.

Lemma prob_table_same_for_any_order_witness :
  prob_table (set_column_order demo_flags [2; 1]) demo_query =
  prob_table (set_column_order demo_flags [1; 2]) demo_query.
Proof.
  apply (prob_table_same_for_any_order demo_flags [2; 1] [1; 2] demo_query).
  reflexivity.
Defined.

(** ** One probability file for every test set and checkpoint *)

Lemma write_prob_table_query_Ok FLAGS query w w' c rows :
  write_prob_table_query FLAGS query w = (Ok tt, w') ->
  files w !! probs_path FLAGS = Some (Npy (Arr2 c rows)) ->
  files w' !! probs_path FLAGS = Some (Npy (Arr2 c (rows ++ prob_rows FLAGS query))).
Proof.
  unfold write_prob_table_query. intros H Hf.
  apply bindM_Ok in H as (t & w1 & Ht & H). injection Ht as Ht <-.
  apply bindM_Ok in H as (loaded & w1 & Hl & H).
  unfold np_load in Hl. rewrite Hf in Hl. injection Hl as <- <-.
  apply bindM_Ok in H as (arr & w1 & Hc & H). injection Hc as Hc <-.
  unfold np_concatenate, prob_ndarray in Hc.
  case_decide as Hw; [|discriminate]. injection Hc as <-.
  injection H as <-. simpl. rewrite lookup_insert_eq.
  unfold prob_rows. by rewrite Ht.
Qed.

Lemma write_prob_tables_Ok FLAGS qs w w' c rows :
  for_eachM (write_prob_table_query FLAGS) qs w = (Ok tt, w') ->
  files w !! probs_path FLAGS = Some (Npy (Arr2 c rows)) ->
  files w' !! probs_path FLAGS =
    Some (Npy (Arr2 c (rows ++ concat (prob_rows FLAGS <$> qs)))).
Proof.
  revert w rows. induction qs as [|q qs IH]; intros w rows H Hf.
  - injection H as <-. simpl. by rewrite app_nil_r.
  - rewrite fmap_cons. cbn [for_eachM concat] in *.
    apply bindM_Ok in H as ([] & w1 & Hq & H).
    rewrite app_assoc. apply (IH _ _ H).
    by apply (write_prob_table_query_Ok _ _ _ _ _ _ Hq).
Qed.

Lemma probs_path_ne_others FLAGS :
  probs_path FLAGS <> query_path FLAGS /\ probs_path FLAGS <> embeds_path FLAGS.
Proof.
  unfold probs_path, query_path, embeds_path.
  split; intros H; by apply String.app_inj in H.
Qed.

Lemma write_embed_tables_keep_probs FLAGS qs w r w' :
  for_eachM (write_embed_table_query FLAGS) qs w = (r, w') ->
  files w' !! probs_path FLAGS = files w !! probs_path FLAGS.
Proof.
  intros H.
  apply (frames_for_eachM (fun p => p = query_path FLAGS \/ p = embeds_path FLAGS)
           (write_embed_table_query FLAGS) qs) with (w := w) (r := r) (w' := w').
  - intros q. unfold write_embed_table_query.
    apply frames_bind; [apply frames_lift|]. intros ?.
    apply frames_bind; [apply frames_emit|]. intros _.
    apply frames_bind; [apply frames_emit|]. intros _.
    apply frames_bind; [apply frames_np_save; by left|]. intros _.
    apply frames_np_save. by right.
  - done.
  - destruct (probs_path_ne_others FLAGS). intros [?|?]; done.
Qed.

Lemma prediction_file_ne_probs env FLAGS t model_dir ts seq gs :
  _get_test_prediction_file env t model_dir ts seq gs <> probs_path FLAGS.
Proof. apply prediction_file_not_npy. Qed.

Lemma _predict_sequence_for_set_probs env FLAGS t model_dir ts seq gs ts' seq' gs'
    example_file w w' c rows :
  write_prob_table FLAGS = true ->
  _predict_sequence_for_set env FLAGS example_file
    (_get_test_prediction_file env t model_dir ts seq gs)
    (_get_test_prediction_file env t model_dir ts' seq' gs') w = (Ok tt, w') ->
  files w !! probs_path FLAGS = Some (Npy (Arr2 c rows)) ->
  files w' !! probs_path FLAGS =
    Some (Npy (Arr2 c (rows ++ concat (prob_rows FLAGS <$>
                                        compute_prediction_sequence env example_file)))).
Proof.
  intros Hflag H Hf. unfold _predict_sequence_for_set in H. rewrite Hflag in H.
  apply bindM_Ok in H as ([] & w0 & Hr & H).
  apply read_classifier_dataset_Ok in Hr as (-> & _).
  apply bindM_Ok in H as ([] & w1 & Hp & H).
  apply bindM_Ok in H as ([] & w2 & He & H).
  rewrite write_predictions_then_copy in H by done. injection H as <-. simpl.
  destruct (prediction_file_not_npy env FLAGS t model_dir ts seq gs) as (_ & _ & Hp1).
  destruct (prediction_file_not_npy env FLAGS t model_dir ts' seq' gs') as (_ & _ & Hp2).
  rewrite !lookup_insert_ne by done.
  assert (files w2 !! probs_path FLAGS = files w1 !! probs_path FLAGS) as ->.
  { destruct (write_embed_table FLAGS).
    - by eapply write_embed_tables_keep_probs.
    - by injection He as <-. }
  by apply (write_prob_tables_Ok _ _ _ _ _ _ Hp).
Qed.

(** X17: with write_prob_table set, one prediction pass for SQA off TPU
    appends to the one file probs.npy first the tables of all dev queries
    and then the tables of all test queries, after whatever rows the file
    held: the rows of the two test sets, and of successive checkpoints,
    follow one another in the same array. *)
Theorem _predict_appends_dev_then_test env FLAGS output_dir model_dir global_step w w'
    c rows :
  write_prob_table FLAGS = true ->
  _predict env FLAGS SQA output_dir model_dir false global_step w = (Ok tt, w') ->
  files w !! probs_path FLAGS = Some (Npy (Arr2 c rows)) ->
  files w' !! probs_path FLAGS =
    Some (Npy (Arr2 c
      (rows
       ++ concat (prob_rows FLAGS <$> compute_prediction_sequence env
                    (_get_test_examples_file env SQA output_dir DEV))
       ++ concat (prob_rows FLAGS <$> compute_prediction_sequence env
                    (_get_test_examples_file env SQA output_dir TEST))))).
Proof.
  intros Hflag H Hf. unfold _predict in H.
  apply bindM_Ok in H as ([] & w1 & Hplain & H).
  assert (Hf1 : files w1 !! probs_path FLAGS = Some (Npy (Arr2 c rows))).
  { rewrite <- Hf. cbn [for_eachM] in Hplain.
    apply bindM_Ok in Hplain as ([] & wa & Ha & Hplain).
    apply bindM_Ok in Hplain as ([] & wb & Hb & Hplain).
    injection Hplain as <-.
    apply _predict_for_set_Ok in Ha as (_ & ->).
    apply _predict_for_set_Ok in Hb as (_ & ->).
    simpl. by rewrite !lookup_insert_ne by apply prediction_file_ne_probs. }
  rewrite bool_decide_eq_true_2 in H by done. cbn [for_eachM] in H.
  apply bindM_Ok in H as ([] & wc & Hc & H).
  apply bindM_Ok in H as ([] & wd & Hd & H). injection H as <-.
  rewrite app_assoc.
  apply (_predict_sequence_for_set_probs _ _ _ _ _ _ _ _ _ _ _ _ _ _ _ Hflag Hd).
  by apply (_predict_sequence_for_set_probs _ _ _ _ _ _ _ _ _ _ _ _ _ _ _ Hflag Hc).
Qed.

Lemma _predict_appends_dev_then_test_witness :
  let run := _predict demo_env demo_flags SQA "out/sqa" "out/sqa/model" false 1000 demo_world in
  files (snd run) !! probs_path demo_flags =
    Some (Npy (Arr2 2
      ([]
       ++ concat (prob_rows demo_flags <$> compute_prediction_sequence demo_env
                    (_get_test_examples_file demo_env SQA "out/sqa" DEV))
       ++ concat (prob_rows demo_flags <$> compute_prediction_sequence demo_env
                    (_get_test_examples_file demo_env SQA "out/sqa" TEST))))).
Proof.
  intros run.
  assert (Hrun : run = (Ok tt, snd run)) by (vm_compute; reflexivity).
  apply (_predict_appends_dev_then_test demo_env demo_flags "out/sqa" "out/sqa/model"
           1000 demo_world (snd run) 2%nat [] eq_refl Hrun).
  vm_compute. reflexivity.
Defined.

(** ** The input files of a test set *)

Lemma string_app_nonempty (a b : string) : b <> "" -> a +:+ b <> "".
Proof. intros Hb H. apply (f_equal String.length) in H.
  rewrite string_app_length in H. destruct b; [done|]. simpl in H. lia. Qed.

Lemma ends_with_sep_app a b : b <> "" -> ends_with_sep (a +:+ b) = ends_with_sep b.
Proof.
  intros Hb. induction a as [|c a IH]; [done|].
  change (ends_with_sep (String c (a +:+ b)) = ends_with_sep b).
  pose proof (string_app_nonempty a b Hb) as Hne.
  simpl. destruct (a +:+ b) eqn:E; [done|]. exact IH.
Qed.

Lemma os_path_join_twice dir sub name :
  dir <> "" -> ends_with_sep dir = false ->
  sub <> "" -> starts_with_sep sub = false -> ends_with_sep sub = false ->
  starts_with_sep name = false ->
  os_path_join (os_path_join dir sub) name = dir +:+ "/" +:+ sub +:+ "/" +:+ name.
Proof.
  intros Hd Hde Hs Hss Hse Hn.
  rewrite (os_path_join_plain dir sub) by done.
  rewrite os_path_join_plain; try done.
  - by rewrite !string_app_assoc.
  - apply string_app_nonempty. by apply (string_app_nonempty "/").
  - rewrite ends_with_sep_app by (by apply (string_app_nonempty "/")).
    by rewrite (ends_with_sep_app "/").
Qed.

(** X18: for an output directory that is not empty and does not end in "/"
    and a test-set file name that does not start with "/", the TF-examples
    file is <output_dir>/tf_examples/<name>.tfrecord and the interactions
    file is <output_dir>/interactions/<name>.tfrecord, two different paths;
    a file name that starts with "/" discards both directories, and the two
    files are then the same path <name>.tfrecord. *)
Theorem test_input_files env t output_dir ts :
  (output_dir <> "" -> ends_with_sep output_dir = false ->
   starts_with_sep (_get_test_filename env t ts) = false ->
   _get_test_examples_file env t output_dir ts =
     output_dir +:+ "/" +:+ "tf_examples" +:+ "/" +:+ _get_test_filename env t ts +:+ ".tfrecord" /\
   _get_test_interactions_file env t output_dir ts =
     output_dir +:+ "/" +:+ "interactions" +:+ "/" +:+ _get_test_filename env t ts +:+ ".tfrecord" /\
   _get_test_examples_file env t output_dir ts <>
     _get_test_interactions_file env t output_dir ts) /\
  (starts_with_sep (_get_test_filename env t ts) = true ->
   _get_test_examples_file env t output_dir ts = _get_test_filename env t ts +:+ ".tfrecord" /\
   _get_test_interactions_file env t output_dir ts = _get_test_filename env t ts +:+ ".tfrecord").
Proof.
  unfold _get_test_examples_file, _get_test_interactions_file. split.
  - intros Hd He Hf.
    assert (Hn : starts_with_sep (_get_test_filename env t ts +:+ ".tfrecord") = false).
    { rewrite starts_with_sep_app. by destruct (_get_test_filename env t ts). }
    rewrite !os_path_join_twice by done.
    split; [done|]. split; [done|]. intros H.
    apply String.app_inj in H. apply String.app_inj in H.
    apply (f_equal String.length) in H. rewrite !string_app_length in H.
    simpl in H. lia.
  - intros Hf.
    assert (Hn : starts_with_sep (_get_test_filename env t ts +:+ ".tfrecord") = true).
    { rewrite starts_with_sep_app. by destruct (_get_test_filename env t ts). }
    unfold os_path_join at 1 3. by rewrite Hn.
Qed.

Lemma test_input_files_witness :
  (_get_test_examples_file demo_env SQA "out/sqa" DEV =
     "out/sqa" +:+ "/" +:+ "tf_examples" +:+ "/" +:+ _get_test_filename demo_env SQA DEV +:+ ".tfrecord" /\
   _get_test_examples_file demo_env SQA "out/sqa" DEV <>
     _get_test_interactions_file demo_env SQA "out/sqa" DEV) /\
  (_get_test_examples_file abs_env SQA "out/sqa" DEV =
     _get_test_filename abs_env SQA DEV +:+ ".tfrecord" /\
   _get_test_interactions_file abs_env SQA "out/sqa" DEV =
     _get_test_filename abs_env SQA DEV +:+ ".tfrecord").
Proof.
  split.
  - destruct (proj1 (test_input_files demo_env SQA "out/sqa" DEV))
      as (He & _ & Hne); [discriminate|reflexivity|reflexivity|].
    split; [exact He|exact Hne].
  - apply (proj2 (test_input_files abs_env SQA "out/sqa" DEV)). reflexivity.
Defined.

(** ** The prediction files of one test set *)

Lemma string_app_inj_r (a b s : string) : a +:+ s = b +:+ s -> a = b.
Proof.
  revert b. induction a as [|x a IH]; intros [|y b] H.
  - done.
  - apply (f_equal String.length) in H.
    change (String y b +:+ s) with (String y (b +:+ s)) in H.
    rewrite string_app_length in H. simpl in H. rewrite string_app_length in H. lia.
  - apply (f_equal String.length) in H.
    change (String x a +:+ s) with (String x (a +:+ s)) in H.
    rewrite string_app_length in H. simpl in H. rewrite string_app_length in H. lia.
  - change (String x (a +:+ s) = String y (b +:+ s)) in H.
    injection H as -> H. f_equal. by apply IH.
Qed.

Lemma pretty_Z_no_letter (z : Z) rest : pretty z <> String "s" rest.
Proof.
  intros H. destruct z as [|p|p].
  - discriminate.
  - pose proof (pretty_N_no_char "s" (Npos p) eq_refl) as Hn.
    change (pretty (Z.pos p)) with (pretty (Npos p)) in H.
    rewrite H in Hn. discriminate.
  - discriminate.
Qed.

Lemma step_suffix_inj (gs gs' : option Z) :
  prediction_suffix false gs = prediction_suffix false gs' -> gs = gs'.
Proof.
  unfold prediction_suffix. destruct gs as [a|], gs' as [b|]; intros H; try done.
  change ("_" +:+ pretty a = "_" +:+ pretty b) in H.
  apply String.app_inj in H. f_equal. by apply (inj pretty).
Qed.

(** X11: for one test set, the prediction file tells whether it holds
    sequence predictions and which step it is of: two prediction files of
    the test set are the same path only when they agree on both.  So the
    per-step file is never the step-less file it is copied onto, the files
    of two steps differ, and no "_sequence" file of the test set is one of
    its plain files. *)
Theorem prediction_files_distinct env t model_dir ts seq seq' gs gs' :
  _get_test_prediction_file env t model_dir ts seq gs =
  _get_test_prediction_file env t model_dir ts seq' gs' <->
  seq = seq' /\ gs = gs'.
Proof.
  split; [|by intros [-> ->]].
  rewrite !_get_test_prediction_file_eq. intros H.
  apply os_path_join_inj_name in H; try apply prediction_suffix_not_absolute.
  apply string_app_inj_r in H.
  destruct seq, seq'.
  - split; [done|]. apply step_suffix_inj.
    unfold prediction_suffix in *. apply String.app_inj in H. exact H.
  - exfalso. unfold prediction_suffix in H. destruct gs' as [b|].
    + destruct gs; injection H as H; by apply eq_sym, pretty_Z_no_letter in H.
    + destruct gs; discriminate.
  - exfalso. unfold prediction_suffix in H. destruct gs as [a|].
    + destruct gs'; injection H as H; by apply pretty_Z_no_letter in H.
    + destruct gs'; discriminate.
  - split; [done|]. by apply step_suffix_inj.
Qed.

(** ** The first two checks of [main] *)

(** X19: [main] looks at its arguments first and at the log level second,
    before the task, the mode and the files: more than one argument is a
    UsageError whatever the flags are, and otherwise a tapas_verbosity that
    is set to a name [logging] does not know (the names are upper case:
    "info" is not one) is the ValueError "Unknown level", even when the
    task or the mode are unknown too; in both cases nothing has been done. *)
Theorem main_first_checks env FLAGS argv latest_checkpoints w :
  ((1 < length argv)%nat ->
   main env FLAGS argv latest_checkpoints w =
     (Raise (UsageError "Too many command-line arguments."), w)) /\
  ((length argv <= 1)%nat ->
   py_truthy_str (tapas_verbosity FLAGS) = true ->
   default "" (tapas_verbosity FLAGS) ∉ logging_levels ->
   main env FLAGS argv latest_checkpoints w =
     (Raise (ValueError ("Unknown level: "
                         +:+ py_repr env (default "" (tapas_verbosity FLAGS)))), w)).
Proof.
  split.
  - intros Hargv. unfold main.
    by replace (1 <? py_len argv) with true
      by (unfold py_len; symmetry; apply Z.ltb_lt; lia).
  - intros Hargv Hset Hbad. unfold main.
    replace (1 <? py_len argv) with false
      by (unfold py_len; symmetry; apply Z.ltb_ge; lia).
    rewrite Hset. unfold mbind at 1. unfold Script_bind at 1.
    unfold logger_setLevel. by rewrite bool_decide_eq_false_2.
Qed.

Lemma main_first_checks_witness :
  main demo_env (set_verbosity (demo_flags_task "NOPE") (Some "info")) ["prog"; "extra"] []
       demo_world
    = (Raise (UsageError "Too many command-line arguments."), demo_world) /\
  main demo_env (set_verbosity (demo_flags_task "NOPE") (Some "info")) ["prog"] []
       demo_world
    = (Raise (ValueError "Unknown level: 'info'"), demo_world).
Proof.
  split.
  - apply (proj1 (main_first_checks demo_env
                    (set_verbosity (demo_flags_task "NOPE") (Some "info"))
                    ["prog"; "extra"] [] demo_world)).
    simpl. lia.
  - apply (proj2 (main_first_checks demo_env
                    (set_verbosity (demo_flags_task "NOPE") (Some "info"))
                    ["prog"] [] demo_world)); [simpl; lia|reflexivity|].
    apply (bool_decide_unpack _). vm_compute. exact I.
Defined.

(** ** A test set that cannot be read *)



